(** * MM-GBSA trajectory viewer: the statistics pipeline of [mmgbsa_ui_v2.py]

    The script reads an energy column from an uploaded table, derives a time
    axis, a trailing running mean, an optional error band and summary
    statistics, and hands them to the plotting layer.  This development
    embeds that pipeline and proves the properties stated for it.

    Numbers.  The script computes with IEEE doubles.  In the pipeline a float
    is either a real number or NaN: arithmetic is exact, and NaN is kept
    because the script itself branches on it ([fillna], [min_periods],
    [count], the [isnan] masks of the plotting helper).  Statements that are
    sensitive to rounding are checked against the summary statistics
    evaluated in binary64 ([compute_stats_f64]). *)

From Stdlib Require Import PrimFloat Uint63.
From Stdlib Require FloatAxioms SpecFloat FloatOps.
From Stdlib Require Import String.
From Stdlib Require Import Reals Lra Lia List Arith Bool ZArith.
From Stdlib Require Import DecimalString.
Import ListNotations.

Open Scope R_scope.

(** ** Floats and exceptions *)

Inductive float : Type :=
| NaN
| Num (r : R).

Inductive exn : Type :=
| ValueError
| IndexError
| ParserError
| AttributeError
| StreamlitDuplicateElementKey.

Inductive result (A : Type) : Type :=
| Ok (a : A)
| Raise (e : exn).

Arguments Ok {A} a.
Arguments Raise {A} e.

Definition bind {A B : Type} (m : result A) (k : A -> result B) : result B :=
  match m with
  | Ok a => k a
  | Raise e => Raise e
  end.

Notation "x <- m ;; k" := (bind m (fun x => k))
  (at level 61, m at next level, right associativity).

(** [np.sqrt]: NaN on NaN and on negative arguments. *)
Definition fsqrt (x : float) : float :=
  match x with
  | NaN => NaN
  | Num r => if Rlt_dec r 0 then NaN else Num (sqrt r)
  end.

(** Float division.  NaN propagates.  A zero divisor gives a non-finite
    value in numpy; the only division of the script has [sqrt count] with
    [count >= 2] as divisor, so that case is collapsed into NaN. *)
Definition fdiv (x y : float) : float :=
  match x, y with
  | Num a, Num b => if Req_dec_T b 0 then NaN else Num (a / b)
  | _, _ => NaN
  end.

(** ** pandas Series of floats *)

Definition Series : Type := list float.

(** The non-missing observations, in order. *)
Fixpoint dropna (s : Series) : list R :=
  match s with
  | [] => []
  | NaN :: t => dropna t
  | Num r :: t => r :: dropna t
  end.

Definition Rsum (l : list R) : R := fold_right Rplus 0 l.

(** Mean of the observations; NaN when there is none. *)
Definition nanmean (obs : list R) : float :=
  match obs with
  | [] => NaN
  | _ => Num (Rsum obs / INR (List.length obs))
  end.

(** Squared distance of [x] to [m]. *)
Definition sqd (m x : R) : R := (x - m) * (x - m).

(** Sum of squared deviations from the mean. *)
Definition sq_dev (obs : list R) : R :=
  let m := Rsum obs / INR (List.length obs) in
  Rsum (map (fun x => (x - m) * (x - m)) obs).

(** Variance with [ddof] delta degrees of freedom; NaN when the
    denominator [n - ddof] is not positive. *)
Definition nanvar (ddof : nat) (obs : list R) : float :=
  if (List.length obs <=? ddof)%nat then NaN
  else Num (sq_dev obs / INR (List.length obs - ddof)).

Definition nanstd (ddof : nat) (obs : list R) : float :=
  fsqrt (nanvar ddof obs).

Definition nanmin (obs : list R) : float :=
  match obs with
  | [] => NaN
  | x :: t => Num (fold_left Rmin t x)
  end.

Definition nanmax (obs : list R) : float :=
  match obs with
  | [] => NaN
  | x :: t => Num (fold_left Rmax t x)
  end.

(** [Series.count / mean / std / min / max]: all skip NaN; [std] has
    [ddof=1]. *)
Definition Series_count (s : Series) : nat := List.length (dropna s).
Definition Series_mean (s : Series) : float := nanmean (dropna s).
Definition Series_std (s : Series) : float := nanstd 1 (dropna s).
Definition Series_min (s : Series) : float := nanmin (dropna s).
Definition Series_max (s : Series) : float := nanmax (dropna s).

(** [s.iloc[start:stop]] for non-negative bounds: clipped to the series. *)
Definition iloc_slice (start stop : nat) (s : Series) : Series :=
  firstn (stop - start) (skipn start s).

(** [s.iloc[i]]. *)
Definition iloc (i : nat) (s : Series) : result float :=
  match nth_error s i with
  | Some x => Ok x
  | None => Raise IndexError
  end.

(** [s.fillna(v)]. *)
Definition fillna (v : R) (s : Series) : Series :=
  map (fun x => match x with NaN => Num v | Num _ => x end) s.

Definition np_sqrt (s : Series) : Series := map fsqrt s.

(** Element-wise division of two series over the same index. *)
Fixpoint series_div (a b : Series) : Series :=
  match a, b with
  | x :: a', y :: b' => fdiv x y :: series_div a' b'
  | _, _ => []
  end.

(** *** Rolling windows

    [s.rolling(window=w, min_periods=m)] is a trailing window: at index [i]
    it holds the samples at indices [max(0, i-w+1) .. i].  The aggregate is
    NaN when fewer than [m] observations of the window are non-missing.
    pandas rejects [m > w] with a ValueError. *)

Definition rolling_window (w i : nat) (s : Series) : Series :=
  iloc_slice (i + 1 - w) (i + 1) s.

Definition rolling (w min_periods : nat) (agg : list R -> float)
    (s : Series) : result Series :=
  if (w <? min_periods)%nat then Raise ValueError
  else
    Ok (map (fun i =>
               let obs := dropna (rolling_window w i s) in
               if (List.length obs <? min_periods)%nat then NaN else agg obs)
            (seq 0 (List.length s))).

Definition rolling_mean (w min_periods : nat) : Series -> result Series :=
  rolling w min_periods nanmean.

Definition rolling_std (w min_periods : nat) : Series -> result Series :=
  rolling w min_periods (nanstd 1).

Definition rolling_count (w min_periods : nat) : Series -> result Series :=
  rolling w min_periods (fun obs => Num (INR (List.length obs))).

(** ** The script: time axis and running mean (lines 476-480) *)

(** [dt = md_length_ns / max(len(dg) - 1, 1)];
    [time_ns = [i * dt for i in range(len(dg))]]. *)
Definition time_ns (md_length_ns : R) (dg : Series) : list R :=
  let dt := md_length_ns / INR (Nat.max (List.length dg - 1) 1) in
  map (fun i => INR i * dt) (seq 0 (List.length dg)).

(** [running = dg.rolling(window=window_size, min_periods=1).mean()]. *)
Definition running (window_size : nat) (dg : Series) : result Series :=
  rolling_mean window_size 1 dg.

(** A series without missing values. *)
Definition numeric (xs : list R) : Series := map Num xs.

(** Sum of the samples at indices [lo, lo+1, ..., lo+n-1]. *)
Fixpoint sum_from (xs : list R) (lo n : nat) : R :=
  match n with
  | O => 0
  | S n' => nth lo xs 0 + sum_from xs (S lo) n'
  end.

(** Arithmetic mean of the samples at indices [lo .. i]. *)
Definition mean_between (xs : list R) (lo i : nat) : R :=
  sum_from xs lo (i + 1 - lo) / INR (i + 1 - lo).

(** First index of the trailing window ending at [i]: [max(0, i - w + 1)]. *)
Definition window_start (w i : nat) : nat :=
  Z.to_nat (Z.max 0 (Z.of_nat i - Z.of_nat w + 1)).

(** ** Summary statistics (lines 83-91) *)

Record Stats : Type := {
  frames : nat;
  mean : float;
  stdev : float;
  minimum : float;
  maximum : float
}.

(** [series.astype(float)] is the identity on a float series. *)
Definition compute_stats (series : Series) : Stats :=
  {| frames := Series_count series;
     mean := Series_mean series;
     stdev := Series_std series;
     minimum := Series_min series;
     maximum := Series_max series |}.

(** Sample standard deviation, written from its textbook formula:
    the square root of the sum over all indices of the squared distance to
    the mean, divided by [N - 1]. *)
Fixpoint sum_sq_from (xs : list R) (m : R) (lo n : nat) : R :=
  match n with
  | O => 0
  | S n' => (nth lo xs 0 - m) * (nth lo xs 0 - m) + sum_sq_from xs m (S lo) n'
  end.

Definition sample_sd_between (xs : list R) (lo i : nat) : R :=
  sqrt (sum_sq_from xs (mean_between xs lo i) lo (i + 1 - lo)
        / INR (i + 1 - lo - 1)).

Definition sample_sd (xs : list R) : R :=
  sample_sd_between xs 0 (List.length xs - 1).

(** ** Settings (lines 34-55) *)

Inductive ErrorType : Type :=
| StandardError
| StandardDeviation
| ConfidenceInterval95.

Inductive LineStyle : Type := solid | dashed | dotted | dashdot.

Record Settings : Type := {
  window_size : nat;
  show_frames : bool;
  show_running_mean : bool;
  show_error_bars : bool;
  error_type : ErrorType;
  error_alpha : R;
  frame_color : string;
  frame_alpha : R;
  frame_style : LineStyle;
  running_mean_color : string;
  running_mean_width : R;
  running_mean_style : LineStyle;
  comparison_mode : bool;
  max_ligands : nat;
  plot_title : string;
  x_label : string;
  y_label : string;
  legend_position : string;
  frame_legend_label : string;
  mean_legend_label : string
}.

Definition DEFAULT_SETTINGS : Settings :=
  {| window_size := 10;
     show_frames := true;
     show_running_mean := true;
     show_error_bars := false;
     error_type := StandardError;
     error_alpha := 0.3;
     frame_color := "#FFA500";
     frame_alpha := 0.7;
     frame_style := solid;
     running_mean_color := "#8B0000";
     running_mean_width := 2;
     running_mean_style := solid;
     comparison_mode := false;
     max_ligands := 4;
     plot_title := "ΔGbind vs Time (ns)";
     x_label := "Time (ns)";
     y_label := "ΔGbind (kcal/mol)";
     legend_position := "best";
     frame_legend_label := "Frame";
     mean_legend_label := "Mean" |}.

(** ** Uploaded tables *)

(** A column read by [pd.read_csv]: numeric (missing cells are NaN) or of
    dtype object, holding text. *)
Inductive Column : Type :=
| FloatCol (v : Series)
| ObjectCol (v : list string).

Definition col_length (c : Column) : nat :=
  match c with
  | FloatCol v => List.length v
  | ObjectCol v => List.length v
  end.

(** A table: its columns in file order, all of the same length. *)
Record DataFrame : Type := { columns : list (string * Column) }.

(** [df.empty]: no column or no row. *)
Definition df_empty (df : DataFrame) : bool :=
  match columns df with
  | [] => true
  | (_, c) :: _ => (col_length c =? 0)%nat
  end.

Fixpoint lookup_column (name : string) (cols : list (string * Column))
    : option Column :=
  match cols with
  | [] => None
  | (k, c) :: rest => if String.eqb k name then Some c
                      else lookup_column name rest
  end.

(** [df[name]] when [name in df.columns]. *)
Definition get_column (name : string) (df : DataFrame) : option Column :=
  lookup_column name (columns df).

(** [col.astype(float)]: text that is not a number raises ValueError. *)
Definition astype_float (c : Column) : result Series :=
  match c with
  | FloatCol v => Ok v
  | ObjectCol _ => Raise ValueError
  end.

(** An uploaded file: its name and what [pd.read_csv] makes of its bytes. *)
Record UploadedFile : Type := {
  name : string;
  read_csv : result DataFrame
}.

(** A cell value, as the label column may hold text or a number. *)
Inductive Cell : Type :=
| CStr (s : string)
| CNum (x : float).

(** Python truthiness of a cell. *)
Definition truthy (c : Cell) : bool :=
  match c with
  | CStr s => negb (String.eqb s "")
  | CNum NaN => true
  | CNum (Num r) => if Req_dec_T r 0 then false else true
  end.

(** Lines 78-80. *)
Definition parse_ligand_id (title : Cell) : Cell :=
  if truthy title then title else CStr "Ligand".

(** [df.get("title", pd.Series(["Ligand"])).iloc[0]]. *)
Definition first_title (df : DataFrame) : result Cell :=
  match get_column "title" df with
  | None => Ok (CStr "Ligand")
  | Some (FloatCol v) => x <- iloc 0 v ;; Ok (CNum x)
  | Some (ObjectCol v) =>
      match v with
      | [] => Raise IndexError
      | s :: _ => Ok (CStr s)
      end
  end.

Record Entry : Type := {
  df : option DataFrame;
  ligand_id : Cell;
  csv_file : UploadedFile
}.

Definition string_of_nat (n : nat) : string :=
  NilEmpty.string_of_uint (Nat.to_uint n).

(** Messages shown to the user. *)
Inductive Msg : Type :=
| Warning (text : string)
| Error (text : string)
| Info (text : string).

(** ** Upload (lines 216-257) *)

(** Body of the [for idx, csv_file in enumerate(uploaded_files)] loop:
    any exception while reading marks the entry as unreadable. *)
Definition read_entry (idx : nat) (f : UploadedFile) : Entry :=
  match (d <- read_csv f ;; t <- first_title d ;; Ok (d, parse_ligand_id t)) with
  | Ok (d, id) => {| df := Some d; ligand_id := id; csv_file := f |}
  | Raise _ =>
      {| df := None;
         ligand_id := CStr ("Ligand_" ++ string_of_nat (idx + 1));
         csv_file := f |}
  end.

Fixpoint read_entries (idx : nat) (files : list UploadedFile) : list Entry :=
  match files with
  | [] => []
  | f :: rest => read_entry idx f :: read_entries (S idx) rest
  end.

Definition truncation_warning (n : nat) : Msg :=
  Warning ("Maximum " ++ string_of_nat n ++ " ligands allowed. Only the first "
           ++ string_of_nat n ++ " files will be used.").

(** Comparison mode: the uploads beyond [max_ligands] are dropped with a
    warning, then every remaining file is read once. *)
Definition upload_comparison (settings : Settings)
    (uploaded_files : list UploadedFile) : list Msg * list Entry :=
  if (max_ligands settings <? List.length uploaded_files)%nat
  then ([truncation_warning (max_ligands settings)],
        read_entries 0 (firstn (max_ligands settings) uploaded_files))
  else ([], read_entries 0 uploaded_files).

(** Single mode: at most one file. *)
Definition upload_single (csv : option UploadedFile) : list Msg * list Entry :=
  match csv with
  | None => ([], [])
  | Some f => ([], read_entries 0 [f])
  end.

(** ** Error bands and the per-file loop (lines 442-523) *)

Record Bands : Type := {
  yerr : option Series;
  ci_lower : option (list float);
  ci_upper : option (list float)
}.

Definition no_bands : Bands :=
  {| yerr := None; ci_lower := None; ci_upper := None |}.

Definition is_nan (x : float) : bool :=
  match x with NaN => true | Num _ => false end.

(** [scipy.stats.sem(data)]: [std(ddof=1) / sqrt(n)], NaN as soon as one
    sample is NaN. *)
Definition stats_sem (data : Series) : float :=
  if existsb is_nan data then NaN
  else fdiv (nanstd 1 (dropna data)) (fsqrt (Num (INR (List.length data)))).

Record Analysis : Type := {
  a_running : Series;
  a_bands : Bands;
  a_stats : Stats
}.

Record PlotCall : Type := {
  p_ligand : Cell;
  p_time : list R;
  p_dg : Series;
  p_running : Series;
  p_bands : Bands
}.

Record LoopState : Type := {
  msgs : list Msg;
  plotted : list PlotCall;
  all_stats : list (Cell * Stats)
}.

Definition st_error (st : LoopState) (text : string) : LoopState :=
  {| msgs := msgs st ++ [Error text];
     plotted := plotted st;
     all_stats := all_stats st |}.

Definition empty_file_error (e : Entry) : string :=
  "File " ++ name (csv_file e)
  ++ " is empty or has no valid data. Please check the file format.".

Definition missing_column_error (e : Entry) : string :=
  "Column 'r_psp_MMGBSA_dG_Bind' not found in " ++ name (csv_file e)
  ++ ". Please check if this is a valid MMGBSA output file.".

(** How one run of the script ends. *)
Inductive Outcome : Type :=
| Rendered (st : LoopState)
| Stopped (shown : list Msg)
| Idle (shown : list Msg).

(** ** The summary statistics in binary64

    [compute_stats] on a series without missing values, with the operations
    of IEEE double precision in place of exact ones.  pandas' own routines
    compute the mean as [sum / count] and the standard deviation in two
    passes, as [sqrt (sum ((mean - x)^2) / (count - 1))].  The sums run
    left to right, which is numpy's order for fewer than 8 elements; the
    definitions are used on such series only. *)

Definition sum_f64 (l : list PrimFloat.float) : PrimFloat.float :=
  fold_left PrimFloat.add l PrimFloat.zero.

Definition count_f64 (l : list PrimFloat.float) : PrimFloat.float :=
  PrimFloat.of_uint63 (Uint63.of_Z (Z.of_nat (List.length l))).

Definition mean_f64 (l : list PrimFloat.float) : PrimFloat.float :=
  PrimFloat.div (sum_f64 l) (count_f64 l).

Definition std_f64 (l : list PrimFloat.float) : PrimFloat.float :=
  let avg := mean_f64 l in
  PrimFloat.sqrt
    (PrimFloat.div
       (sum_f64 (map (fun x => PrimFloat.mul (PrimFloat.sub avg x)
                                             (PrimFloat.sub avg x)) l))
       (PrimFloat.sub (count_f64 l) PrimFloat.one)).

Definition min_f64 (l : list PrimFloat.float) : PrimFloat.float :=
  match l with
  | [] => PrimFloat.nan
  | x :: t => fold_left (fun m y => if PrimFloat.ltb y m then y else m) t x
  end.

Definition max_f64 (l : list PrimFloat.float) : PrimFloat.float :=
  match l with
  | [] => PrimFloat.nan
  | x :: t => fold_left (fun m y => if PrimFloat.ltb m y then y else m) t x
  end.

Record Stats_f64 : Type := {
  frames_f64 : nat;
  mean_of_f64 : PrimFloat.float;
  stdev_f64 : PrimFloat.float;
  minimum_f64 : PrimFloat.float;
  maximum_f64 : PrimFloat.float
}.

Definition compute_stats_f64 (series : list PrimFloat.float) : Stats_f64 :=
  {| frames_f64 := List.length series;
     mean_of_f64 := mean_f64 series;
     stdev_f64 := std_f64 series;
     minimum_f64 := min_f64 series;
     maximum_f64 := max_f64 series |}.

(** The double nearest to 0.1. *)
Definition tenth : PrimFloat.float := 0x1.999999999999ap-4%float.

(** ** The global name [stats]

    Line 24 binds [stats] to the module [scipy.stats]; line 517, inside the
    loop over the files, rebinds the same global name to the dictionary
    returned by [compute_stats].  [calculate_confidence_interval] looks the
    name up when it is called. *)
Inductive StatsBinding : Type :=
| ScipyStats
| StatsDict.

Section Viewer.

(** Quantile function of Student's t distribution: [t_ppf q df] is
    [scipy.stats.t.ppf(q, df)]. *)
Variable t_ppf : R -> nat -> R.

(** The text Python's string formatting gives a numeric cell. *)
Variable format_float : float -> string.

(** Student's t distribution is symmetric about 0 and its upper quantiles
    are positive. *)
Hypothesis t_ppf_symmetric : forall q df_, t_ppf (1 - q) df_ = - t_ppf q df_.
Hypothesis t_ppf_positive :
  forall q df_, 1 / 2 < q < 1 -> (1 <= df_)%nat -> 0 < t_ppf q df_.

(** [scipy.stats.t.interval(confidence, df, loc, scale)]: the two quantiles
    [(1 -/+ confidence) / 2], scaled and shifted.  scipy returns NaN for both
    ends unless [df > 0], [scale > 0] and [loc] is a number. *)
Definition t_interval (confidence : R) (df_ : nat) (loc scale : float)
    : float * float :=
  match loc, scale with
  | Num m, Num sc =>
      if Rlt_dec 0 sc then
        if (0 <? df_)%nat then
          (Num (t_ppf ((1 - confidence) / 2) df_ * sc + m),
           Num (t_ppf ((1 + confidence) / 2) df_ * sc + m))
        else (NaN, NaN)
      else (NaN, NaN)
  | _, _ => (NaN, NaN)
  end.

(** Lines 94-99 with [stats] bound to [scipy.stats], and the default
    [confidence=0.95]. *)
Definition confidence_interval (data : Series) : float * float * float :=
  let mean := Series_mean data in
  let std_err := stats_sem data in
  let ci := t_interval 0.95 (List.length data - 1) mean std_err in
  (mean, fst ci, snd ci).

(** Lines 94-99: after [np.mean], the attribute [stats.sem] does not exist
    when [stats] is a dictionary. *)
Definition calculate_confidence_interval (stats_ : StatsBinding)
    (data : Series) : result (float * float * float) :=
  match stats_ with
  | ScipyStats => Ok (confidence_interval data)
  | StatsDict => Raise AttributeError
  end.

(** Lines 497-509: the loop over [range(len(dg))], appending to the two
    lists. *)
Fixpoint ci_loop (stats_ : StatsBinding) (w : nat) (dg : Series)
    (idxs : list nat) (ci_lower ci_upper : list float)
    : result (list float * list float) :=
  match idxs with
  | [] => Ok (ci_lower, ci_upper)
  | i :: rest =>
      if (i <? 2)%nat then
        x <- iloc i dg ;;
        ci_loop stats_ w dg rest (ci_lower ++ [x]) (ci_upper ++ [x])
      else
        let window_data := iloc_slice (window_start w i) (i + 1) dg in
        if (2 <=? List.length window_data)%nat then
          r <- calculate_confidence_interval stats_ window_data ;;
          let '(_, lower, upper) := r in
          ci_loop stats_ w dg rest (ci_lower ++ [lower]) (ci_upper ++ [upper])
        else
          x <- iloc i dg ;;
          ci_loop stats_ w dg rest (ci_lower ++ [x]) (ci_upper ++ [x])
  end.

(** Lines 482-509. *)
Definition error_bands (stats_ : StatsBinding) (settings : Settings)
    (dg : Series) : result Bands :=
  if show_error_bars settings then
    match error_type settings with
    | StandardError =>
        running_std <- rolling_std (window_size settings) 2 dg ;;
        running_count <- rolling_count (window_size settings) 2 dg ;;
        let running_std := series_div running_std (np_sqrt running_count) in
        Ok {| yerr := Some (fillna 0 running_std);
              ci_lower := None; ci_upper := None |}
    | StandardDeviation =>
        running_std <- rolling_std (window_size settings) 2 dg ;;
        Ok {| yerr := Some (fillna 0 running_std);
              ci_lower := None; ci_upper := None |}
    | ConfidenceInterval95 =>
        ci <- ci_loop stats_ (window_size settings) dg
                (seq 0 (List.length dg)) [] [] ;;
        Ok {| yerr := None; ci_lower := Some (fst ci); ci_upper := Some (snd ci) |}
    end
  else Ok no_bands.

(** Everything numeric the loop body derives from one energy series, given
    what [stats] is bound to when the body runs. *)
Definition analyse (stats_ : StatsBinding) (settings : Settings)
    (dg : Series) : result Analysis :=
  running <- running (window_size settings) dg ;;
  bands <- error_bands stats_ settings dg ;;
  Ok {| a_running := running; a_bands := bands; a_stats := compute_stats dg |}.

(** What [stats] is bound to at the top of the loop body: line 519 appends
    to [all_stats] right after line 517 has rebound [stats], and nothing
    else touches either, so [stats] is a dictionary exactly when
    [all_stats] is not empty. *)
Definition stats_binding (st : LoopState) : StatsBinding :=
  match all_stats st with
  | [] => ScipyStats
  | _ :: _ => StatsDict
  end.

(** Body of [for entry in file_data] (lines 450-519).  The styling
    arguments of [plot_ligand_data] do not reach any number and are left
    out of the recorded call. *)
Definition process_entry (settings : Settings) (md_length_ns : R)
    (st : LoopState) (entry : Entry) : result LoopState :=
  match df entry with
  | None => Ok (st_error st (empty_file_error entry))
  | Some d =>
      if df_empty d then Ok (st_error st (empty_file_error entry))
      else
        match get_column "r_psp_MMGBSA_dG_Bind" d with
        | None => Ok (st_error st (missing_column_error entry))
        | Some col =>
            dg <- astype_float col ;;
            a <- analyse (stats_binding st) settings dg ;;
            Ok {| msgs := msgs st;
                  plotted := plotted st ++
                    [{| p_ligand := ligand_id entry;
                        p_time := time_ns md_length_ns dg;
                        p_dg := dg;
                        p_running := a_running a;
                        p_bands := a_bands a |}];
                  all_stats := all_stats st ++ [(ligand_id entry, a_stats a)] |}
        end
  end.

Fixpoint main_loop (settings : Settings) (md_length_ns : R)
    (st : LoopState) (file_data : list Entry) : result LoopState :=
  match file_data with
  | [] => Ok st
  | entry :: rest =>
      st' <- process_entry settings md_length_ns st entry ;;
      main_loop settings md_length_ns st' rest
  end.

Definition initial_state (shown : list Msg) : LoopState :=
  {| msgs := shown; plotted := []; all_stats := [] |}.

(** The text of a label inside a widget key such as
    [f"show_frames_{ligand_id}"]. *)
Definition label_text (c : Cell) : string :=
  match c with
  | CStr s => s
  | CNum x => format_float x
  end.

(** Whether a text occurs twice. *)
Fixpoint has_duplicate (l : list string) : bool :=
  match l with
  | [] => false
  | x :: t => existsb (String.eqb x) t || has_duplicate t
  end.

(** The labels as they appear in the widget keys. *)
Definition widget_labels (file_data : list Entry) : list string :=
  map (fun e => label_text (ligand_id e)) file_data.

(** Lines 407-440: in comparison mode the labels first get default
    settings ([assign_ligand_settings] below, which never raises and only
    styles the lines); then every entry gets sidebar widgets keyed by its
    label, and Streamlit refuses a key that is used twice in a run. *)
Definition per_ligand_widgets (settings : Settings) (file_data : list Entry)
    : result unit :=
  if comparison_mode settings && has_duplicate (widget_labels file_data)
  then Raise StreamlitDuplicateElementKey
  else Ok tt.

(** Lines 407-523 and 622-623: the per-ligand widgets, then the loop, which
    runs when there is an entry and the duration is positive; [st.stop()]
    ends the run when no file gave statistics.  [Raise] is an uncaught
    exception. *)
Definition run (settings : Settings) (md_length_ns : R)
    (shown : list Msg) (file_data : list Entry) : result Outcome :=
  _ <- per_ligand_widgets settings file_data ;;
  match file_data with
  | _ :: _ =>
      if Rlt_dec 0 md_length_ns then
        st <- main_loop settings md_length_ns (initial_state shown) file_data ;;
        match all_stats st with
        | [] => Ok (Stopped (msgs st ++
                  [Error "No valid data to plot. Please check your input files."]))
        | _ :: _ => Ok (Rendered st)
        end
      else Ok (Idle (shown ++
             [Info "Upload CSV file(s) and set the total simulation time to begin."]))
  | [] => Ok (Idle (shown ++
             [Info "Upload CSV file(s) and set the total simulation time to begin."]))
  end.

(** Whether the loop calls [calculate_confidence_interval] at index [i]:
    the guards of lines 498 and 503. *)
Definition calls_interval (w : nat) (dg : Series) (i : nat) : bool :=
  negb (i <? 2)%nat
  && (2 <=? List.length (iloc_slice (window_start w i) (i + 1) dg))%nat.

(** The bounds the loop stores at index [i] while [stats] is [scipy.stats],
    as a function of [i]. *)
Definition ci_at (w : nat) (dg : Series) (i : nat) : float * float :=
  if (i <? 2)%nat then (nth i dg NaN, nth i dg NaN)
  else
    let window_data := iloc_slice (window_start w i) (i + 1) dg in
    if (2 <=? List.length window_data)%nat then
      let r := confidence_interval window_data in
      (snd (fst r), snd r)
    else (nth i dg NaN, nth i dg NaN).

(** The sidebar stores the window slider, the error-bar checkbox and the
    error-type selection into the settings (lines 297-318). *)
Definition with_error_bars (s : Settings) (w : nat) (e : ErrorType) : Settings :=
  {| window_size := w;
     show_frames := show_frames s;
     show_running_mean := show_running_mean s;
     show_error_bars := true;
     error_type := e;
     error_alpha := error_alpha s;
     frame_color := frame_color s;
     frame_alpha := frame_alpha s;
     frame_style := frame_style s;
     running_mean_color := running_mean_color s;
     running_mean_width := running_mean_width s;
     running_mean_style := running_mean_style s;
     comparison_mode := comparison_mode s;
     max_ligands := max_ligands s;
     plot_title := plot_title s;
     x_label := x_label s;
     y_label := y_label s;
     legend_position := legend_position s;
     frame_legend_label := frame_legend_label s;
     mean_legend_label := mean_legend_label s |}.

(** Standard error of the samples at indices [lo .. i]. *)
Definition std_error_between (xs : list R) (lo i : nat) : R :=
  sample_sd_between xs lo i / sqrt (INR (i + 1 - lo)).

(** Standard error of a list of observations. *)
Definition std_error_obs (obs : list R) : R :=
  sqrt (sq_dev obs / INR (List.length obs - 1)) / sqrt (INR (List.length obs)).

(** Lower bound, running mean and upper bound at index [i], when the
    confidence band and the running mean were computed, for the first valid
    file of a run ([stats] is still [scipy.stats]). *)
Definition ci_band_at (settings : Settings) (dg : Series) (i : nat)
    : option (float * float * float) :=
  match error_bands ScipyStats settings dg,
        running (window_size settings) dg with
  | Ok b, Ok r =>
      match ci_lower b, ci_upper b with
      | Some lower, Some upper =>
          match nth_error lower i, nth_error r i, nth_error upper i with
          | Some l, Some p, Some u => Some (l, p, u)
          | _, _, _ => None
          end
      | _, _ => None
      end
  | _, _ => None
  end.

(** The band brackets the running mean at index [i]. *)
Definition ci_ordered_at (settings : Settings) (xs : list R) (i : nat) : Prop :=
  exists l p u, ci_band_at settings (numeric xs) i = Some (Num l, Num p, Num u)
                /\ l <= p <= u.

(** The band is centred on the running mean at index [i]. *)
Definition ci_symmetric_at (settings : Settings) (xs : list R) (i : nat) : Prop :=
  exists l p u, ci_band_at settings (numeric xs) i = Some (Num l, Num p, Num u)
                /\ (l + u) / 2 = p.

(** The numeric output of the loop: plotted series and statistics. *)
Definition numbers (r : result LoopState)
    : result (list PlotCall * list (Cell * Stats)) :=
  st <- r ;; Ok (plotted st, all_stats st).

Definition energy_column : string := "r_psp_MMGBSA_dG_Bind".

Definition no_valid_data : Msg :=
  Error "No valid data to plot. Please check your input files.".

(** A file that parses to a non-empty table with a numeric energy column
    and a readable label. *)
Definition valid_file (f : UploadedFile) : Prop :=
  exists d v t,
    read_csv f = Ok d /\ df_empty d = false /\
    get_column energy_column d = Some (FloatCol v) /\
    first_title d = Ok t.

(** Lines 249-254: the plot title follows the ligand name. *)
Definition with_plot_title (s : Settings) (title : string) : Settings :=
  {| window_size := window_size s;
     show_frames := show_frames s;
     show_running_mean := show_running_mean s;
     show_error_bars := show_error_bars s;
     error_type := error_type s;
     error_alpha := error_alpha s;
     frame_color := frame_color s;
     frame_alpha := frame_alpha s;
     frame_style := frame_style s;
     running_mean_color := running_mean_color s;
     running_mean_width := running_mean_width s;
     running_mean_style := running_mean_style s;
     comparison_mode := comparison_mode s;
     max_ligands := max_ligands s;
     plot_title := title;
     x_label := x_label s;
     y_label := y_label s;
     legend_position := legend_position s;
     frame_legend_label := frame_legend_label s;
     mean_legend_label := mean_legend_label s |}.

(** Sample inputs. *)
(** The "Show Running Mean" checkbox, unticked; standard-error bars are
    asked for. *)
Definition without_running_mean (s : Settings) : Settings :=
  {| window_size := window_size s;
     show_frames := show_frames s;
     show_running_mean := false;
     show_error_bars := true;
     error_type := error_type s;
     error_alpha := error_alpha s;
     frame_color := frame_color s;
     frame_alpha := frame_alpha s;
     frame_style := frame_style s;
     running_mean_color := running_mean_color s;
     running_mean_width := running_mean_width s;
     running_mean_style := running_mean_style s;
     comparison_mode := comparison_mode s;
     max_ligands := max_ligands s;
     plot_title := plot_title s;
     x_label := x_label s;
     y_label := y_label s;
     legend_position := legend_position s;
     frame_legend_label := frame_legend_label s;
     mean_legend_label := mean_legend_label s |}.

Definition ci_settings (w : nat) : Settings :=
  with_error_bars DEFAULT_SETTINGS w ConfidenceInterval95.

Definition sample_table : DataFrame :=
  {| columns :=
       [("title"%string,
         ObjectCol ["ligand A"%string; "ligand A"%string; "ligand A"%string]);
        ("r_psp_MMGBSA_dG_Bind"%string, FloatCol (numeric [1; 2; 3]))] |}.

Definition sample_file (n : string) : UploadedFile :=
  {| name := n; read_csv := Ok sample_table |}.

(** A table of three energies whose title column holds [title]. *)
Definition titled_table (title : string) : DataFrame :=
  {| columns :=
       [("title"%string, ObjectCol [title; title; title]);
        ("r_psp_MMGBSA_dG_Bind"%string, FloatCol (numeric [1; 2; 3]))] |}.

Definition titled_file (n title : string) : UploadedFile :=
  {| name := n; read_csv := Ok (titled_table title) |}.

(** The comparison-mode checkbox and the slider for the number of
    ligands (lines 208-214). *)
Definition with_comparison_mode (s : Settings) (n : nat) : Settings :=
  {| window_size := window_size s;
     show_frames := show_frames s;
     show_running_mean := show_running_mean s;
     show_error_bars := show_error_bars s;
     error_type := error_type s;
     error_alpha := error_alpha s;
     frame_color := frame_color s;
     frame_alpha := frame_alpha s;
     frame_style := frame_style s;
     running_mean_color := running_mean_color s;
     running_mean_width := running_mean_width s;
     running_mean_style := running_mean_style s;
     comparison_mode := true;
     max_ligands := n;
     plot_title := plot_title s;
     x_label := x_label s;
     y_label := y_label s;
     legend_position := legend_position s;
     frame_legend_label := frame_legend_label s;
     mean_legend_label := mean_legend_label s |}.

Definition table_without_title : DataFrame :=
  {| columns :=
       [("r_psp_MMGBSA_dG_Bind"%string, FloatCol (numeric [1; 2; 3]))] |}.

Definition file_without_title : UploadedFile :=
  {| name := "untitled.csv"; read_csv := Ok table_without_title |}.

Definition table_without_energy : DataFrame :=
  {| columns :=
       [("title"%string, ObjectCol ["ligand B"%string; "ligand B"%string]);
        ("r_psp_MMGBSA_dG_vdW"%string, FloatCol (numeric [1; 2]))] |}.

Definition file_without_energy : UploadedFile :=
  {| name := "other.csv"; read_csv := Ok table_without_energy |}.

(** The quantile function of Student's t distribution with 2 degrees of
    freedom, [(2q - 1) / sqrt (2q (1 - q))], used as a concrete quantile
    function. *)
Definition t2_ppf (q : R) (df_ : nat) : R :=
  (2 * q - 1) / sqrt (2 * q * (1 - q)).

(** A stand-in for Python's formatting of a numeric label, used as a
    concrete formatter in examples whose labels are all text. *)
Definition text_only_format (x : float) : string := "nan".

(** ** Error bars of the plot (lines 132-166)

    [plot_ligand_data] receives the running mean and the bands computed by
    the loop body, all of the length of the series.  Where the bound arrays
    are not NaN it draws a bar at the abscissa of that index, around the
    running mean. *)

(** [np.abs(a - b)]. *)
Definition fabs_sub (a b : float) : float :=
  match a, b with
  | Num x, Num y => Num (Rabs (x - y))
  | _, _ => NaN
  end.

Fixpoint map2_float (f : float -> float -> float) (a b : list float)
    : list float :=
  match a, b with
  | x :: a', y :: b' => f x y :: map2_float f a' b'
  | _, _ => []
  end.

(** One bar: the index of its abscissa, its centre, and its lengths below
    and above the centre. *)
Record ErrorBar : Type := {
  eb_index : nat;
  eb_y : float;
  eb_minus : R;
  eb_plus : R
}.

(** [x[valid_mask], y[valid_mask], yerr[valid_mask]] with
    [valid_mask = ~isnan(lower) & ~isnan(upper)], from index [i] on. *)
Fixpoint masked_bars (i : nat) (y lower upper : list float) : list ErrorBar :=
  match y, lower, upper with
  | yv :: y', Num l :: lower', Num u :: upper' =>
      {| eb_index := i; eb_y := yv; eb_minus := l; eb_plus := u |}
      :: masked_bars (S i) y' lower' upper'
  | _ :: y', _ :: lower', _ :: upper' => masked_bars (S i) y' lower' upper'
  | _, _, _ => []
  end.

Inductive BarsOutcome : Type :=
| NoBars
| Bars (drawn : list ErrorBar)
| BarsWarning.

(** The [try] block, for arrays of the length of the running mean, as the
    loop body passes them: an array that is [None] makes numpy raise, which
    the [except] turns into a warning. *)
Definition error_bars (settings : Settings) (show_error_bars_arg : bool)
    (running_ : Series) (b : Bands) : BarsOutcome :=
  if show_running_mean settings && show_error_bars_arg then
    match error_type settings with
    | StandardError | StandardDeviation =>
        match yerr b with
        | Some ye => Bars (masked_bars 0 running_ ye ye)
        | None => BarsWarning
        end
    | ConfidenceInterval95 =>
        match ci_lower b, ci_upper b with
        | Some lower, Some upper =>
            Bars (masked_bars 0 running_
                    (map2_float fabs_sub running_ lower)
                    (map2_float fabs_sub upper running_))
        | _, _ => BarsWarning
        end
    end
  else NoBars.

(** ** Plot title (lines 249-254) *)

Definition DEFAULT_TITLE : string := "ΔGbind vs Time (ns)".
Definition TITLE_PREFIX : string := "ΔGbind vs Time (ns) - ".

(** [sub in s]. *)
Fixpoint contains (sub s : string) : bool :=
  String.prefix sub s ||
  match s with
  | EmptyString => false
  | String _ t => contains sub t
  end.

(** The title stored after a file was read in single mode; [label] is the
    text of the ligand id. *)
Definition update_title (plot_title_ label : string) : string :=
  if String.eqb plot_title_ DEFAULT_TITLE
     || String.eqb plot_title_ ""
     || (String.prefix TITLE_PREFIX plot_title_ && contains " - " plot_title_)
  then (TITLE_PREFIX ++ label)%string
  else plot_title_.

(** ** Session settings as a dictionary (lines 176-183) *)

Definition dict (V : Type) : Type := list (string * V).

Fixpoint dict_get {V : Type} (k : string) (d : dict V) : option V :=
  match d with
  | [] => None
  | (k', v) :: rest => if String.eqb k' k then Some v else dict_get k rest
  end.

(** [k in d]. *)
Definition dict_mem {V : Type} (k : string) (d : dict V) : bool :=
  match dict_get k d with
  | Some _ => true
  | None => false
  end.

(** [d[k] = v]: replaces the value of an existing key, appends a new key. *)
Fixpoint dict_set {V : Type} (k : string) (v : V) (d : dict V) : dict V :=
  match d with
  | [] => [(k, v)]
  | (k', v') :: rest =>
      if String.eqb k' k then (k, v) :: rest else (k', v') :: dict_set k v rest
  end.

(** One pass of [for key, value in DEFAULT_SETTINGS.items()]. *)
Fixpoint fill_defaults {V : Type} (defaults settings_ : dict V) : dict V :=
  match defaults with
  | [] => settings_
  | (key, value) :: rest =>
      fill_defaults rest
        (if dict_mem key settings_ then settings_ else dict_set key value settings_)
  end.

(** [session] is [None] when ['settings' not in st.session_state]. *)
Definition init_settings {V : Type} (defaults : dict V)
    (session : option (dict V)) : dict V :=
  match session with
  | None => defaults
  | Some s => fill_defaults defaults s
  end.

(** ** Per-ligand settings in comparison mode (lines 407-424) *)

Definition COLOR_PALETTE : list string :=
  ["#4E79A7"%string; "#F28E2B"%string; "#E15759"%string; "#76B7B2"%string;
   "#59A14F"%string; "#EDC948"%string; "#B07AA1"%string; "#FF9DA7"%string;
   "#9C755F"%string; "#BAB0AC"%string].

Record LigandCfg : Type := {
  lc_frame_color : string;
  lc_frame_style : LineStyle;
  lc_running_mean_color : string;
  lc_running_mean_style : LineStyle;
  lc_show_frames : bool
}.

Definition default_ligand_cfg (default_color : string) : LigandCfg :=
  {| lc_frame_color := default_color;
     lc_frame_style := solid;
     lc_running_mean_color := default_color;
     lc_running_mean_style := solid;
     lc_show_frames := false |}.

(** [COLOR_PALETTE[idx % len(COLOR_PALETTE)]]. *)
Definition palette_color (idx : nat) : result string :=
  match nth_error COLOR_PALETTE (idx mod List.length COLOR_PALETTE) with
  | Some c => Ok c
  | None => Raise IndexError
  end.

(** The loop [for idx, entry in enumerate(file_data)] over the labels of the
    entries (labels that are text), from position [idx] on. *)
Fixpoint assign_ligand_settings (idx : nat) (ids : list string)
    (ligand_settings : dict LigandCfg) : result (dict LigandCfg) :=
  match ids with
  | [] => Ok ligand_settings
  | ligand :: rest =>
      default_color <- palette_color idx ;;
      assign_ligand_settings (S idx) rest
        (if dict_mem ligand ligand_settings then ligand_settings
         else dict_set ligand (default_ligand_cfg default_color) ligand_settings)
  end.

Definition unreadable_file : UploadedFile :=
  {| name := "broken.csv"; read_csv := Raise ParserError |}.

(** The error bars of the call at lines 511-515: the plot helper gets the
    running mean and the bands of the analysis, and
    [settings['show_error_bars']] as its switch. *)
Definition plot_call_bars (stats_ : StatsBinding) (settings : Settings)
    (dg : Series) : result BarsOutcome :=
  a <- analyse stats_ settings dg ;;
  Ok (error_bars settings (show_error_bars settings) (a_running a) (a_bands a)).

(** ** Basic facts *)

Lemma window_start_nat (w i : nat) : window_start w i = (i + 1 - w)%nat.
Proof. unfold window_start. lia. Qed.

Lemma dropna_numeric (xs : list R) : dropna (numeric xs) = xs.
Proof.
  induction xs as [|x xs IH]; simpl; [reflexivity|].
  now rewrite IH.
Qed.

Lemma iloc_slice_numeric (a b : nat) (xs : list R) :
  iloc_slice a b (numeric xs) = numeric (firstn (b - a) (skipn a xs)).
Proof.
  unfold iloc_slice, numeric.
  now rewrite skipn_map, firstn_map.
Qed.

Lemma Rsum_slice (xs : list R) :
  forall lo n, (lo + n <= List.length xs)%nat ->
  Rsum (firstn n (skipn lo xs)) = sum_from xs lo n.
Proof.
  intros lo n; revert lo.
  induction n as [|n IH]; intros lo H; simpl.
  - reflexivity.
  - destruct (skipn lo xs) as [|y t] eqn:E.
    + apply (f_equal (@List.length R)) in E.
      rewrite length_skipn in E. simpl in E. lia.
    + simpl.
      assert (Hy : nth lo xs 0 = y).
      { rewrite <- (firstn_skipn lo xs) at 1.
        rewrite app_nth2; rewrite length_firstn; [|lia].
        replace (lo - Nat.min lo (List.length xs))%nat with O by lia.
        now rewrite E. }
      assert (Ht : skipn (S lo) xs = t).
      { replace (S lo) with (1 + lo)%nat by lia.
        rewrite <- skipn_skipn, E. reflexivity. }
      rewrite Hy, <- Ht, IH by lia. reflexivity.
Qed.

Lemma length_slice (xs : list R) (lo n : nat) :
  (lo + n <= List.length xs)%nat ->
  List.length (firstn n (skipn lo xs)) = n.
Proof.
  intros H. rewrite length_firstn, length_skipn. lia.
Qed.

Lemma nth_error_map_seq {A : Type} (f : nat -> A) (n i : nat) :
  (i < n)%nat -> nth_error (map f (seq 0 n)) i = Some (f i).
Proof.
  intros H.
  rewrite nth_error_map, nth_error_seq.
  destruct (Nat.ltb_spec i n); [reflexivity | lia].
Qed.

Lemma rolling_ok (w m : nat) (agg : list R -> float) (s : Series) :
  (m <= w)%nat ->
  rolling w m agg s =
  Ok (map (fun i =>
             let obs := dropna (rolling_window w i s) in
             if (List.length obs <? m)%nat then NaN else agg obs)
          (seq 0 (List.length s))).
Proof.
  intros H. unfold rolling.
  destruct (Nat.ltb_spec w m); [lia | reflexivity].
Qed.

Lemma window_numeric (xs : list R) (w i : nat) :
  dropna (rolling_window w i (numeric xs)) =
  firstn (i + 1 - (i + 1 - w)) (skipn (i + 1 - w) xs).
Proof.
  unfold rolling_window.
  now rewrite iloc_slice_numeric, dropna_numeric.
Qed.

Lemma nanmean_nonempty (obs : list R) :
  obs <> [] -> nanmean obs = Num (Rsum obs / INR (List.length obs)).
Proof. destruct obs; [congruence | reflexivity]. Qed.

Lemma length_numeric (xs : list R) : List.length (numeric xs) = List.length xs.
Proof. apply length_map. Qed.

(** The running mean at one index of a series without missing values. *)
Lemma running_nth (xs : list R) (w i : nat) :
  (1 <= w)%nat -> (i < List.length xs)%nat ->
  exists r, running w (numeric xs) = Ok r /\
            List.length r = List.length xs /\
            nth_error r i = Some (Num (mean_between xs (window_start w i) i)).
Proof.
  intros Hw Hi.
  unfold running, rolling_mean. rewrite rolling_ok by assumption.
  eexists; split; [reflexivity|]. split.
  - now rewrite length_map, length_seq, length_numeric.
  - rewrite length_numeric, nth_error_map_seq by assumption. cbv zeta.
    rewrite window_numeric, window_start_nat.
    set (lo := (i + 1 - w)%nat).
    assert (Hlen : List.length (firstn (i + 1 - lo) (skipn lo xs)) = (i + 1 - lo)%nat)
      by (apply length_slice; lia).
    rewrite Hlen.
    destruct (Nat.ltb_spec (i + 1 - lo) 1); [lia|].
    rewrite nanmean_nonempty.
    + rewrite Hlen, Rsum_slice by lia. reflexivity.
    + intros E. rewrite E in Hlen. simpl in Hlen. lia.
Qed.

Lemma mean_between_self (xs : list R) (i : nat) :
  mean_between xs i i = nth i xs 0.
Proof.
  unfold mean_between. replace (i + 1 - i)%nat with 1%nat by lia.
  simpl. field.
Qed.

Lemma nth_error_numeric (xs : list R) (i : nat) :
  (i < List.length xs)%nat ->
  nth_error (numeric xs) i = Some (Num (nth i xs 0)).
Proof.
  intros H. unfold numeric. rewrite nth_error_map.
  rewrite (nth_error_nth' xs 0 H). reflexivity.
Qed.

Lemma running_window_one (xs : list R) : running 1 (numeric xs) = Ok (numeric xs).
Proof.
  unfold running, rolling_mean. rewrite rolling_ok by lia.
  apply (f_equal (@Ok Series)).
  apply nth_ext with (d := NaN) (d' := NaN).
  - now rewrite length_map, length_seq.
  - rewrite length_map, length_seq. intros i Hi.
    rewrite length_numeric in Hi.
    apply nth_error_nth.
    destruct (running_nth xs 1 i) as (r & Hr & _ & Hn); [lia | exact Hi |].
    unfold running, rolling_mean in Hr. rewrite rolling_ok in Hr by lia.
    injection Hr as <-. cbv zeta in Hn |- *. rewrite Hn.
    rewrite window_start_nat.
    replace (i + 1 - 1)%nat with i by lia.
    rewrite mean_between_self.
    rewrite (nth_error_nth (numeric xs) i NaN (nth_error_numeric xs i Hi)).
    reflexivity.
Qed.

(** ** Time axis *)

Lemma length_time_ns (D : R) (dg : Series) :
  List.length (time_ns D dg) = List.length dg.
Proof. unfold time_ns. now rewrite length_map, length_seq. Qed.

(** C4: with a duration [D > 0] and [N] samples, the time of sample [i] is
    [i * (D / (N - 1))] when [N > 1] and [0] when [N = 1]; the series
    [1.0, 2.0, 3.0] with [D = 2] has the time axis [0.0, 1.0, 2.0]. *)
Theorem time_axis_spec :
  (forall (D : R) (dg : Series) (i : nat),
      0 < D -> (1 < List.length dg)%nat -> (i < List.length dg)%nat ->
      nth_error (time_ns D dg) i
      = Some (INR i * (D / (INR (List.length dg) - 1))))
  /\ (forall (D : R) (dg : Series),
      0 < D -> List.length dg = 1%nat -> time_ns D dg = [0])
  /\ time_ns 2 (numeric [1; 2; 3]) = [0; 1; 2].
Proof.
  split; [|split].
  - intros D dg i _ HN Hi. unfold time_ns.
    rewrite nth_error_map_seq by assumption.
    replace (Nat.max (List.length dg - 1) 1) with (List.length dg - 1)%nat by lia.
    rewrite minus_INR by lia. reflexivity.
  - intros D dg _ HN. unfold time_ns. rewrite HN. simpl.
    f_equal. lra.
  - unfold time_ns. simpl.
    repeat (apply f_equal2; [field|]). reflexivity.
Qed.

Lemma time_axis_spec_witness :
  nth_error (time_ns 100 (numeric [1; 2; 3; 4; 5])) 4
  = Some (INR 4 * (100 / (INR (List.length (numeric [1; 2; 3; 4; 5])) - 1))).
Proof.
  apply (proj1 time_axis_spec 100 (numeric [1; 2; 3; 4; 5]) 4%nat).
  - lra.
  - simpl; lia.
  - simpl; lia.
Defined.

(** ** Running mean *)

Lemma window_start_bounds (w i : nat) :
  (1 <= w)%nat ->
  (window_start w i <= i)%nat /\ (i + 1 - window_start w i <= w)%nat.
Proof. intros H. rewrite window_start_nat. lia. Qed.

(** C1: on a series without missing values and for a window size
    [1 <= w <= 50], the running mean at index [i] is the arithmetic mean of
    the samples at indices [max(0, i-w+1) .. i], a window that ends at [i] and
    holds at most [w] samples; at [i = 0] it is the first sample; with
    [w = 1] it is the input series; with [w = 10] on [1.0, 2.0, 3.0] the
    value at index 2 is [2.0]. *)
Theorem running_mean_trailing_window :
  (forall (xs : list R) (w i : nat),
      xs <> [] -> (1 <= w <= 50)%nat -> (i < List.length xs)%nat ->
      exists r, running w (numeric xs) = Ok r /\
                List.length r = List.length xs /\
                nth_error r i = Some (Num (mean_between xs (window_start w i) i)) /\
                (window_start w i <= i)%nat /\
                (i + 1 - window_start w i <= w)%nat)
  /\ (forall (xs : list R) (w : nat),
      xs <> [] -> (1 <= w <= 50)%nat ->
      exists r, running w (numeric xs) = Ok r /\
                nth_error r 0 = Some (Num (nth 0 xs 0)))
  /\ (forall xs : list R, xs <> [] -> running 1 (numeric xs) = Ok (numeric xs))
  /\ (exists r, running 10 (numeric [1; 2; 3]) = Ok r /\
                nth_error r 2 = Some (Num 2)).
Proof.
  split; [|split; [|split]].
  - intros xs w i _ [Hw _] Hi.
    destruct (running_nth xs w i) as (r & Hr & Hl & Hn); [lia | exact Hi |].
    exists r. repeat split; try assumption; apply window_start_bounds; lia.
  - intros xs w Hne [Hw _].
    assert (H0 : (0 < List.length xs)%nat)
      by (destruct xs; [congruence | simpl; lia]).
    destruct (running_nth xs w 0) as (r & Hr & _ & Hn); [lia | exact H0 |].
    exists r. split; [exact Hr|].
    rewrite Hn, window_start_nat.
    replace (0 + 1 - w)%nat with 0%nat by lia.
    now rewrite mean_between_self.
  - intros xs _. apply running_window_one.
  - destruct (running_nth [1; 2; 3] 10 2) as (r & Hr & _ & Hn);
      [lia | simpl; lia |].
    exists r. split; [exact Hr|]. rewrite Hn, window_start_nat.
    do 2 f_equal. unfold mean_between. simpl. field.
Qed.

Lemma running_mean_trailing_window_witness :
  exists r, running 2 (numeric [4; 8; 6]) = Ok r /\
            List.length r = List.length [4; 8; 6] /\
            nth_error r 2 = Some (Num (mean_between [4; 8; 6] (window_start 2 2) 2)) /\
            (window_start 2 2 <= 2)%nat /\
            (2 + 1 - window_start 2 2 <= 2)%nat.
Proof.
  apply (proj1 running_mean_trailing_window [4; 8; 6] 2%nat 2%nat).
  - discriminate.
  - lia.
  - simpl; lia.
Defined.

(** ** Standard deviation, extrema and summary statistics *)

Lemma sum_sq_from_map (xs : list R) (m : R) :
  forall n lo, (lo + n <= List.length xs)%nat ->
  sum_sq_from xs m lo n = sum_from (map (sqd m) xs) lo n.
Proof.
  induction n as [|n IH]; intros lo H; simpl; [reflexivity|].
  rewrite IH by lia. f_equal.
  rewrite (nth_indep (map (sqd m) xs) 0 (sqd m 0))
    by (rewrite length_map; lia).
  now rewrite map_nth.
Qed.

Lemma sq_dev_slice (xs : list R) (lo i : nat) :
  (lo <= i)%nat -> (i < List.length xs)%nat ->
  sq_dev (firstn (i + 1 - lo) (skipn lo xs))
  = sum_sq_from xs (mean_between xs lo i) lo (i + 1 - lo).
Proof.
  intros Hlo Hi. unfold sq_dev.
  rewrite length_slice, Rsum_slice by lia.
  fold (mean_between xs lo i).
  change (fun x : R => (x - mean_between xs lo i) * (x - mean_between xs lo i))
    with (sqd (mean_between xs lo i)).
  rewrite <- firstn_map, <- skipn_map, Rsum_slice
    by (rewrite length_map; lia).
  symmetry. apply sum_sq_from_map. lia.
Qed.

Lemma Rsum_sqd_nonneg (m : R) (l : list R) : 0 <= Rsum (map (sqd m) l).
Proof.
  induction l as [|x l IH]; simpl; [lra|].
  assert (0 <= sqd m x) by exact (Rle_0_sqr (x - m)).
  lra.
Qed.

Lemma sq_dev_nonneg (obs : list R) : 0 <= sq_dev obs.
Proof. unfold sq_dev. apply (Rsum_sqd_nonneg _ obs). Qed.

Lemma nanstd_two (obs : list R) :
  (2 <= List.length obs)%nat ->
  nanstd 1 obs = Num (sqrt (sq_dev obs / INR (List.length obs - 1))).
Proof.
  intros H. unfold nanstd, nanvar.
  destruct (Nat.leb_spec (List.length obs) 1); [lia|].
  simpl. destruct (Rlt_dec _ 0) as [Hneg|_]; [|reflexivity].
  exfalso.
  assert (0 < INR (List.length obs - 1)) by (apply lt_0_INR; lia).
  pose proof (sq_dev_nonneg obs).
  assert (0 <= sq_dev obs / INR (List.length obs - 1))
    by (apply Rmult_le_pos; [assumption | left; now apply Rinv_0_lt_compat]).
  lra.
Qed.

Lemma nanstd_short (obs : list R) :
  (List.length obs < 2)%nat -> nanstd 1 obs = NaN.
Proof.
  intros H. unfold nanstd, nanvar.
  destruct (Nat.leb_spec (List.length obs) 1); [reflexivity | lia].
Qed.

(** The standard deviation of a window of a series without missing values. *)
Lemma nanstd_slice (xs : list R) (lo i : nat) :
  (lo <= i)%nat -> (i < List.length xs)%nat -> (2 <= i + 1 - lo)%nat ->
  nanstd 1 (firstn (i + 1 - lo) (skipn lo xs)) = Num (sample_sd_between xs lo i).
Proof.
  intros Hlo Hi H2.
  rewrite nanstd_two by (rewrite length_slice; lia).
  rewrite length_slice, sq_dev_slice by lia.
  reflexivity.
Qed.

Lemma whole_slice (xs : list R) :
  firstn (List.length xs - 1 + 1 - 0) (skipn 0 xs) = xs.
Proof.
  simpl. destruct xs as [|x t]; [reflexivity|].
  apply firstn_all2. simpl. lia.
Qed.

Lemma fold_Rmin_spec (t : list R) :
  forall x, In (fold_left Rmin t x) (x :: t) /\
            forall y, In y (x :: t) -> fold_left Rmin t x <= y.
Proof.
  induction t as [|z t IH]; intros x.
  - simpl. split; [now left|]. intros y [<-|[]]. lra.
  - simpl fold_left. destruct (IH (Rmin x z)) as [Hin Hle]. split.
    + destruct Hin as [E|Hin].
      * rewrite <- E. unfold Rmin. destruct (Rle_dec x z); simpl; auto.
      * right. now right.
    + intros y Hy.
      assert (Hm : fold_left Rmin t (Rmin x z) <= Rmin x z)
        by (apply Hle; now left).
      destruct Hy as [<-|[<-|Hy]].
      * pose proof (Rmin_l x z). lra.
      * pose proof (Rmin_r x z). lra.
      * apply Hle. now right.
Qed.

Lemma fold_Rmax_spec (t : list R) :
  forall x, In (fold_left Rmax t x) (x :: t) /\
            forall y, In y (x :: t) -> y <= fold_left Rmax t x.
Proof.
  induction t as [|z t IH]; intros x.
  - simpl. split; [now left|]. intros y [<-|[]]. lra.
  - simpl fold_left. destruct (IH (Rmax x z)) as [Hin Hle]. split.
    + destruct Hin as [E|Hin].
      * rewrite <- E. unfold Rmax. destruct (Rle_dec x z); simpl; auto.
      * right. now right.
    + intros y Hy.
      assert (Hm : Rmax x z <= fold_left Rmax t (Rmax x z))
        by (apply Hle; now left).
      destruct Hy as [<-|[<-|Hy]].
      * pose proof (Rmax_l x z). lra.
      * pose proof (Rmax_r x z). lra.
      * apply Hle. now right.
Qed.

Lemma Rsum_lower (a : R) (l : list R) :
  (forall y, In y l -> a <= y) -> a * INR (List.length l) <= Rsum l.
Proof.
  induction l as [|x l IH]; intros H.
  - simpl. lra.
  - change (List.length (x :: l)) with (S (List.length l)).
    rewrite S_INR. simpl.
    assert (a <= x) by (apply H; now left).
    assert (a * INR (List.length l) <= Rsum l)
      by (apply IH; intros y Hy; apply H; now right).
    lra.
Qed.

Lemma Rsum_upper (b : R) (l : list R) :
  (forall y, In y l -> y <= b) -> Rsum l <= b * INR (List.length l).
Proof.
  induction l as [|x l IH]; intros H.
  - simpl. lra.
  - change (List.length (x :: l)) with (S (List.length l)).
    rewrite S_INR. simpl.
    assert (x <= b) by (apply H; now left).
    assert (Rsum l <= b * INR (List.length l))
      by (apply IH; intros y Hy; apply H; now right).
    lra.
Qed.

Lemma mean_bounds (a b : R) (l : list R) :
  l <> [] ->
  (forall y, In y l -> a <= y) -> (forall y, In y l -> y <= b) ->
  a <= Rsum l / INR (List.length l) <= b.
Proof.
  intros Hne Ha Hb.
  assert (Hn : 0 < INR (List.length l))
    by (apply lt_0_INR; destruct l; [congruence | simpl; lia]).
  pose proof (Rsum_lower a l Ha). pose proof (Rsum_upper b l Hb).
  split.
  - apply Rmult_le_reg_r with (r := INR (List.length l)); [assumption|].
    unfold Rdiv. rewrite Rmult_assoc, Rinv_l by lra. lra.
  - apply Rmult_le_reg_r with (r := INR (List.length l)); [assumption|].
    unfold Rdiv. rewrite Rmult_assoc, Rinv_l by lra. lra.
Qed.

(** C3, as the script computes them: for a series with at least one sample
    present, the frame count is the number of samples present, which is the
    length [N] of the series when no cell is missing; the mean is the
    arithmetic mean of the samples present; minimum and maximum are samples
    of the series that bound every sample present; the standard deviation
    is the sample standard deviation (denominator [n - 1]) over all [n]
    samples present, and NaN when [n = 1]. *)
Theorem summary_statistics_spec (s : Series) (obs : list R) :
  dropna s = obs -> obs <> [] ->
  frames (compute_stats s) = List.length obs
  /\ (s = numeric obs -> frames (compute_stats s) = List.length s)
  /\ (exists lo hi,
        mean (compute_stats s)
          = Num (mean_between obs 0 (List.length obs - 1)) /\
        minimum (compute_stats s) = Num lo /\
        maximum (compute_stats s) = Num hi /\
        In lo obs /\ (forall x, In x obs -> lo <= x) /\
        In hi obs /\ (forall x, In x obs -> x <= hi))
  /\ ((2 <= List.length obs)%nat ->
      stdev (compute_stats s) = Num (sample_sd obs))
  /\ (List.length obs = 1%nat -> stdev (compute_stats s) = NaN).
Proof.
  intros Hobs Hne.
  assert (Hpos : (0 < List.length obs)%nat)
    by (destruct obs; [congruence | simpl; lia]).
  unfold compute_stats; simpl.
  unfold Series_count, Series_mean, Series_min, Series_max, Series_std.
  rewrite Hobs.
  split; [reflexivity|]. split; [|split; [|split]].
  - intros E. rewrite E. unfold numeric. now rewrite length_map.
  - destruct obs as [|x t] eqn:E; [congruence|]. rewrite <- E in *.
    assert (Emin : nanmin obs = Num (fold_left Rmin t x)) by now rewrite E.
    assert (Emax : nanmax obs = Num (fold_left Rmax t x)) by now rewrite E.
    destruct (fold_Rmin_spec t x) as [Hin1 Hle1].
    destruct (fold_Rmax_spec t x) as [Hin2 Hle2].
    rewrite <- E in Hin1, Hle1, Hin2, Hle2.
    exists (fold_left Rmin t x), (fold_left Rmax t x).
    repeat split; try assumption.
    rewrite nanmean_nonempty by assumption. f_equal.
    unfold mean_between.
    replace (List.length obs - 1 + 1 - 0)%nat with (List.length obs) by lia.
    rewrite <- Rsum_slice by lia.
    simpl skipn. now rewrite firstn_all.
  - intros H2. unfold sample_sd.
    rewrite <- nanstd_slice by lia.
    now rewrite whole_slice.
  - intros H1. apply nanstd_short. lia.
Qed.

Lemma summary_statistics_spec_witness :
  frames (compute_stats [Num 3; NaN; Num 1; Num 2]) = List.length [3; 1; 2]
  /\ ([Num 3; NaN; Num 1; Num 2] = numeric [3; 1; 2] ->
      frames (compute_stats [Num 3; NaN; Num 1; Num 2])
      = List.length [Num 3; NaN; Num 1; Num 2])
  /\ (exists lo hi,
        mean (compute_stats [Num 3; NaN; Num 1; Num 2])
          = Num (mean_between [3; 1; 2] 0 (List.length [3; 1; 2] - 1)) /\
        minimum (compute_stats [Num 3; NaN; Num 1; Num 2]) = Num lo /\
        maximum (compute_stats [Num 3; NaN; Num 1; Num 2]) = Num hi /\
        In lo [3; 1; 2] /\ (forall x, In x [3; 1; 2] -> lo <= x) /\
        In hi [3; 1; 2] /\ (forall x, In x [3; 1; 2] -> x <= hi))
  /\ ((2 <= List.length [3; 1; 2])%nat ->
      stdev (compute_stats [Num 3; NaN; Num 1; Num 2])
      = Num (sample_sd [3; 1; 2]))
  /\ (List.length [3; 1; 2] = 1%nat ->
      stdev (compute_stats [Num 3; NaN; Num 1; Num 2]) = NaN).
Proof.
  apply (summary_statistics_spec [Num 3; NaN; Num 1; Num 2] [3; 1; 2]).
  - reflexivity.
  - discriminate.
Defined.

(** The claim's [frame count = N] fails on a series with a missing cell, and
    its [mean <= maximum] fails in double precision: the mean of three
    samples 0.1 is computed one unit in the last place above 0.1. *)
Lemma summary_statistics_not_as_claimed :
  frames (compute_stats [Num 1; NaN; Num 3])
    <> List.length [Num 1; NaN; Num 3]
  /\ PrimFloat.ltb (maximum_f64 (compute_stats_f64 [tenth; tenth; tenth]))
                   (mean_of_f64 (compute_stats_f64 [tenth; tenth; tenth]))
     = true.
Proof.
  split.
  - simpl. discriminate.
  - vm_compute. reflexivity.
Qed.

(** ** Equal samples in double precision *)





(** ** Standard-error band *)

Lemma series_div_map (f g : nat -> float) (l : list nat) :
  series_div (map f l) (map g l) = map (fun i => fdiv (f i) (g i)) l.
Proof.
  induction l as [|a l IH]; simpl; [reflexivity|]. now rewrite IH.
Qed.

Lemma sqrt_INR_pos (n : nat) : (1 <= n)%nat -> 0 < sqrt (INR n).
Proof. intros H. apply sqrt_lt_R0. apply lt_0_INR. lia. Qed.

Lemma fsqrt_INR (n : nat) : fsqrt (Num (INR n)) = Num (sqrt (INR n)).
Proof.
  simpl. destruct (Rlt_dec (INR n) 0) as [H|_]; [|reflexivity].
  pose proof (pos_INR n). lra.
Qed.

Lemma fdiv_sqrt_INR (a : R) (n : nat) :
  (1 <= n)%nat -> fdiv (Num a) (Num (sqrt (INR n))) = Num (a / sqrt (INR n)).
Proof.
  intros H. simpl. destruct (Req_dec_T (sqrt (INR n)) 0) as [E|_]; [|reflexivity].
  pose proof (sqrt_INR_pos n H). lra.
Qed.

(** The standard-error band at one index, for a window size of at least 2:
    standard deviation of the window's observations over the square root of
    their count, and 0 when fewer than 2 are present. *)
Lemma standard_error_band (stats_ : StatsBinding) (settings : Settings)
    (s : Series) (i : nat) :
  show_error_bars settings = true ->
  error_type settings = StandardError ->
  (2 <= window_size settings)%nat ->
  (i < List.length s)%nat ->
  exists y,
    error_bands stats_ settings s
    = Ok {| yerr := Some y; ci_lower := None; ci_upper := None |} /\
    List.length y = List.length s /\
    nth_error y i
    = Some (Num (let obs := dropna (rolling_window (window_size settings) i s) in
                 if (2 <=? List.length obs)%nat then std_error_obs obs else 0)).
Proof.
  intros Hshow Htype Hw Hi.
  unfold error_bands. rewrite Hshow, Htype.
  unfold rolling_std, rolling_count.
  rewrite !rolling_ok by assumption. simpl bind.
  unfold np_sqrt. rewrite map_map, series_div_map.
  eexists. split; [reflexivity|]. split.
  - unfold fillna. now rewrite !length_map, length_seq.
  - unfold fillna. rewrite map_map, nth_error_map_seq by assumption.
    cbv zeta. f_equal.
    set (obs := dropna (rolling_window (window_size settings) i s)).
    destruct (Nat.ltb_spec (List.length obs) 2) as [Hlt|Hge].
    + destruct (Nat.leb_spec 2 (List.length obs)); [lia | reflexivity].
    + destruct (Nat.leb_spec 2 (List.length obs)); [|lia].
      rewrite nanstd_two, fsqrt_INR, fdiv_sqrt_INR by lia.
      reflexivity.
Qed.

(** On a series without missing values the observations of the window are
    the samples at indices [max(0, i-w+1) .. i]. *)
Lemma standard_error_band_numeric (stats_ : StatsBinding)
    (settings : Settings) (xs : list R) (i : nat) :
  show_error_bars settings = true ->
  error_type settings = StandardError ->
  (2 <= window_size settings)%nat ->
  (i < List.length xs)%nat ->
  exists y,
    error_bands stats_ settings (numeric xs)
    = Ok {| yerr := Some y; ci_lower := None; ci_upper := None |} /\
    nth_error y i
    = Some (Num (if (2 <=? i + 1 - window_start (window_size settings) i)%nat
                 then std_error_between xs (window_start (window_size settings) i) i
                 else 0)).
Proof.
  intros Hshow Htype Hw Hi.
  destruct (standard_error_band stats_ settings (numeric xs) i)
    as (y & Hy & _ & Hn);
    try assumption; [now rewrite length_numeric|].
  exists y. split; [exact Hy|]. rewrite Hn. cbv zeta.
  rewrite window_numeric, window_start_nat.
  set (lo := (i + 1 - window_size settings)%nat).
  rewrite length_slice by lia.
  destruct (Nat.leb_spec 2 (i + 1 - lo)); [|reflexivity].
  unfold std_error_obs, std_error_between.
  rewrite length_slice by lia.
  pose proof (nanstd_slice xs lo i ltac:(lia) Hi ltac:(lia)) as Hsd.
  rewrite nanstd_two in Hsd by (rewrite length_slice; lia).
  rewrite length_slice in Hsd by lia.
  injection Hsd as ->. reflexivity.
Qed.

(** C5, at window size 1: the standard-error branch asks pandas for a
    rolling window of 1 sample with [min_periods=2], which pandas rejects;
    the script raises ValueError and produces no band, whatever [stats] is
    bound to. *)
Theorem standard_error_window_one_raises :
  (forall stats_,
     error_bands stats_ (with_error_bars DEFAULT_SETTINGS 1 StandardError)
                 (numeric [1; 2; 3])
     = Raise ValueError)
  /\ run (with_error_bars DEFAULT_SETTINGS 1 StandardError) 100 []
         [read_entry 0 (sample_file "a.csv")]
     = Raise ValueError.
Proof.
  split; [intros stats_; reflexivity|].
  unfold run. cbn [per_ligand_widgets with_error_bars DEFAULT_SETTINGS
                   comparison_mode andb bind].
  destruct (Rlt_dec 0 100); [reflexivity | lra].
Qed.

(** ** Confidence-interval band *)

Lemma iloc_ok (dg : Series) (i : nat) :
  (i < List.length dg)%nat -> iloc i dg = Ok (nth i dg NaN).
Proof.
  intros H. unfold iloc. now rewrite (nth_error_nth' dg NaN H).
Qed.

Lemma ci_at_point (w : nat) (dg : Series) (i : nat) :
  calls_interval w dg i = false -> ci_at w dg i = (nth i dg NaN, nth i dg NaN).
Proof.
  unfold calls_interval, ci_at. intros H.
  destruct (i <? 2)%nat; [reflexivity|]. cbn [negb andb] in H.
  cbv zeta. now rewrite H.
Qed.

Lemma ci_at_interval (w : nat) (dg : Series) (i : nat) :
  calls_interval w dg i = true ->
  ci_at w dg i
  = (snd (fst (confidence_interval
                 (iloc_slice (window_start w i) (i + 1) dg))),
     snd (confidence_interval (iloc_slice (window_start w i) (i + 1) dg))).
Proof.
  unfold calls_interval, ci_at. intros H.
  destruct (i <? 2)%nat; [discriminate|]. cbn [negb andb] in H.
  cbv zeta. now rewrite H.
Qed.

Lemma ci_loop_step (stats_ : StatsBinding) (w : nat) (dg : Series)
    (i : nat) (rest : list nat) (lower upper : list float) :
  (i < List.length dg)%nat ->
  ci_loop stats_ w dg (i :: rest) lower upper
  = if calls_interval w dg i then
      match stats_ with
      | ScipyStats =>
          ci_loop stats_ w dg rest (lower ++ [fst (ci_at w dg i)])
                  (upper ++ [snd (ci_at w dg i)])
      | StatsDict => Raise AttributeError
      end
    else ci_loop stats_ w dg rest (lower ++ [fst (ci_at w dg i)])
                 (upper ++ [snd (ci_at w dg i)]).
Proof.
  intros Hi. destruct (calls_interval w dg i) eqn:Ec.
  - rewrite (ci_at_interval w dg i Ec).
    unfold calls_interval in Ec. cbn [ci_loop].
    destruct (i <? 2)%nat; [discriminate|]. cbn [negb andb] in Ec.
    cbv zeta. rewrite Ec.
    destruct stats_; cbn [calculate_confidence_interval bind];
      [|reflexivity].
    destruct (confidence_interval _) as [[m l] u]. reflexivity.
  - rewrite (ci_at_point w dg i Ec).
    unfold calls_interval in Ec. cbn [ci_loop fst snd].
    destruct (i <? 2)%nat.
    + rewrite iloc_ok by assumption. reflexivity.
    + cbn [negb andb] in Ec. cbv zeta. rewrite Ec.
      rewrite iloc_ok by assumption. reflexivity.
Qed.

(** The loop stores at every index the bounds [ci_at] describes, unless
    [stats] is the dictionary and some index needs an interval. *)
Lemma ci_loop_binding (stats_ : StatsBinding) (w : nat) (dg : Series) :
  forall n a lower upper, (a + n <= List.length dg)%nat ->
  ci_loop stats_ w dg (seq a n) lower upper
  = match stats_ with
    | StatsDict =>
        if existsb (calls_interval w dg) (seq a n)
        then Raise AttributeError
        else Ok (lower ++ map (fun i => fst (ci_at w dg i)) (seq a n),
                 upper ++ map (fun i => snd (ci_at w dg i)) (seq a n))
    | ScipyStats =>
        Ok (lower ++ map (fun i => fst (ci_at w dg i)) (seq a n),
            upper ++ map (fun i => snd (ci_at w dg i)) (seq a n))
    end.
Proof.
  induction n as [|n IH]; intros a lower upper H.
  - simpl. rewrite !app_nil_r. now destruct stats_.
  - cbn [seq map existsb]. rewrite ci_loop_step by lia.
    destruct (calls_interval w dg a) eqn:Ec; cbn [orb].
    + destruct stats_; [|reflexivity].
      rewrite IH by lia. now rewrite <- !app_assoc.
    + rewrite IH by lia. rewrite <- !app_assoc. reflexivity.
Qed.

Lemma ci_loop_spec (w : nat) (dg : Series) :
  forall n a lower upper, (a + n <= List.length dg)%nat ->
  ci_loop ScipyStats w dg (seq a n) lower upper
  = Ok (lower ++ map (fun i => fst (ci_at w dg i)) (seq a n),
        upper ++ map (fun i => snd (ci_at w dg i)) (seq a n)).
Proof. intros n a lower upper H. exact (ci_loop_binding ScipyStats w dg n a lower upper H). Qed.

(** Some index of the series needs an interval exactly when the series has
    at least 3 samples and the window at least 2. *)
Lemma calls_interval_somewhere (w : nat) (dg : Series) :
  existsb (calls_interval w dg) (seq 0 (List.length dg)) = true
  <-> (3 <= List.length dg)%nat /\ (2 <= w)%nat.
Proof.
  rewrite existsb_exists. split.
  - intros (i & Hin & Hc). apply in_seq in Hin.
    unfold calls_interval in Hc. apply andb_prop in Hc as [H2 HL].
    apply negb_true_iff, Nat.ltb_ge in H2.
    apply Nat.leb_le in HL. unfold iloc_slice in HL.
    rewrite length_firstn, length_skipn in HL. unfold window_start in HL. lia.
  - intros [H3 Hw]. exists 2%nat. split; [apply in_seq; lia|].
    unfold calls_interval. apply andb_true_intro. split; [reflexivity|].
    apply Nat.leb_le. unfold iloc_slice.
    rewrite length_firstn, length_skipn. unfold window_start. lia.
Qed.

Lemma error_bands_ci (settings : Settings) (dg : Series) :
  show_error_bars settings = true ->
  error_type settings = ConfidenceInterval95 ->
  error_bands ScipyStats settings dg
  = Ok {| yerr := None;
          ci_lower := Some (map (fun i => fst (ci_at (window_size settings) dg i))
                                (seq 0 (List.length dg)));
          ci_upper := Some (map (fun i => snd (ci_at (window_size settings) dg i))
                                (seq 0 (List.length dg))) |}.
Proof.
  intros Hshow Htype. unfold error_bands. rewrite Hshow, Htype.
  rewrite ci_loop_spec by lia. reflexivity.
Qed.

(** In confidence-interval mode the band at index [i] of a series without
    missing values is [ci_at] around the trailing-window mean. *)
Lemma ci_band_at_numeric (settings : Settings) (xs : list R) (i : nat) :
  show_error_bars settings = true ->
  error_type settings = ConfidenceInterval95 ->
  (1 <= window_size settings)%nat -> (i < List.length xs)%nat ->
  ci_band_at settings (numeric xs) i
  = Some (fst (ci_at (window_size settings) (numeric xs) i),
          Num (mean_between xs (window_start (window_size settings) i) i),
          snd (ci_at (window_size settings) (numeric xs) i)).
Proof.
  intros Hshow Htype Hw Hi. unfold ci_band_at.
  rewrite error_bands_ci by assumption.
  destruct (running_nth xs (window_size settings) i Hw Hi) as (r & Hr & _ & Hn).
  rewrite Hr. cbn [ci_lower ci_upper]. rewrite Hn.
  rewrite !nth_error_map_seq by (now rewrite length_numeric).
  reflexivity.
Qed.

Lemma nth_numeric (xs : list R) (i : nat) :
  (i < List.length xs)%nat -> nth i (numeric xs) NaN = Num (nth i xs 0).
Proof.
  intros H. apply nth_error_nth. now apply nth_error_numeric.
Qed.

Lemma no_nan_numeric (xs : list R) : existsb is_nan (numeric xs) = false.
Proof. induction xs as [|x xs IH]; simpl; [reflexivity | exact IH]. Qed.

Lemma stats_sem_numeric (obs : list R) :
  (2 <= List.length obs)%nat ->
  stats_sem (numeric obs) = Num (std_error_obs obs).
Proof.
  intros H. unfold stats_sem.
  rewrite no_nan_numeric, dropna_numeric, length_numeric.
  rewrite nanstd_two, fsqrt_INR, fdiv_sqrt_INR by lia.
  reflexivity.
Qed.

Lemma std_error_obs_slice (xs : list R) (lo i : nat) :
  (lo <= i)%nat -> (i < List.length xs)%nat -> (2 <= i + 1 - lo)%nat ->
  std_error_obs (firstn (i + 1 - lo) (skipn lo xs)) = std_error_between xs lo i.
Proof.
  intros Hlo Hi H2. unfold std_error_obs, std_error_between.
  pose proof (nanstd_slice xs lo i Hlo Hi H2) as Hsd.
  rewrite nanstd_two in Hsd by (rewrite length_slice; lia).
  injection Hsd as ->. now rewrite length_slice by lia.
Qed.

Lemma sample_sd_nonneg (xs : list R) (lo i : nat) : 0 <= sample_sd_between xs lo i.
Proof. unfold sample_sd_between. apply sqrt_pos. Qed.

Lemma std_error_pos (xs : list R) (lo i : nat) :
  (lo <= i)%nat -> 0 < sample_sd_between xs lo i -> 0 < std_error_between xs lo i.
Proof.
  intros Hlo H. unfold std_error_between.
  apply Rdiv_lt_0_compat; [assumption | apply sqrt_INR_pos; lia].
Qed.

Lemma std_error_zero (xs : list R) (lo i : nat) :
  sample_sd_between xs lo i = 0 -> std_error_between xs lo i = 0.
Proof. intros H. unfold std_error_between. rewrite H. unfold Rdiv. ring. Qed.

(** The three cases of the loop body on a series without missing values. *)
Lemma ci_at_degenerate (w : nat) (xs : list R) (i : nat) :
  (i < List.length xs)%nat ->
  (i < 2 \/ i + 1 - window_start w i < 2)%nat ->
  ci_at w (numeric xs) i = (Num (nth i xs 0), Num (nth i xs 0)).
Proof.
  intros Hi Hc. unfold ci_at.
  destruct (Nat.ltb_spec i 2) as [_|Hge].
  - now rewrite nth_numeric.
  - cbv zeta. rewrite iloc_slice_numeric, length_numeric.
    rewrite length_slice by (rewrite window_start_nat; lia).
    destruct (Nat.leb_spec 2 (i + 1 - window_start w i)); [lia|].
    now rewrite nth_numeric.
Qed.

Lemma ci_at_window (w : nat) (xs : list R) (i : nat) :
  (i < List.length xs)%nat -> (2 <= i)%nat ->
  (2 <= i + 1 - window_start w i)%nat ->
  ci_at w (numeric xs) i
  = t_interval 0.95 (i + 1 - window_start w i - 1)
      (Num (mean_between xs (window_start w i) i))
      (Num (std_error_between xs (window_start w i) i)).
Proof.
  intros Hi H2 Hn. unfold ci_at.
  destruct (Nat.ltb_spec i 2) as [|_]; [lia|].
  cbv zeta. rewrite iloc_slice_numeric, length_numeric.
  assert (Hlo : (window_start w i <= i)%nat) by lia.
  rewrite length_slice by lia.
  destruct (Nat.leb_spec 2 (i + 1 - window_start w i)); [|lia].
  unfold confidence_interval. cbn [fst snd].
  rewrite stats_sem_numeric by (rewrite length_slice; lia).
  rewrite std_error_obs_slice by lia.
  unfold Series_mean. rewrite dropna_numeric, length_numeric.
  rewrite length_slice by lia.
  rewrite nanmean_nonempty.
  - rewrite length_slice, Rsum_slice by lia.
    fold (mean_between xs (window_start w i) i).
    now destruct (t_interval _ _ _ _).
  - intros E. apply (f_equal (@List.length R)) in E.
    rewrite length_slice in E by lia. simpl in E. lia.
Qed.

Lemma t_interval_positive_scale (n : nat) (m se : R) :
  (1 <= n)%nat -> 0 < se ->
  exists T, 0 < T /\
    t_interval 0.95 n (Num m) (Num se) = (Num (m - T * se), Num (m + T * se)).
Proof.
  intros Hn Hse. exists (t_ppf ((1 + 0.95) / 2) n). split.
  - apply t_ppf_positive; [lra | assumption].
  - unfold t_interval.
    destruct (Rlt_dec 0 se); [|lra].
    destruct (Nat.ltb_spec 0 n); [|lia].
    replace ((1 - 0.95) / 2) with (1 - (1 + 0.95) / 2) by lra.
    rewrite t_ppf_symmetric. f_equal; f_equal; ring.
Qed.

Lemma t_interval_zero_scale (n : nat) (m : R) :
  t_interval 0.95 n (Num m) (Num 0) = (NaN, NaN).
Proof.
  unfold t_interval. destruct (Rlt_dec 0 0); [lra | reflexivity].
Qed.

(** The band at an index [i >= 2] whose window holds at least 2 samples:
    centred on the window mean with half-width [T] standard errors when the
    window has spread, NaN on both sides when it has none. *)
Lemma ci_band_window (settings : Settings) (xs : list R) (i : nat) :
  show_error_bars settings = true ->
  error_type settings = ConfidenceInterval95 ->
  (1 <= window_size settings)%nat -> (i < List.length xs)%nat ->
  (2 <= i)%nat -> (2 <= i + 1 - window_start (window_size settings) i)%nat ->
  (0 < sample_sd_between xs (window_start (window_size settings) i) i ->
   exists T, 0 < T /\
     ci_band_at settings (numeric xs) i
     = Some (Num (mean_between xs (window_start (window_size settings) i) i
                  - T * std_error_between xs (window_start (window_size settings) i) i),
             Num (mean_between xs (window_start (window_size settings) i) i),
             Num (mean_between xs (window_start (window_size settings) i) i
                  + T * std_error_between xs (window_start (window_size settings) i) i)))
  /\ (sample_sd_between xs (window_start (window_size settings) i) i = 0 ->
      ci_band_at settings (numeric xs) i
      = Some (NaN,
              Num (mean_between xs (window_start (window_size settings) i) i),
              NaN)).
Proof.
  intros Hshow Htype Hw Hi H2 Hn.
  rewrite ci_band_at_numeric, ci_at_window by assumption.
  set (ws := window_start (window_size settings) i) in *.
  split.
  - intros Hsd.
    destruct (t_interval_positive_scale (i + 1 - ws - 1)
                (mean_between xs ws i) (std_error_between xs ws i))
      as (T & HT & E); [lia | apply std_error_pos; [lia | assumption] |].
    exists T. split; [exact HT|]. now rewrite E.
  - intros Hsd. rewrite (std_error_zero _ _ _ Hsd), t_interval_zero_scale.
    reflexivity.
Qed.

(** C2, as the script computes the band: at the first two indices, and
    wherever the window holds fewer than 2 samples, both bounds are the
    sample at that index, which is the running mean at index 0 and for
    window size 1; at an index [i >= 2] whose window holds at least 2
    samples with non-zero spread, [lower < running mean < upper]; at every
    index [i >= 2] whose window holds at least 2 samples, the bounds are
    either both NaN or both numbers with [lower <= upper]. *)
Theorem confidence_band_spec (settings : Settings) (xs : list R) (i : nat) :
  show_error_bars settings = true ->
  error_type settings = ConfidenceInterval95 ->
  (1 <= window_size settings <= 50)%nat ->
  (i < List.length xs)%nat ->
  exists lower upper,
    ci_band_at settings (numeric xs) i
    = Some (lower,
            Num (mean_between xs (window_start (window_size settings) i) i),
            upper) /\
    ((i < 2 \/ i + 1 - window_start (window_size settings) i < 2)%nat ->
     lower = Num (nth i xs 0) /\ upper = Num (nth i xs 0)) /\
    ((i = 0 \/ window_size settings = 1)%nat ->
     mean_between xs (window_start (window_size settings) i) i = nth i xs 0) /\
    ((2 <= i)%nat ->
     (2 <= i + 1 - window_start (window_size settings) i)%nat ->
     0 < sample_sd_between xs (window_start (window_size settings) i) i ->
     exists l u, lower = Num l /\ upper = Num u /\
       l < mean_between xs (window_start (window_size settings) i) i < u) /\
    ((2 <= i)%nat ->
     (2 <= i + 1 - window_start (window_size settings) i)%nat ->
     (lower = NaN /\ upper = NaN) \/
     exists l u, lower = Num l /\ upper = Num u /\ l <= u).
Proof.
  intros Hshow Htype [Hw _] Hi.
  pose proof (ci_band_at_numeric settings xs i Hshow Htype Hw Hi) as Hband.
  set (ws := window_start (window_size settings) i) in *.
  exists (fst (ci_at (window_size settings) (numeric xs) i)),
         (snd (ci_at (window_size settings) (numeric xs) i)).
  split; [exact Hband|]. split; [|split; [|split]].
  - intros Hc. now rewrite ci_at_degenerate by assumption.
  - intros Hc.
    assert (Hws : ws = i) by (unfold ws; rewrite window_start_nat; lia).
    rewrite Hws. apply mean_between_self.
  - intros H2 Hn Hsd.
    destruct (ci_band_window settings xs i Hshow Htype Hw Hi H2 Hn) as [Hpos _].
    destruct (Hpos Hsd) as (T & HT & E). fold ws in E.
    rewrite Hband in E. injection E as El Eu.
    pose proof (std_error_pos xs ws i ltac:(lia) Hsd) as Hse.
    eexists _, _. split; [exact El|]. split; [exact Eu|].
    split; nra.
  - intros H2 Hn.
    destruct (ci_band_window settings xs i Hshow Htype Hw Hi H2 Hn) as [Hpos Hz].
    fold ws in Hpos, Hz.
    destruct (Rle_lt_or_eq_dec 0 (sample_sd_between xs ws i)
                (sample_sd_nonneg xs ws i)) as [Hsd|Hsd].
    + right. destruct (Hpos Hsd) as (T & HT & E).
      rewrite Hband in E. injection E as El Eu.
      pose proof (std_error_pos xs ws i ltac:(lia) Hsd) as Hse.
      eexists _, _. split; [exact El|]. split; [exact Eu|].
      nra.
    + left. specialize (Hz (eq_sym Hsd)).
      rewrite Hband in Hz. injection Hz as El Eu. now split.
Qed.

(** C10, for windows with spread: in confidence-interval mode, at an index
    [i >= 2] whose trailing window [max(0, i-w+1) .. i] holds at least 2
    samples with non-zero sample standard deviation, the interval is the
    running mean at [i] plus and minus a positive multiple of the standard
    error of that same window, so its midpoint is the window mean. *)
Theorem confidence_band_symmetric (settings : Settings) (xs : list R) (i : nat) :
  show_error_bars settings = true ->
  error_type settings = ConfidenceInterval95 ->
  (1 <= window_size settings <= 50)%nat ->
  (i < List.length xs)%nat ->
  (2 <= i)%nat ->
  (2 <= i + 1 - window_start (window_size settings) i)%nat ->
  0 < sample_sd_between xs (window_start (window_size settings) i) i ->
  ci_symmetric_at settings xs i /\
  exists T l u,
    0 < T /\
    ci_band_at settings (numeric xs) i
    = Some (Num l,
            Num (mean_between xs (window_start (window_size settings) i) i),
            Num u) /\
    l = mean_between xs (window_start (window_size settings) i) i
        - T * std_error_between xs (window_start (window_size settings) i) i /\
    u = mean_between xs (window_start (window_size settings) i) i
        + T * std_error_between xs (window_start (window_size settings) i) i /\
    (l + u) / 2 = mean_between xs (window_start (window_size settings) i) i.
Proof.
  intros Hshow Htype [Hw _] Hi H2 Hn Hsd.
  destruct (ci_band_window settings xs i Hshow Htype Hw Hi H2 Hn) as [Hpos _].
  destruct (Hpos Hsd) as (T & HT & E).
  split.
  - eexists _, _, _. split; [exact E|]. field.
  - eexists T, _, _. split; [exact HT|]. split; [exact E|].
    split; [reflexivity|]. split; [reflexivity|]. field.
Qed.

(** ** The per-file loop *)

(** The loop body reads the state only through what [stats] is bound to:
    two states with the same plots and statistics get the same additions
    or the same exception, whatever their messages. *)
Lemma process_entry_same_numbers (settings : Settings) (md : R)
    (st1 st2 : LoopState) (e : Entry) :
  plotted st1 = plotted st2 -> all_stats st1 = all_stats st2 ->
  match process_entry settings md st1 e, process_entry settings md st2 e with
  | Ok a, Ok b => plotted a = plotted b /\ all_stats a = all_stats b
  | Raise x, Raise y => x = y
  | _, _ => False
  end.
Proof.
  intros Hp Hs.
  assert (Hb : stats_binding st1 = stats_binding st2)
    by (unfold stats_binding; now rewrite Hs).
  unfold process_entry.
  destruct (df e) as [d|]; [|simpl; auto].
  destruct (df_empty d); [simpl; auto|].
  destruct (get_column "r_psp_MMGBSA_dG_Bind" d) as [col|]; [|simpl; auto].
  destruct (astype_float col) as [dg|x]; [|reflexivity].
  cbn [bind]. rewrite Hb.
  destruct (analyse _ settings dg) as [a|x]; [|reflexivity].
  cbn [bind plotted all_stats]. now rewrite Hp, Hs.
Qed.

Lemma main_loop_same_numbers (settings : Settings) (md : R) (l : list Entry) :
  forall st1 st2,
  plotted st1 = plotted st2 -> all_stats st1 = all_stats st2 ->
  numbers (main_loop settings md st1 l) = numbers (main_loop settings md st2 l).
Proof.
  induction l as [|e l IH]; intros st1 st2 Hp Hs.
  - simpl. now rewrite Hp, Hs.
  - cbn [main_loop].
    pose proof (process_entry_same_numbers settings md st1 st2 e Hp Hs) as H.
    destruct (process_entry settings md st1 e) as [a|x],
             (process_entry settings md st2 e) as [b|y];
      try contradiction.
    + cbn [bind]. destruct H as [Hp' Hs']. now apply IH.
    + subst y. reflexivity.
Qed.

(** The loop only appends to the messages. *)
Lemma process_entry_msgs (settings : Settings) (md : R)
    (st st' : LoopState) (e : Entry) :
  process_entry settings md st e = Ok st' ->
  exists extra, msgs st' = msgs st ++ extra.
Proof.
  unfold process_entry. intros H.
  destruct (df e) as [d|];
    [|injection H as <-; now exists [Error (empty_file_error e)]].
  destruct (df_empty d);
    [injection H as <-; now exists [Error (empty_file_error e)]|].
  destruct (get_column "r_psp_MMGBSA_dG_Bind" d) as [col|];
    [|injection H as <-; now exists [Error (missing_column_error e)]].
  destruct (astype_float col) as [dg|x]; [|discriminate].
  cbn [bind] in H.
  destruct (analyse _ settings dg) as [a|x]; [|discriminate].
  cbn [bind] in H. injection H as <-. exists []. simpl. now rewrite app_nil_r.
Qed.

Lemma main_loop_msgs (settings : Settings) (md : R) (l : list Entry) :
  forall st st',
  main_loop settings md st l = Ok st' ->
  exists extra, msgs st' = msgs st ++ extra.
Proof.
  induction l as [|e l IH]; intros st st' H.
  - injection H as <-. exists []. now rewrite app_nil_r.
  - cbn [main_loop] in H.
    destruct (process_entry settings md st e) as [st1|x] eqn:E; [|discriminate].
    cbn [bind] in H.
    destruct (process_entry_msgs settings md st st1 e E) as (x1 & H1).
    destruct (IH st1 st' H) as (x2 & H2).
    exists (x1 ++ x2). now rewrite H2, H1, app_assoc.
Qed.

Lemma main_loop_app (settings : Settings) (md : R) (l1 l2 : list Entry) :
  forall st,
  main_loop settings md st (l1 ++ l2)
  = (st' <- main_loop settings md st l1 ;; main_loop settings md st' l2).
Proof.
  induction l1 as [|e l1 IH]; intros st; [reflexivity|].
  cbn [app main_loop].
  destruct (process_entry settings md st e) as [st1|x]; [|reflexivity].
  cbn [bind]. apply IH.
Qed.

(** A message already shown changes neither the plots nor the statistics
    of the files that follow, and is still shown at the end. *)
Lemma main_loop_after_error (settings : Settings) (md : R)
    (st : LoopState) (text : string) (l : list Entry) :
  numbers (main_loop settings md (st_error st text) l)
  = numbers (main_loop settings md st l)
  /\ (forall st', main_loop settings md (st_error st text) l = Ok st' ->
                  In (Error text) (msgs st')).
Proof.
  split.
  - apply main_loop_same_numbers; reflexivity.
  - intros st' E.
    destruct (main_loop_msgs settings md l _ st' E) as (extra & ->).
    simpl. apply in_or_app. left. apply in_or_app. right. now left.
Qed.

Lemma process_entry_missing (settings : Settings) (md : R) (e : Entry) :
  (df e = None \/
   exists d, df e = Some d /\ get_column energy_column d = None) ->
  exists text,
    (text = empty_file_error e \/ text = missing_column_error e) /\
    forall st, process_entry settings md st e = Ok (st_error st text).
Proof.
  intros [Hn|(d & Hd & Hc)].
  - exists (empty_file_error e). split; [now left|].
    intros st. unfold process_entry. now rewrite Hn.
  - destruct (df_empty d) eqn:He.
    + exists (empty_file_error e). split; [now left|].
      intros st. unfold process_entry. now rewrite Hd, He.
    + exists (missing_column_error e). split; [now right|].
      intros st. unfold process_entry. rewrite Hd, He.
      unfold energy_column in Hc. now rewrite Hc.
Qed.

Lemma read_entry_table (idx : nat) (f : UploadedFile) (d : DataFrame) :
  read_csv f = Ok d ->
  csv_file (read_entry idx f) = f /\
  (df (read_entry idx f) = None \/ df (read_entry idx f) = Some d).
Proof.
  intros H. unfold read_entry. rewrite H. cbn [bind].
  destruct (first_title d) as [t|x]; cbn [bind]; simpl; auto.
Qed.

(** C7: a file whose table lacks the column [r_psp_MMGBSA_dG_Bind] gets one
    error message naming it; it adds no plotted series and no statistics;
    the files before and after it are processed as if it were absent; and
    a run on that file alone ends with the messages shown, not with an
    exception. *)
Theorem missing_column_file_skipped (settings : Settings) (md : R)
    (idx : nat) (f : UploadedFile) (d : DataFrame) :
  read_csv f = Ok d ->
  get_column energy_column d = None ->
  csv_file (read_entry idx f) = f /\
  exists text,
    (text = empty_file_error (read_entry idx f) \/
     text = missing_column_error (read_entry idx f)) /\
    (forall st,
        process_entry settings md st (read_entry idx f)
        = Ok {| msgs := msgs st ++ [Error text];
                plotted := plotted st;
                all_stats := all_stats st |}) /\
    (forall st pre post,
        main_loop settings md st (pre ++ read_entry idx f :: post)
        = (st' <- main_loop settings md st pre ;;
           main_loop settings md (st_error st' text) post)) /\
    (forall st post,
        numbers (main_loop settings md (st_error st text) post)
        = numbers (main_loop settings md st post)) /\
    (forall st post st',
        main_loop settings md (st_error st text) post = Ok st' ->
        In (Error text) (msgs st')) /\
    (0 < md ->
     forall shown,
       run settings md shown [read_entry idx f]
       = Ok (Stopped (shown ++ [Error text; no_valid_data]))).
Proof.
  intros Hread Hcol.
  destruct (read_entry_table idx f d Hread) as [Hfile Hdf].
  split; [exact Hfile|].
  destruct (process_entry_missing settings md (read_entry idx f)) as (text & Ht & Hp).
  { destruct Hdf as [Hn|Hs]; [now left | right; now exists d]. }
  exists text. split; [exact Ht|]. split; [exact Hp|].
  split; [|split; [|split]].
  - intros st pre post. rewrite main_loop_app.
    destruct (main_loop settings md st pre) as [st1|x]; [|reflexivity].
    cbn [bind main_loop]. now rewrite Hp.
  - intros st post. apply main_loop_after_error.
  - intros st post. apply main_loop_after_error.
  - intros Hmd shown. unfold run, per_ligand_widgets, widget_labels.
    cbn [map has_duplicate]. rewrite andb_false_r. cbn [bind].
    destruct (Rlt_dec 0 md); [|contradiction].
    cbn [main_loop]. rewrite Hp. cbn [bind]. simpl.
    now rewrite <- app_assoc.
Qed.

(** ** Upload and truncation *)

Lemma csv_file_read_entry (idx : nat) (f : UploadedFile) :
  csv_file (read_entry idx f) = f.
Proof.
  unfold read_entry.
  destruct (d <- read_csv f ;; t <- first_title d ;; Ok (d, parse_ligand_id t))
    as [[d id]|x]; reflexivity.
Qed.

Lemma csv_file_read_entries (files : list UploadedFile) :
  forall idx, map csv_file (read_entries idx files) = files.
Proof.
  induction files as [|f files IH]; intros idx; simpl; [reflexivity|].
  now rewrite csv_file_read_entry, IH.
Qed.

Lemma length_read_entries (files : list UploadedFile) :
  forall idx, List.length (read_entries idx files) = List.length files.
Proof.
  induction files as [|f files IH]; intros idx; simpl; [reflexivity|].
  now rewrite IH.
Qed.

Lemma read_entry_valid (idx : nat) (f : UploadedFile) :
  valid_file f ->
  exists d v, df (read_entry idx f) = Some d /\ df_empty d = false /\
              get_column energy_column d = Some (FloatCol v).
Proof.
  intros (d & v & t & Hr & He & Hc & Ht).
  exists d, v. unfold read_entry. rewrite Hr. cbn [bind]. rewrite Ht.
  cbn [bind]. simpl. auto.
Qed.

Lemma running_ok (w : nat) (s : Series) :
  (1 <= w)%nat ->
  running w s
  = Ok (map (fun i =>
               let obs := dropna (rolling_window w i s) in
               if (List.length obs <? 1)%nat then NaN else nanmean obs)
            (seq 0 (List.length s))).
Proof. intros H. unfold running, rolling_mean. now apply rolling_ok. Qed.

Lemma rolling_raises (w m : nat) (agg : list R -> float) (s : Series) :
  (w < m)%nat -> rolling w m agg s = Raise ValueError.
Proof.
  intros H. unfold rolling.
  destruct (Nat.ltb_spec w m); [reflexivity | lia].
Qed.

(** With the dictionary in [stats], the confidence-interval branch raises
    as soon as one index needs an interval. *)
Lemma error_bands_ci_dict (settings : Settings) (dg : Series) :
  show_error_bars settings = true ->
  error_type settings = ConfidenceInterval95 ->
  error_bands StatsDict settings dg
  = if existsb (calls_interval (window_size settings) dg)
               (seq 0 (List.length dg))
    then Raise AttributeError
    else error_bands ScipyStats settings dg.
Proof.
  intros Hs Ht. unfold error_bands. rewrite Hs, Ht.
  rewrite !ci_loop_binding by lia.
  now destruct (existsb _ _).
Qed.

(** Settings under which the analysis does not depend on [stats]: no bars,
    or bars of standard error or standard deviation with a window of at
    least 2. *)
Lemma analyse_safe (stats_ : StatsBinding) (settings : Settings) (dg : Series) :
  (1 <= window_size settings)%nat ->
  (show_error_bars settings = false \/
   (error_type settings <> ConfidenceInterval95 /\
    (2 <= window_size settings)%nat)) ->
  exists a, analyse stats_ settings dg = Ok a /\ a_stats a = compute_stats dg.
Proof.
  intros Hw Hsafe. unfold analyse. rewrite running_ok by assumption.
  cbn [bind]. unfold error_bands.
  destruct (show_error_bars settings).
  2:{ cbn [bind]. eexists. split; reflexivity. }
  destruct Hsafe as [Hf|[Ht H2]]; [discriminate|].
  destruct (error_type settings); [| |congruence];
    unfold rolling_std, rolling_count; rewrite !rolling_ok by assumption;
    cbn [bind]; eexists; split; reflexivity.
Qed.

(** For the first file the confidence band is computed. *)
Lemma analyse_ci_first (settings : Settings) (dg : Series) :
  (1 <= window_size settings)%nat ->
  show_error_bars settings = true ->
  error_type settings = ConfidenceInterval95 ->
  exists a, analyse ScipyStats settings dg = Ok a /\
            a_stats a = compute_stats dg.
Proof.
  intros Hw Hs Ht. unfold analyse. rewrite running_ok by assumption.
  cbn [bind]. rewrite error_bands_ci by assumption. cbn [bind].
  eexists. split; reflexivity.
Qed.

(** For a later file it is not. *)
Lemma analyse_ci_later (settings : Settings) (dg : Series) :
  show_error_bars settings = true ->
  error_type settings = ConfidenceInterval95 ->
  (2 <= window_size settings)%nat -> (3 <= List.length dg)%nat ->
  analyse StatsDict settings dg = Raise AttributeError.
Proof.
  intros Hs Ht Hw Hl. unfold analyse. rewrite running_ok by lia.
  cbn [bind]. rewrite error_bands_ci_dict by assumption.
  destruct (existsb _ _) eqn:E; [reflexivity|].
  assert (Ht' : existsb (calls_interval (window_size settings) dg)
                        (seq 0 (List.length dg)) = true)
    by (apply calls_interval_somewhere; split; assumption).
  congruence.
Qed.

Lemma process_entry_analysed (settings : Settings) (md : R) (st : LoopState)
    (e : Entry) (d : DataFrame) (v : Series) (a : Analysis) :
  df e = Some d -> df_empty d = false ->
  get_column energy_column d = Some (FloatCol v) ->
  analyse (stats_binding st) settings v = Ok a ->
  process_entry settings md st e
  = Ok {| msgs := msgs st;
          plotted := plotted st ++
            [{| p_ligand := ligand_id e;
                p_time := time_ns md v;
                p_dg := v;
                p_running := a_running a;
                p_bands := a_bands a |}];
          all_stats := all_stats st ++ [(ligand_id e, a_stats a)] |}.
Proof.
  intros Hd He Hc Ha.
  unfold process_entry. rewrite Hd, He.
  unfold energy_column in Hc. rewrite Hc.
  cbn [astype_float bind]. rewrite Ha. reflexivity.
Qed.

Lemma process_entry_valid (settings : Settings) (md : R) (st : LoopState)
    (e : Entry) (d : DataFrame) (v : Series) :
  df e = Some d -> df_empty d = false ->
  get_column energy_column d = Some (FloatCol v) ->
  (1 <= window_size settings)%nat ->
  (show_error_bars settings = false \/
   (error_type settings <> ConfidenceInterval95 /\
    (2 <= window_size settings)%nat)) ->
  exists p,
    p_ligand p = ligand_id e /\ p_dg p = v /\
    process_entry settings md st e
    = Ok {| msgs := msgs st;
            plotted := plotted st ++ [p];
            all_stats := all_stats st ++ [(ligand_id e, compute_stats v)] |}.
Proof.
  intros Hd He Hc Hw Hsafe.
  destruct (analyse_safe (stats_binding st) settings v Hw Hsafe)
    as (a & Ha & Hst).
  rewrite (process_entry_analysed settings md st e d v a Hd He Hc Ha).
  rewrite Hst.
  exists {| p_ligand := ligand_id e; p_time := time_ns md v; p_dg := v;
            p_running := a_running a; p_bands := a_bands a |}.
  split; [|split]; reflexivity.
Qed.

(** Valid files under such settings are all plotted, in order, each with
    its own label and statistics. *)
Lemma main_loop_valid (settings : Settings) (md : R) :
  (1 <= window_size settings)%nat ->
  (show_error_bars settings = false \/
   (error_type settings <> ConfidenceInterval95 /\
    (2 <= window_size settings)%nat)) ->
  forall files idx st,
    Forall valid_file files ->
    exists st',
      main_loop settings md st (read_entries idx files) = Ok st' /\
      msgs st' = msgs st /\
      map fst (all_stats st')
      = map fst (all_stats st) ++ map ligand_id (read_entries idx files) /\
      map p_ligand (plotted st')
      = map p_ligand (plotted st) ++ map ligand_id (read_entries idx files).
Proof.
  intros Hw Hsafe. induction files as [|f files IH]; intros idx st Hall.
  - exists st. simpl. rewrite !app_nil_r. repeat split.
  - inversion Hall as [|? ? Hf Hrest]; subst.
    destruct (read_entry_valid idx f Hf) as (d & v & Hd & He & Hc).
    destruct (process_entry_valid settings md st _ d v Hd He Hc Hw Hsafe)
      as (p & Hpl & _ & Hp).
    cbn [read_entries main_loop]. rewrite Hp. cbn [bind].
    match goal with
    | |- context [main_loop _ _ ?s _] =>
        destruct (IH (S idx) s Hrest) as (st' & Hm & Hmsg & Hst & Hplot)
    end.
    exists st'. split; [exact Hm|]. cbn [msgs all_stats plotted] in Hmsg, Hst, Hplot.
    rewrite map_app in Hst, Hplot. cbn [map fst] in Hst, Hplot.
    rewrite Hpl in Hplot. rewrite <- app_assoc in Hst, Hplot.
    cbn [map]. repeat split; assumption.
Qed.

Lemma per_ligand_widgets_distinct (settings : Settings) (file_data : list Entry) :
  has_duplicate (widget_labels file_data) = false ->
  per_ligand_widgets settings file_data = Ok tt.
Proof.
  intros H. unfold per_ligand_widgets. rewrite H. now rewrite andb_false_r.
Qed.

Lemma upload_comparison_truncates (settings : Settings)
    (files : list UploadedFile) :
  (max_ligands settings < List.length files)%nat ->
  upload_comparison settings files
  = ([truncation_warning (max_ligands settings)],
     read_entries 0 (firstn (max_ligands settings) files)).
Proof.
  intros H. unfold upload_comparison.
  destruct (Nat.ltb_spec (max_ligands settings) (List.length files));
    [reflexivity | lia].
Qed.

(** C6, where it fails: in comparison mode the uploads beyond
    [max_ligands] are dropped with one warning, but when two of the files
    that remain carry the same label the run ends with
    StreamlitDuplicateElementKey in the per-ligand sidebar, and nothing is
    plotted: 5 uploads titled 'ligand A' with a maximum of 4 give the
    warning, 4 entries and the exception.  When the labels of the first
    [max_ligands] files differ, the files are valid, and the error bars are
    off or of standard error or standard deviation with a window of at
    least 2, exactly these files are rendered, in upload order. *)
Theorem comparison_truncation_duplicate_labels :
  (forall (settings : Settings) (md : R) (shown : list Msg)
          (file_data : list Entry),
      comparison_mode settings = true ->
      has_duplicate (widget_labels file_data) = true ->
      run settings md shown file_data = Raise StreamlitDuplicateElementKey)
  /\ (upload_comparison (with_comparison_mode DEFAULT_SETTINGS 4)
        [sample_file "a.csv"; sample_file "b.csv"; sample_file "c.csv";
         sample_file "d.csv"; sample_file "e.csv"]
      = ([truncation_warning 4],
         read_entries 0 [sample_file "a.csv"; sample_file "b.csv";
                         sample_file "c.csv"; sample_file "d.csv"])
      /\ run (with_comparison_mode DEFAULT_SETTINGS 4) 100
           [truncation_warning 4]
           (read_entries 0 [sample_file "a.csv"; sample_file "b.csv";
                            sample_file "c.csv"; sample_file "d.csv"])
         = Raise StreamlitDuplicateElementKey)
  /\ (forall (settings : Settings) (md : R) (files : list UploadedFile),
      (max_ligands settings < List.length files)%nat ->
      (1 <= max_ligands settings)%nat ->
      0 < md ->
      (1 <= window_size settings)%nat ->
      (show_error_bars settings = false \/
       (error_type settings <> ConfidenceInterval95 /\
        (2 <= window_size settings)%nat)) ->
      Forall valid_file (firstn (max_ligands settings) files) ->
      has_duplicate
        (widget_labels (read_entries 0 (firstn (max_ligands settings) files)))
      = false ->
      exists st,
        run settings md (fst (upload_comparison settings files))
            (snd (upload_comparison settings files))
        = Ok (Rendered st) /\
        msgs st = [truncation_warning (max_ligands settings)] /\
        map csv_file (snd (upload_comparison settings files))
        = firstn (max_ligands settings) files /\
        map fst (all_stats st)
        = map ligand_id (snd (upload_comparison settings files)) /\
        map p_ligand (plotted st)
        = map ligand_id (snd (upload_comparison settings files)) /\
        List.length (all_stats st) = max_ligands settings).
Proof.
  split; [|split].
  - intros settings md shown file_data Hc Hd.
    unfold run, per_ligand_widgets. now rewrite Hc, Hd.
  - split; reflexivity.
  - intros settings md files H Hmax Hmd Hw Hsafe Hall Hdup.
    rewrite (upload_comparison_truncates settings files H). cbn [fst snd].
    destruct (main_loop_valid settings md Hw Hsafe _ 0%nat
                (initial_state [truncation_warning (max_ligands settings)]) Hall)
      as (st & Hm & Hmsg & Hst & Hpl).
    cbn [initial_state msgs all_stats plotted map app] in Hmsg, Hst, Hpl.
    assert (Hlen : List.length (read_entries 0 (firstn (max_ligands settings) files))
                   = max_ligands settings)
      by (rewrite length_read_entries, length_firstn; lia).
    assert (Hn : List.length (all_stats st) = max_ligands settings)
      by (rewrite <- (length_map fst), Hst, length_map; exact Hlen).
    exists st. unfold run.
    rewrite (per_ligand_widgets_distinct _ _ Hdup). cbn [bind].
    destruct (read_entries 0 (firstn (max_ligands settings) files)) as [|e es] eqn:E;
      [simpl in Hlen; lia|].
    destruct (Rlt_dec 0 md); [|contradiction].
    rewrite Hm. cbn [bind].
    destruct (all_stats st) as [|x xs] eqn:Es; [simpl in Hn; lia|].
    split; [reflexivity|]. split; [exact Hmsg|].
    split; [rewrite <- E; apply csv_file_read_entries|].
    repeat split; assumption.
Qed.

(** ** Dependence on the inputs

    The helper [generate_random_color] of the script draws from
    [np.random]; nothing calls it, and it is not part of the pipeline. *)

(** C8, where it fails: the confidence band of a file depends on whether a
    file was analysed before it in the same run.  With error bars of type
    confidence interval, a window of at least 2 and a series of at least 3
    samples, a valid entry is analysed and plotted when no statistics have
    been collected yet, and raises AttributeError otherwise; so processing
    the same entry twice raises, and a comparison of two files raises on
    the second, which alone is rendered. *)
Theorem second_file_confidence_band_raises :
  (forall (settings : Settings) (md : R) (st : LoopState) (e : Entry)
          (d : DataFrame) (v : Series),
      df e = Some d -> df_empty d = false ->
      get_column energy_column d = Some (FloatCol v) ->
      show_error_bars settings = true ->
      error_type settings = ConfidenceInterval95 ->
      (2 <= window_size settings)%nat -> (3 <= List.length v)%nat ->
      (all_stats st = [] ->
       exists st',
         process_entry settings md st e = Ok st' /\
         all_stats st' = [(ligand_id e, compute_stats v)]) /\
      (all_stats st <> [] ->
       process_entry settings md st e = Raise AttributeError) /\
      (all_stats st = [] ->
       main_loop settings md st [e; e] = Raise AttributeError))
  /\ (exists st,
        run (with_comparison_mode (ci_settings 2) 4) 100 []
            (read_entries 0 [titled_file "b.csv" "ligand B"])
        = Ok (Rendered st))
  /\ run (with_comparison_mode (ci_settings 2) 4) 100 []
         (read_entries 0 [titled_file "a.csv" "ligand A";
                          titled_file "b.csv" "ligand B"])
     = Raise AttributeError.
Proof.
  assert (Hgen : forall (settings : Settings) (md : R) (st : LoopState)
          (e : Entry) (d : DataFrame) (v : Series),
      df e = Some d -> df_empty d = false ->
      get_column energy_column d = Some (FloatCol v) ->
      show_error_bars settings = true ->
      error_type settings = ConfidenceInterval95 ->
      (2 <= window_size settings)%nat -> (3 <= List.length v)%nat ->
      (all_stats st = [] ->
       exists st',
         process_entry settings md st e = Ok st' /\
         all_stats st' = [(ligand_id e, compute_stats v)]) /\
      (all_stats st <> [] ->
       process_entry settings md st e = Raise AttributeError)).
  { intros settings md st e d v Hd He Hc Hs Ht Hw Hl. split.
    - intros Hst.
      destruct (analyse_ci_first settings v ltac:(lia) Hs Ht) as (a & Ha & Hsa).
      assert (Hb : stats_binding st = ScipyStats)
        by (unfold stats_binding; now rewrite Hst).
      rewrite <- Hb in Ha.
      rewrite (process_entry_analysed settings md st e d v a Hd He Hc Ha).
      eexists. split; [reflexivity|]. cbn [all_stats].
      now rewrite Hst, Hsa.
    - intros Hst.
      assert (Hb : stats_binding st = StatsDict)
        by (unfold stats_binding; destruct (all_stats st); congruence).
      unfold process_entry. rewrite Hd, He.
      unfold energy_column in Hc. rewrite Hc.
      cbn [astype_float bind]. rewrite Hb.
      now rewrite (analyse_ci_later settings v Hs Ht Hw Hl). }
  assert (Htwo : forall (settings : Settings) (md : R) (st : LoopState)
          (e1 e2 : Entry) (d1 d2 : DataFrame) (v1 v2 : Series),
      df e1 = Some d1 -> df_empty d1 = false ->
      get_column energy_column d1 = Some (FloatCol v1) ->
      df e2 = Some d2 -> df_empty d2 = false ->
      get_column energy_column d2 = Some (FloatCol v2) ->
      show_error_bars settings = true ->
      error_type settings = ConfidenceInterval95 ->
      (2 <= window_size settings)%nat ->
      (3 <= List.length v1)%nat -> (3 <= List.length v2)%nat ->
      all_stats st = [] ->
      main_loop settings md st [e1; e2] = Raise AttributeError).
  { intros settings md st e1 e2 d1 d2 v1 v2 Hd1 He1 Hc1 Hd2 He2 Hc2
           Hs Ht Hw Hl1 Hl2 Hst.
    destruct (Hgen settings md st e1 d1 v1 Hd1 He1 Hc1 Hs Ht Hw Hl1)
      as [Hfirst _].
    destruct (Hfirst Hst) as (st1 & E1 & Hst1).
    cbn [main_loop]. rewrite E1. cbn [bind].
    destruct (Hgen settings md st1 e2 d2 v2 Hd2 He2 Hc2 Hs Ht Hw Hl2)
      as [_ Hlater].
    rewrite Hlater; [reflexivity|]. rewrite Hst1. discriminate. }
  split; [|split].
  - intros settings md st e d v Hd He Hc Hs Ht Hw Hl.
    destruct (Hgen settings md st e d v Hd He Hc Hs Ht Hw Hl) as [H1 H2].
    split; [exact H1|]. split; [exact H2|].
    intros Hst.
    exact (Htwo settings md st e e d d v v Hd He Hc Hd He Hc Hs Ht Hw Hl Hl Hst).
  - destruct (Hgen (with_comparison_mode (ci_settings 2) 4) 100
                (initial_state [])
                (read_entry 0 (titled_file "b.csv" "ligand B"))
                (titled_table "ligand B") (numeric [1; 2; 3]))
      as [Hfirst _]; try reflexivity; try (simpl; lia).
    destruct (Hfirst eq_refl) as (st & E & Hst).
    exists st. unfold run.
    rewrite per_ligand_widgets_distinct by reflexivity.
    cbn [bind read_entries].
    destruct (Rlt_dec 0 100); [|lra].
    cbn [main_loop]. rewrite E. cbn [bind]. now rewrite Hst.
  - unfold run. rewrite per_ligand_widgets_distinct by reflexivity.
    cbn [bind read_entries].
    destruct (Rlt_dec 0 100); [|lra].
    rewrite (Htwo (with_comparison_mode (ci_settings 2) 4) 100
               (initial_state [])
               (read_entry 0 (titled_file "a.csv" "ligand A"))
               (read_entry 1 (titled_file "b.csv" "ligand B"))
               (titled_table "ligand A") (titled_table "ligand B")
               (numeric [1; 2; 3]) (numeric [1; 2; 3]));
      try reflexivity; simpl; lia.
Qed.

(** ** Windows without spread *)

Lemma sum_sq_from_nonneg (xs : list R) (m : R) :
  forall n lo, 0 <= sum_sq_from xs m lo n.
Proof.
  induction n as [|n IH]; intros lo; simpl; [lra|].
  pose proof (IH (S lo)). pose proof (Rle_0_sqr (nth lo xs 0 - m)) as Hs.
  unfold Rsqr in Hs. lra.
Qed.

Lemma sum_sq_from_zero (xs : list R) (m : R) :
  forall n lo, sum_sq_from xs m lo n = 0 ->
  forall k, (lo <= k < lo + n)%nat -> nth k xs 0 = m.
Proof.
  induction n as [|n IH]; intros lo H k Hk; [lia|].
  simpl in H.
  pose proof (sum_sq_from_nonneg xs m n (S lo)) as Hrest.
  pose proof (Rle_0_sqr (nth lo xs 0 - m)) as Hs. unfold Rsqr in Hs.
  assert (Hhead : (nth lo xs 0 - m) * (nth lo xs 0 - m) = 0) by lra.
  assert (Htail : sum_sq_from xs m (S lo) n = 0) by lra.
  destruct (Nat.eq_dec k lo) as [->|Hne].
  - apply Rmult_integral in Hhead. lra.
  - apply (IH (S lo) Htail). lia.
Qed.

Lemma sum_from_constant (xs : list R) (c : R) :
  forall n lo, (forall k, (lo <= k < lo + n)%nat -> nth k xs 0 = c) ->
  sum_from xs lo n = INR n * c.
Proof.
  induction n as [|n IH]; intros lo H.
  - simpl. lra.
  - rewrite S_INR. simpl. rewrite (H lo) by lia.
    rewrite (IH (S lo)) by (intros k Hk; apply H; lia). lra.
Qed.

Lemma sum_sq_from_constant (xs : list R) (c : R) :
  forall n lo, (forall k, (lo <= k < lo + n)%nat -> nth k xs 0 = c) ->
  sum_sq_from xs c lo n = 0.
Proof.
  induction n as [|n IH]; intros lo H; simpl; [reflexivity|].
  rewrite (H lo) by lia.
  rewrite (IH (S lo)) by (intros k Hk; apply H; lia). lra.
Qed.

(** The sample standard deviation of a window of at least two samples is
    zero exactly when all its samples are equal. *)
Lemma sample_sd_zero_iff (xs : list R) (lo i : nat) :
  (2 <= i + 1 - lo)%nat ->
  sample_sd_between xs lo i = 0 <->
  (forall k, (lo <= k <= i)%nat -> nth k xs 0 = nth lo xs 0).
Proof.
  intros Hn.
  assert (Hd : 0 < INR (i + 1 - lo - 1)) by (apply lt_0_INR; lia).
  unfold sample_sd_between. split.
  - intros H0.
    pose proof (sum_sq_from_nonneg xs (mean_between xs lo i) (i + 1 - lo) lo) as Hs.
    apply sqrt_eq_0 in H0;
      [|apply Rmult_le_pos; [exact Hs | left; now apply Rinv_0_lt_compat]].
    assert (Hz : sum_sq_from xs (mean_between xs lo i) lo (i + 1 - lo) = 0).
    { unfold Rdiv in H0. apply Rmult_integral in H0. destruct H0 as [H0|H0].
      - exact H0.
      - pose proof (Rinv_0_lt_compat _ Hd). lra. }
    intros k Hk.
    rewrite (sum_sq_from_zero xs _ _ lo Hz k) by lia.
    rewrite (sum_sq_from_zero xs _ _ lo Hz lo) by lia.
    reflexivity.
  - intros Hall.
    assert (Hc : forall k, (lo <= k < lo + (i + 1 - lo))%nat ->
                           nth k xs 0 = nth lo xs 0)
      by (intros k Hk; apply Hall; lia).
    assert (Hm : mean_between xs lo i = nth lo xs 0).
    { unfold mean_between. rewrite (sum_from_constant xs _ _ lo Hc).
      field. apply not_0_INR. lia. }
    rewrite Hm, (sum_sq_from_constant xs _ _ lo Hc).
    unfold Rdiv. rewrite Rmult_0_l. apply sqrt_0.
Qed.

(** ** Two evaluations of the confidence band *)

(** Series [1, 3], window 2, index 1: the bounds are the sample 3, the
    running mean is 2. *)
Lemma band_at_second_index :
  ci_band_at (ci_settings 2) (numeric [1; 3]) 1 = Some (Num 3, Num 2, Num 3).
Proof.
  rewrite ci_band_at_numeric; [|reflexivity|reflexivity|simpl; lia|simpl; lia].
  rewrite ci_at_degenerate by (simpl; lia).
  cbn [fst snd nth].
  change (window_size (ci_settings 2)) with 2%nat.
  rewrite window_start_nat.
  replace (mean_between [1; 3] (1 + 1 - 2) 1) with 2
    by (unfold mean_between; simpl; field).
  reflexivity.
Qed.

(** Series [1, 1, 1], window 3, index 2: the window has no spread and both
    bounds are NaN. *)
Lemma band_of_constant_window :
  ci_band_at (ci_settings 3) (numeric [1; 1; 1]) 2 = Some (NaN, Num 1, NaN).
Proof.
  rewrite ci_band_at_numeric; [|reflexivity|reflexivity|simpl; lia|simpl; lia].
  change (window_size (ci_settings 3)) with 3%nat.
  rewrite ci_at_window by (rewrite ?window_start_nat; simpl; lia).
  rewrite window_start_nat. change (2 + 1 - 3)%nat with 0%nat.
  assert (Hm : mean_between [1; 1; 1] 0 2 = 1)
    by (unfold mean_between; simpl; field).
  assert (Hsd : sample_sd_between [1; 1; 1] 0 2 = 0).
  { unfold sample_sd_between. rewrite Hm. simpl.
    replace ((1 - 1) * (1 - 1) + ((1 - 1) * (1 - 1) + ((1 - 1) * (1 - 1) + 0)))
      with 0 by ring.
    unfold Rdiv. rewrite Rmult_0_l. apply sqrt_0. }
  rewrite (std_error_zero _ _ _ Hsd), t_interval_zero_scale, Hm.
  reflexivity.
Qed.

(** * Further properties of the pipeline *)

(** ** Running mean on series with missing values *)

Lemma In_dropna (s : Series) (x : R) : In x (dropna s) <-> In (Num x) s.
Proof.
  induction s as [|[|r] s IH]; simpl.
  - tauto.
  - rewrite IH. split; [auto | intros [H|H]; [discriminate | exact H]].
  - rewrite IH. split.
    + intros [->|H]; auto.
    + intros [H|H]; [injection H; auto | auto].
Qed.

Lemma In_iloc_slice (a b : nat) (s : Series) (y : float) :
  In y (iloc_slice a b s) -> In y s.
Proof.
  unfold iloc_slice. intros H.
  rewrite <- (firstn_skipn a s). apply in_or_app. right.
  rewrite <- (firstn_skipn (b - a) (skipn a s)). apply in_or_app. now left.
Qed.

Lemma nth_error_map_seq_inv {A : Type} (f : nat -> A) (n i : nat) (x : A) :
  nth_error (map f (seq 0 n)) i = Some x -> (i < n)%nat /\ f i = x.
Proof.
  intros H. destruct (Nat.lt_ge_cases i n) as [Hlt|Hge].
  - rewrite nth_error_map_seq in H by assumption. injection H as <-. auto.
  - assert (Hn : nth_error (map f (seq 0 n)) i = None)
      by (apply nth_error_None; now rewrite length_map, length_seq).
    congruence.
Qed.

(** Whatever the window and wherever samples are missing, a running-mean
    value that is a number lies between the smallest and the largest sample
    of the series. *)
Theorem running_mean_within_range (s : Series) (w : nat) :
  (1 <= w)%nat ->
  exists r,
    running w s = Ok r /\
    forall i m, nth_error r i = Some (Num m) ->
      exists lo hi, Series_min s = Num lo /\ Series_max s = Num hi /\
                    lo <= m <= hi.
Proof.
  intros Hw. rewrite running_ok by assumption.
  eexists. split; [reflexivity|].
  intros i m H. apply nth_error_map_seq_inv in H. destruct H as [Hi H].
  cbv zeta in H.
  set (obs := dropna (rolling_window w i s)) in *.
  destruct (List.length obs <? 1)%nat eqn:El; [discriminate|].
  assert (Hne : obs <> []).
  { intros E. rewrite E in El. simpl in El. discriminate. }
  rewrite nanmean_nonempty in H by assumption. injection H as <-.
  assert (Hsub : forall y, In y obs -> In y (dropna s)).
  { intros y Hy. apply In_dropna. apply In_dropna in Hy.
    unfold rolling_window in Hy. now apply In_iloc_slice in Hy. }
  unfold Series_min, Series_max.
  destruct (dropna s) as [|x t] eqn:E.
  - destruct obs as [|y obs']; [congruence|]. destruct (Hsub y); now left.
  - destruct (fold_Rmin_spec t x) as [_ Hlo].
    destruct (fold_Rmax_spec t x) as [_ Hhi].
    exists (fold_left Rmin t x), (fold_left Rmax t x).
    split; [reflexivity|]. split; [reflexivity|].
    apply mean_bounds; [assumption | |]; intros y Hy; auto.
Qed.

Lemma running_mean_within_range_witness :
  exists r,
    running 2 [Num 4; NaN; Num 8] = Ok r /\
    forall i m, nth_error r i = Some (Num m) ->
      exists lo hi, Series_min [Num 4; NaN; Num 8] = Num lo /\
                    Series_max [Num 4; NaN; Num 8] = Num hi /\
                    lo <= m <= hi.
Proof.
  apply (running_mean_within_range [Num 4; NaN; Num 8] 2%nat). lia.
Defined.

(** ** When the analysis raises *)

(** The analysis of a series raises ValueError exactly when the window
    size is 0, or when error bars of type standard error or standard
    deviation are shown with a window size below 2.  It raises
    AttributeError exactly when a confidence band is asked for while
    [stats] is the dictionary of an earlier file, with a window of at least
    2 and a series of at least 3 samples.  It raises nothing else. *)
Theorem analyse_raises_iff (stats_ : StatsBinding) (settings : Settings)
    (dg : Series) :
  (analyse stats_ settings dg = Raise ValueError <->
   (window_size settings = 0%nat \/
    (show_error_bars settings = true /\
     error_type settings <> ConfidenceInterval95 /\
     (window_size settings < 2)%nat)))
  /\ (analyse stats_ settings dg = Raise AttributeError <->
      (show_error_bars settings = true /\
       error_type settings = ConfidenceInterval95 /\
       stats_ = StatsDict /\
       (3 <= List.length dg)%nat /\
       (2 <= window_size settings)%nat))
  /\ (forall e, analyse stats_ settings dg = Raise e ->
                e = ValueError \/ e = AttributeError).
Proof.
  unfold analyse.
  destruct (Nat.eq_dec (window_size settings) 0) as [H0|H0].
  { unfold running, rolling_mean. rewrite rolling_raises by lia.
    cbn [bind]. split; [|split].
    - split; [intros _; now left | reflexivity].
    - split; [discriminate | intros (_ & _ & _ & _ & H); lia].
    - intros e H. injection H as <-. now left. }
  rewrite running_ok by lia. cbn [bind].
  destruct (show_error_bars settings) eqn:Hs.
  2:{ unfold error_bands. rewrite Hs. cbn [bind]. split; [|split].
      - split; [discriminate | intros [H|(H & _)]; [lia | discriminate]].
      - split; [discriminate | intros (H & _); discriminate].
      - intros e H. discriminate. }
  destruct (error_type settings) eqn:Ht.
  - unfold error_bands. rewrite Hs, Ht. unfold rolling_std, rolling_count.
    destruct (Nat.lt_ge_cases (window_size settings) 2) as [Hlt|Hge].
    + rewrite rolling_raises by assumption. cbn [bind]. split; [|split].
      * split; [intros _; right; repeat split; [discriminate | assumption]
               | reflexivity].
      * split; [discriminate | intros (_ & H & _); discriminate].
      * intros e H. injection H as <-. now left.
    + rewrite !rolling_ok by assumption. cbn [bind]. split; [|split].
      * split; [discriminate | intros [H|(_ & _ & H)]; lia].
      * split; [discriminate | intros (_ & H & _); discriminate].
      * intros e H. discriminate.
  - unfold error_bands. rewrite Hs, Ht. unfold rolling_std.
    destruct (Nat.lt_ge_cases (window_size settings) 2) as [Hlt|Hge].
    + rewrite rolling_raises by assumption. cbn [bind]. split; [|split].
      * split; [intros _; right; repeat split; [discriminate | assumption]
               | reflexivity].
      * split; [discriminate | intros (_ & H & _); discriminate].
      * intros e H. injection H as <-. now left.
    + rewrite !rolling_ok by assumption. cbn [bind]. split; [|split].
      * split; [discriminate | intros [H|(_ & _ & H)]; lia].
      * split; [discriminate | intros (_ & H & _); discriminate].
      * intros e H. discriminate.
  - destruct stats_.
    + rewrite error_bands_ci by assumption. cbn [bind]. split; [|split].
      * split; [discriminate | intros [H|(_ & H & _)]; [lia | congruence]].
      * split; [discriminate | intros (_ & _ & H & _); discriminate].
      * intros e H. discriminate.
    + rewrite error_bands_ci_dict by assumption.
      pose proof (calls_interval_somewhere (window_size settings) dg) as Hc.
      destruct (existsb _ _).
      * destruct (proj1 Hc eq_refl) as [H3 H2]. cbn [bind]. split; [|split].
        -- split; [discriminate | intros [H|(_ & H & _)]; [lia | congruence]].
        -- split; [intros _; repeat split; assumption | reflexivity].
        -- intros e H. injection H as <-. now right.
      * rewrite error_bands_ci by assumption. cbn [bind]. split; [|split].
        -- split; [discriminate | intros [H|(_ & H & _)]; [lia | congruence]].
        -- split; [discriminate|].
           intros (_ & _ & _ & H3 & H2).
           assert (false = true) by (apply Hc; split; assumption).
           discriminate.
        -- intros e H. discriminate.
Qed.

(** ** Lengths *)

(** Every array the analysis hands to the plot has the length of the
    series, so the time axis, the running mean and the bands align. *)
Theorem analysis_arrays_aligned (stats_ : StatsBinding) (settings : Settings)
    (md : R) (dg : Series) (a : Analysis) :
  analyse stats_ settings dg = Ok a ->
  List.length (time_ns md dg) = List.length dg /\
  List.length (a_running a) = List.length dg /\
  (forall y, yerr (a_bands a) = Some y -> List.length y = List.length dg) /\
  (forall l, ci_lower (a_bands a) = Some l -> List.length l = List.length dg) /\
  (forall u, ci_upper (a_bands a) = Some u -> List.length u = List.length dg).
Proof.
  intros H. split; [apply length_time_ns|].
  unfold analyse in H.
  destruct (Nat.eq_dec (window_size settings) 0) as [H0|H0].
  { unfold running, rolling_mean in H. rewrite rolling_raises in H by lia.
    discriminate. }
  rewrite running_ok in H by lia. cbn [bind] in H.
  unfold error_bands in H.
  destruct (show_error_bars settings).
  2:{ cbn [bind] in H. injection H as <-. cbn.
      split; [now rewrite length_map, length_seq|].
      repeat split; intros ? E; discriminate. }
  destruct (error_type settings).
  - unfold rolling_std, rolling_count in H.
    destruct (Nat.lt_ge_cases (window_size settings) 2) as [Hlt|Hge].
    + rewrite rolling_raises in H by assumption. discriminate.
    + rewrite !rolling_ok in H by assumption. cbn [bind] in H.
      injection H as <-. cbn.
      split; [now rewrite length_map, length_seq|].
      split; [|split; intros ? E; discriminate].
      intros y E. injection E as <-.
      unfold np_sqrt, fillna.
      rewrite map_map, series_div_map. now rewrite !length_map, length_seq.
  - unfold rolling_std in H.
    destruct (Nat.lt_ge_cases (window_size settings) 2) as [Hlt|Hge].
    + rewrite rolling_raises in H by assumption. discriminate.
    + rewrite !rolling_ok in H by assumption. cbn [bind] in H.
      injection H as <-. cbn.
      split; [now rewrite length_map, length_seq|].
      split; [|split; intros ? E; discriminate].
      intros y E. injection E as <-.
      unfold fillna. now rewrite !length_map, length_seq.
  - rewrite ci_loop_binding in H by lia.
    assert (H' : Ok {| a_running :=
                         map (fun i =>
                                let obs := dropna (rolling_window
                                                     (window_size settings) i dg) in
                                if (List.length obs <? 1)%nat then NaN
                                else nanmean obs)
                             (seq 0 (List.length dg));
                       a_bands :=
                         {| yerr := None;
                            ci_lower := Some (map (fun i => fst (ci_at (window_size settings) dg i))
                                                  (seq 0 (List.length dg)));
                            ci_upper := Some (map (fun i => snd (ci_at (window_size settings) dg i))
                                                  (seq 0 (List.length dg))) |};
                       a_stats := compute_stats dg |} = Ok a).
    { destruct stats_; [exact H|].
      destruct (existsb _ _); [discriminate | exact H]. }
    injection H' as <-. cbn.
    split; [now rewrite length_map, length_seq|].
    split; [intros ? E; discriminate|].
    split; intros l E; injection E as <-; now rewrite length_map, length_seq.
Qed.

(** ** Standard-deviation band and its relation to the standard error *)

Lemma error_bands_sd (stats_ : StatsBinding) (settings : Settings)
    (s : Series) :
  show_error_bars settings = true ->
  error_type settings = StandardDeviation ->
  (2 <= window_size settings)%nat ->
  error_bands stats_ settings s
  = Ok {| yerr := Some (fillna 0
            (map (fun i =>
                    let obs := dropna (rolling_window (window_size settings) i s) in
                    if (List.length obs <? 2)%nat then NaN else nanstd 1 obs)
                 (seq 0 (List.length s))));
          ci_lower := None; ci_upper := None |}.
Proof.
  intros Hs Ht Hw. unfold error_bands. rewrite Hs, Ht.
  unfold rolling_std. now rewrite rolling_ok by assumption.
Qed.

Lemma sd_band_at (stats_ : StatsBinding) (settings : Settings)
    (s : Series) (i : nat) :
  show_error_bars settings = true ->
  error_type settings = StandardDeviation ->
  (2 <= window_size settings)%nat ->
  (i < List.length s)%nat ->
  exists y,
    error_bands stats_ settings s
    = Ok {| yerr := Some y; ci_lower := None; ci_upper := None |} /\
    nth_error y i
    = Some (Num (let obs := dropna (rolling_window (window_size settings) i s) in
                 if (2 <=? List.length obs)%nat
                 then sqrt (sq_dev obs / INR (List.length obs - 1))
                 else 0)).
Proof.
  intros Hs Ht Hw Hi. rewrite (error_bands_sd stats_) by assumption.
  eexists. split; [reflexivity|].
  unfold fillna. rewrite map_map, nth_error_map_seq by assumption.
  cbv zeta. f_equal.
  set (obs := dropna (rolling_window (window_size settings) i s)).
  destruct (Nat.ltb_spec (List.length obs) 2) as [Hlt|Hge].
  - destruct (Nat.leb_spec 2 (List.length obs)); [lia | reflexivity].
  - destruct (Nat.leb_spec 2 (List.length obs)); [|lia].
    now rewrite nanstd_two by lia.
Qed.

(** The standard-deviation band at one index, for a window size of at
    least 2: the sample standard deviation (denominator n - 1) of the
    samples present in the trailing window, and 0 when fewer than 2 are
    present; on a series without missing values these are the samples at
    indices [max(0, i-w+1) .. i].  What [stats] is bound to plays no
    role. *)
Theorem standard_deviation_band (stats_ : StatsBinding) (settings : Settings) :
  show_error_bars settings = true ->
  error_type settings = StandardDeviation ->
  (2 <= window_size settings)%nat ->
  (forall (s : Series) (i : nat),
      (i < List.length s)%nat ->
      exists y,
        error_bands stats_ settings s
        = Ok {| yerr := Some y; ci_lower := None; ci_upper := None |} /\
        nth_error y i
        = Some (Num (let obs := dropna (rolling_window (window_size settings) i s) in
                     if (2 <=? List.length obs)%nat
                     then sqrt (sq_dev obs / INR (List.length obs - 1))
                     else 0)))
  /\ (forall (xs : list R) (i : nat),
      (i < List.length xs)%nat ->
      exists y,
        error_bands stats_ settings (numeric xs)
        = Ok {| yerr := Some y; ci_lower := None; ci_upper := None |} /\
        nth_error y i
        = Some (Num (if (2 <=? i + 1 - window_start (window_size settings) i)%nat
                     then sample_sd_between xs (window_start (window_size settings) i) i
                     else 0))).
Proof.
  intros Hs Ht Hw. split.
  - intros s i Hi. now apply sd_band_at.
  - intros xs i Hi.
    destruct (sd_band_at stats_ settings (numeric xs) i Hs Ht Hw)
      as (y & Hy & Hn);
      [now rewrite length_numeric|].
    exists y. split; [exact Hy|]. rewrite Hn. cbv zeta.
    rewrite window_numeric, window_start_nat.
    set (lo := (i + 1 - window_size settings)%nat).
    rewrite length_slice by lia.
    destruct (Nat.leb_spec 2 (i + 1 - lo)); [|reflexivity].
    pose proof (nanstd_slice xs lo i ltac:(lia) Hi ltac:(lia)) as Hsd.
    rewrite nanstd_two in Hsd by (rewrite length_slice; lia).
    rewrite length_slice in Hsd by lia.
    injection Hsd as ->. reflexivity.
Qed.

Lemma sqrt_INR_ge_1 (n : nat) : (1 <= n)%nat -> 1 <= sqrt (INR n).
Proof.
  intros H. rewrite <- sqrt_1. apply sqrt_le_1_alt.
  change 1 with (INR 1). apply le_INR. lia.
Qed.

(** For every series and every window size of at least 2, at each index
    both bands are numbers (never NaN), and the standard-error band is
    between 0 and the standard-deviation band, whatever [stats] is bound
    to. *)
Theorem standard_error_below_deviation (stats_ : StatsBinding)
    (base : Settings) (w : nat) (s : Series) (i : nat) :
  (2 <= w)%nat -> (i < List.length s)%nat ->
  exists yse ysd se sd,
    error_bands stats_ (with_error_bars base w StandardError) s
    = Ok {| yerr := Some yse; ci_lower := None; ci_upper := None |} /\
    error_bands stats_ (with_error_bars base w StandardDeviation) s
    = Ok {| yerr := Some ysd; ci_lower := None; ci_upper := None |} /\
    nth_error yse i = Some (Num se) /\
    nth_error ysd i = Some (Num sd) /\
    0 <= se <= sd.
Proof.
  intros Hw Hi.
  destruct (standard_error_band stats_
              (with_error_bars base w StandardError) s i)
    as (yse & Hyse & _ & Hse); try reflexivity; try assumption.
  destruct (sd_band_at stats_ (with_error_bars base w StandardDeviation) s i)
    as (ysd & Hysd & Hsd); try reflexivity; try assumption.
  exists yse, ysd. eexists _, _.
  split; [exact Hyse|]. split; [exact Hysd|].
  split; [exact Hse|]. split; [exact Hsd|].
  cbv zeta. cbn [window_size with_error_bars].
  set (obs := dropna (rolling_window w i s)).
  destruct (Nat.leb_spec 2 (List.length obs)) as [Hge|Hlt]; [|lra].
  unfold std_error_obs.
  set (sd := sqrt (sq_dev obs / INR (List.length obs - 1))).
  assert (Hsd0 : 0 <= sd) by apply sqrt_pos.
  pose proof (sqrt_INR_ge_1 (List.length obs) ltac:(lia)) as Hq.
  assert (Hpos : 0 < sqrt (INR (List.length obs))) by lra.
  split.
  - apply Rmult_le_pos; [assumption | left; now apply Rinv_0_lt_compat].
  - apply Rmult_le_reg_r with (r := sqrt (INR (List.length obs))); [assumption|].
    unfold Rdiv. rewrite Rmult_assoc, Rinv_l by lra. nra.
Qed.

(** ** Confidence band: window size 1, missing samples, relation to the
    standard error *)

Lemma length_iloc_slice (a b : nat) (s : Series) :
  List.length (iloc_slice a b s) = Nat.min (b - a) (List.length s - a).
Proof. unfold iloc_slice. now rewrite length_firstn, length_skipn. Qed.

Lemma map_nth_seq_id (l : Series) :
  map (fun i => nth i l NaN) (seq 0 (List.length l)) = l.
Proof.
  apply nth_ext with (d := NaN) (d' := NaN).
  - now rewrite length_map, length_seq.
  - rewrite length_map, length_seq. intros i Hi.
    apply nth_error_nth. now rewrite nth_error_map_seq.
Qed.

(** With window size 1 the confidence band is the series itself, on both
    sides and at every index, for any series and whatever [stats] is bound
    to. *)
Theorem ci_window_one_is_series (stats_ : StatsBinding) (settings : Settings)
    (dg : Series) :
  show_error_bars settings = true ->
  error_type settings = ConfidenceInterval95 ->
  window_size settings = 1%nat ->
  error_bands stats_ settings dg
  = Ok {| yerr := None; ci_lower := Some dg; ci_upper := Some dg |}.
Proof.
  intros Hs Ht Hw.
  assert (Hb : error_bands stats_ settings dg
               = error_bands ScipyStats settings dg).
  { destruct stats_; [reflexivity|].
    rewrite error_bands_ci_dict by assumption.
    destruct (existsb _ _) eqn:E; [|reflexivity].
    apply calls_interval_somewhere in E. lia. }
  rewrite Hb.
  rewrite error_bands_ci by assumption. rewrite Hw.
  assert (Hat : forall i, (i < List.length dg)%nat ->
                          ci_at 1 dg i = (nth i dg NaN, nth i dg NaN)).
  { intros i Hi. unfold ci_at.
    destruct (i <? 2)%nat; [reflexivity|]. cbv zeta.
    rewrite length_iloc_slice, window_start_nat.
    destruct (Nat.leb_spec 2 (Nat.min (i + 1 - (i + 1 - 1)) (List.length dg - (i + 1 - 1))));
      [lia | reflexivity]. }
  assert (Hl : map (fun i => fst (ci_at 1 dg i)) (seq 0 (List.length dg)) = dg).
  { transitivity (map (fun i => nth i dg NaN) (seq 0 (List.length dg)));
      [|apply map_nth_seq_id].
    apply map_ext_in.
    intros i Hi. apply in_seq in Hi. rewrite Hat by lia. reflexivity. }
  assert (Hu : map (fun i => snd (ci_at 1 dg i)) (seq 0 (List.length dg)) = dg).
  { transitivity (map (fun i => nth i dg NaN) (seq 0 (List.length dg)));
      [|apply map_nth_seq_id].
    apply map_ext_in.
    intros i Hi. apply in_seq in Hi. rewrite Hat by lia. reflexivity. }
  now rewrite Hl, Hu.
Qed.

Lemma nth_error_iloc_slice (a b k : nat) (s : Series) :
  (a <= k < b)%nat -> nth_error (iloc_slice a b s) (k - a) = nth_error s k.
Proof.
  intros H. unfold iloc_slice.
  rewrite nth_error_firstn, nth_error_skipn.
  destruct (Nat.ltb_spec (k - a) (b - a)); [|lia].
  f_equal. lia.
Qed.

Lemma stats_sem_missing (data : Series) :
  In NaN data -> stats_sem data = NaN.
Proof.
  intros H. unfold stats_sem.
  assert (E : existsb is_nan data = true)
    by (apply existsb_exists; exists NaN; split; [assumption | reflexivity]).
  now rewrite E.
Qed.

Lemma t_interval_nan_scale (c : R) (n : nat) (m : float) :
  t_interval c n m NaN = (NaN, NaN).
Proof. unfold t_interval. now destruct m. Qed.

(** One missing sample inside the trailing window makes both confidence
    bounds NaN at every index [i >= 2] whose window reaches it (for the
    first file of a run, where [stats] is [scipy.stats]). *)
Theorem ci_blank_on_missing_sample (settings : Settings) (dg : Series)
    (i k : nat) :
  show_error_bars settings = true ->
  error_type settings = ConfidenceInterval95 ->
  (2 <= window_size settings)%nat ->
  (2 <= i < List.length dg)%nat ->
  (window_start (window_size settings) i <= k <= i)%nat ->
  nth_error dg k = Some NaN ->
  exists lower upper,
    error_bands ScipyStats settings dg
    = Ok {| yerr := None; ci_lower := Some lower; ci_upper := Some upper |} /\
    nth_error lower i = Some NaN /\ nth_error upper i = Some NaN.
Proof.
  intros Hs Ht Hw [H2 Hi] Hk Hnan.
  rewrite error_bands_ci by assumption.
  eexists _, _. split; [reflexivity|].
  rewrite !nth_error_map_seq by assumption.
  assert (Hat : ci_at (window_size settings) dg i = (NaN, NaN)).
  { unfold ci_at. destruct (Nat.ltb_spec i 2); [lia|]. cbv zeta.
    set (ws := window_start (window_size settings) i) in *.
    assert (Hws : ws = (i + 1 - window_size settings)%nat)
      by apply window_start_nat.
    rewrite length_iloc_slice.
    destruct (Nat.leb_spec 2 (Nat.min (i + 1 - ws) (List.length dg - ws))); [|lia].
    unfold confidence_interval. cbn [fst snd].
    rewrite stats_sem_missing, t_interval_nan_scale; [reflexivity|].
    apply nth_error_In with (n := (k - ws)%nat).
    rewrite nth_error_iloc_slice by lia. exact Hnan. }
  now rewrite Hat.
Qed.

(** At an index [i >= 2] of a series without missing values whose window
    (size at least 2) has spread, the confidence bounds are the running
    mean plus the 2.5% and the 97.5% quantile of Student's t with [n - 1]
    degrees of freedom times the value the standard-error band has at that
    index, [n] being the number of samples in the window. *)
Theorem ci_is_mean_plus_quantile_times_standard_error
    (stats_ : StatsBinding) (base : Settings)
    (w : nat) (xs : list R) (i : nat) :
  (2 <= w)%nat -> (2 <= i < List.length xs)%nat ->
  0 < sample_sd_between xs (window_start w i) i ->
  exists yse se m,
    error_bands stats_ (with_error_bars base w StandardError) (numeric xs)
    = Ok {| yerr := Some yse; ci_lower := None; ci_upper := None |} /\
    nth_error yse i = Some (Num se) /\
    ci_band_at (with_error_bars base w ConfidenceInterval95) (numeric xs) i
    = Some (Num (t_ppf ((1 - 0.95) / 2) (i + 1 - window_start w i - 1) * se + m),
            Num m,
            Num (t_ppf ((1 + 0.95) / 2) (i + 1 - window_start w i - 1) * se + m)).
Proof.
  intros Hw [H2 Hi] Hsd.
  assert (Hn : (2 <= i + 1 - window_start w i)%nat)
    by (rewrite window_start_nat; lia).
  destruct (standard_error_band_numeric stats_
              (with_error_bars base w StandardError) xs i)
    as (yse & Hyse & Hse); try reflexivity; try assumption.
  cbn [window_size with_error_bars] in Hse.
  destruct (Nat.leb_spec 2 (i + 1 - window_start w i)); [|lia].
  exists yse, (std_error_between xs (window_start w i) i),
         (mean_between xs (window_start w i) i).
  split; [exact Hyse|]. split; [exact Hse|].
  rewrite ci_band_at_numeric; try reflexivity; [|simpl; lia|assumption].
  cbn [window_size with_error_bars].
  rewrite ci_at_window by assumption.
  unfold t_interval.
  pose proof (std_error_pos xs (window_start w i) i ltac:(lia) Hsd).
  destruct (Rlt_dec 0 (std_error_between xs (window_start w i) i)); [|lra].
  destruct (Nat.ltb_spec 0 (i + 1 - window_start w i - 1)); [|lia].
  reflexivity.
Qed.

(** ** Shape of the time axis *)

Lemma nth_time_ns (D : R) (dg : Series) (i : nat) :
  (i < List.length dg)%nat ->
  nth i (time_ns D dg) 0
  = INR i * (D / INR (Nat.max (List.length dg - 1) 1)).
Proof.
  intros H. apply nth_error_nth. unfold time_ns.
  now rewrite nth_error_map_seq.
Qed.

(** For a positive duration and at least two samples the time axis has one
    entry per sample, starts at 0 and is strictly increasing. *)
Theorem time_axis_shape (D : R) (dg : Series) :
  0 < D -> (2 <= List.length dg)%nat ->
  List.length (time_ns D dg) = List.length dg /\
  nth 0 (time_ns D dg) 0 = 0 /\
  (forall i j, (i < j < List.length dg)%nat ->
               nth i (time_ns D dg) 0 < nth j (time_ns D dg) 0).
Proof.
  intros HD HN.
  assert (Hmax : Nat.max (List.length dg - 1) 1 = (List.length dg - 1)%nat) by lia.
  assert (Hpos : 0 < INR (List.length dg - 1)) by (apply lt_0_INR; lia).
  assert (Hdt : 0 < D / INR (List.length dg - 1))
    by (now apply Rdiv_lt_0_compat).
  split; [apply length_time_ns|]. split.
  - rewrite nth_time_ns by lia. simpl. ring.
  - intros i j Hij. rewrite !nth_time_ns, Hmax by lia.
    apply Rmult_lt_compat_r; [assumption|]. apply lt_INR. lia.
Qed.

Lemma time_axis_shape_witness :
  List.length (time_ns 100 (numeric [5; 6; 7; 8; 9]%R))
  = List.length (numeric [5; 6; 7; 8; 9]%R) /\
  nth 0 (time_ns 100 (numeric [5; 6; 7; 8; 9]%R)) 0 = 0 /\
  (forall i j, (i < j < List.length (numeric [5; 6; 7; 8; 9]%R))%nat ->
               nth i (time_ns 100 (numeric [5; 6; 7; 8; 9]%R)) 0
               < nth j (time_ns 100 (numeric [5; 6; 7; 8; 9]%R)) 0).
Proof.
  apply (time_axis_shape 100 (numeric [5; 6; 7; 8; 9]%R)).
  - lra.
  - simpl; lia.
Defined.

(** ** Summary statistics with missing values *)

(** Missing cells are ignored by the summary: the frame count is the number
    of samples present, the mean is their arithmetic mean, and minimum and
    maximum are samples present that bound all of them.  When no sample is
    present the count is 0 and every statistic is NaN. *)
Theorem summary_ignores_missing (s : Series) :
  (dropna s = [] ->
   compute_stats s
   = {| frames := 0; mean := NaN; stdev := NaN; minimum := NaN; maximum := NaN |})
  /\ (dropna s <> [] ->
      frames (compute_stats s) = List.length (dropna s) /\
      mean (compute_stats s)
      = Num (Rsum (dropna s) / INR (List.length (dropna s))) /\
      exists lo hi,
        minimum (compute_stats s) = Num lo /\
        maximum (compute_stats s) = Num hi /\
        In (Num lo) s /\ In (Num hi) s /\
        (forall x, In (Num x) s -> lo <= x <= hi)).
Proof.
  unfold compute_stats, Series_count, Series_mean, Series_std,
    Series_min, Series_max. cbn [frames mean minimum maximum].
  split.
  - intros E. rewrite E. reflexivity.
  - intros Hne. split; [reflexivity|].
    split; [now apply nanmean_nonempty|].
    destruct (dropna s) as [|x t] eqn:E; [congruence|].
    destruct (fold_Rmin_spec t x) as [Hin1 Hle1].
    destruct (fold_Rmax_spec t x) as [Hin2 Hle2].
    exists (fold_left Rmin t x), (fold_left Rmax t x).
    split; [reflexivity|]. split; [reflexivity|].
    split; [apply In_dropna; now rewrite E|].
    split; [apply In_dropna; now rewrite E|].
    intros y Hy. apply In_dropna in Hy. rewrite E in Hy. auto.
Qed.

Lemma summary_ignores_missing_witness :
  frames (compute_stats [NaN; Num 2; NaN; Num 6])
  = List.length (dropna [NaN; Num 2; NaN; Num 6]) /\
  mean (compute_stats [NaN; Num 2; NaN; Num 6])
  = Num (Rsum (dropna [NaN; Num 2; NaN; Num 6])
         / INR (List.length (dropna [NaN; Num 2; NaN; Num 6]))) /\
  exists lo hi,
    minimum (compute_stats [NaN; Num 2; NaN; Num 6]) = Num lo /\
    maximum (compute_stats [NaN; Num 2; NaN; Num 6]) = Num hi /\
    In (Num lo) [NaN; Num 2; NaN; Num 6] /\ In (Num hi) [NaN; Num 2; NaN; Num 6] /\
    (forall x, In (Num x) [NaN; Num 2; NaN; Num 6] -> lo <= x <= hi).
Proof.
  apply (proj2 (summary_ignores_missing [NaN; Num 2; NaN; Num 6])).
  discriminate.
Defined.

(** ** Algebra of the running mean *)

Lemma nth_map_affine (a b : R) (xs : list R) (k : nat) :
  (k < List.length xs)%nat ->
  nth k (map (fun x => a * x + b) xs) 0 = a * nth k xs 0 + b.
Proof.
  intros H.
  rewrite (nth_indep (map (fun x => a * x + b) xs) 0 (a * 0 + b))
    by (now rewrite length_map).
  apply (map_nth (fun x => a * x + b)).
Qed.

Lemma sum_from_affine (a b : R) (xs : list R) :
  forall n lo, (lo + n <= List.length xs)%nat ->
  sum_from (map (fun x => a * x + b) xs) lo n
  = a * sum_from xs lo n + INR n * b.
Proof.
  induction n as [|n IH]; intros lo H.
  - simpl. ring.
  - rewrite S_INR. simpl. rewrite nth_map_affine, IH by lia. ring.
Qed.

Lemma mean_between_affine (a b : R) (xs : list R) (lo i : nat) :
  (lo <= i < List.length xs)%nat ->
  mean_between (map (fun x => a * x + b) xs) lo i
  = a * mean_between xs lo i + b.
Proof.
  intros H. unfold mean_between.
  rewrite sum_from_affine by lia. field.
  apply not_0_INR. lia.
Qed.

(** Smoothing commutes with a change of unit or origin: the running mean
    of the series [a * x + b] is [a * m + b] where [m] is the running mean
    of [x]. *)
Theorem running_mean_affine (a b : R) (xs : list R) (w i : nat) :
  (1 <= w)%nat -> (i < List.length xs)%nat ->
  exists r r' m,
    running w (numeric xs) = Ok r /\
    running w (numeric (map (fun x => a * x + b) xs)) = Ok r' /\
    nth_error r i = Some (Num m) /\
    nth_error r' i = Some (Num (a * m + b)).
Proof.
  intros Hw Hi.
  destruct (running_nth xs w i Hw Hi) as (r & Hr & _ & Hn).
  destruct (running_nth (map (fun x => a * x + b) xs) w i Hw) as (r' & Hr' & _ & Hn');
    [now rewrite length_map|].
  exists r, r', (mean_between xs (window_start w i) i).
  split; [exact Hr|]. split; [exact Hr'|]. split; [exact Hn|].
  rewrite Hn'. rewrite mean_between_affine; [reflexivity|].
  rewrite window_start_nat. lia.
Qed.

Lemma running_mean_affine_witness :
  exists r r' m,
    running 2 (numeric [1; 2; 4]) = Ok r /\
    running 2 (numeric (map (fun x => 4.184 * x + 0) [1; 2; 4])) = Ok r' /\
    nth_error r 2 = Some (Num m) /\
    nth_error r' 2 = Some (Num (4.184 * m + 0)).
Proof.
  apply (running_mean_affine 4.184 0 [1; 2; 4] 2%nat 2%nat).
  - lia.
  - simpl; lia.
Defined.

(** With a window at least as long as the series the running mean is the
    cumulative mean of the samples so far. *)
Theorem wide_window_running_mean (xs : list R) (w : nat) :
  xs <> [] -> (List.length xs <= w)%nat ->
  exists r,
    running w (numeric xs) = Ok r /\
    List.length r = List.length xs /\
    (forall i, (i < List.length xs)%nat ->
               nth_error r i = Some (Num (mean_between xs 0 i))).
Proof.
  intros Hne Hw.
  assert (Hpos : (0 < List.length xs)%nat)
    by (destruct xs; [congruence | simpl; lia]).
  assert (Hi : forall i, (i < List.length xs)%nat ->
             exists r, running w (numeric xs) = Ok r /\
                       List.length r = List.length xs /\
                       nth_error r i = Some (Num (mean_between xs 0 i))).
  { intros i Hlt.
    destruct (running_nth xs w i ltac:(lia) Hlt) as (r & Hr & Hlen & Hn).
    exists r. split; [exact Hr|]. split; [exact Hlen|].
    rewrite Hn, window_start_nat.
    now replace (i + 1 - w)%nat with 0%nat by lia. }
  destruct (Hi 0%nat Hpos) as (r & Hr & Hlen & _).
  exists r. split; [exact Hr|]. split; [exact Hlen|].
  intros i Hlt. destruct (Hi i Hlt) as (r1 & Hr1 & _ & Hn1).
  rewrite Hr in Hr1. now injection Hr1 as <-.
Qed.

Lemma wide_window_running_mean_witness :
  exists r,
    running 10 (numeric [1; 2; 4]) = Ok r /\
    List.length r = List.length [1; 2; 4]%R /\
    (forall i, (i < List.length [1; 2; 4]%R)%nat ->
               nth_error r i = Some (Num (mean_between [1; 2; 4] 0 i))).
Proof.
  apply (wide_window_running_mean [1; 2; 4] 10%nat).
  - discriminate.
  - simpl; lia.
Defined.

(** ** Bookkeeping of the per-file loop *)

Lemma process_entry_cases (settings : Settings) (md : R) (st : LoopState)
    (e : Entry) (st1 : LoopState) :
  process_entry settings md st e = Ok st1 ->
  (exists text, st1 = st_error st text) \/
  (exists p stats,
      p_ligand p = ligand_id e /\
      st1 = {| msgs := msgs st;
               plotted := plotted st ++ [p];
               all_stats := all_stats st ++ [(ligand_id e, stats)] |}).
Proof.
  unfold process_entry. intros H.
  destruct (df e) as [d|]; [|injection H as <-; left; eauto].
  destruct (df_empty d); [injection H as <-; left; eauto|].
  destruct (get_column "r_psp_MMGBSA_dG_Bind" d) as [col|];
    [|injection H as <-; left; eauto].
  destruct (astype_float col) as [dg|x]; [|discriminate].
  cbn [bind] in H. destruct (analyse _ settings dg) as [a|x]; [|discriminate].
  cbn [bind] in H. injection H as <-. right.
  eexists _, _. split; [|reflexivity]. reflexivity.
Qed.

(** When the loop ends normally, every entry has produced either one error
    message or one plotted series together with one statistics record for
    the same ligand; nothing else is appended. *)
Theorem loop_accounts_for_every_entry (settings : Settings) (md : R)
    (l : list Entry) :
  forall st st',
  main_loop settings md st l = Ok st' ->
  exists new_msgs new_plots new_stats,
    msgs st' = msgs st ++ new_msgs /\
    plotted st' = plotted st ++ new_plots /\
    all_stats st' = all_stats st ++ new_stats /\
    map p_ligand new_plots = map fst new_stats /\
    (List.length new_msgs + List.length new_stats = List.length l)%nat /\
    Forall (fun m => exists text, m = Error text) new_msgs.
Proof.
  induction l as [|e l IH]; intros st st' H.
  - injection H as <-. exists [], [], [].
    rewrite !app_nil_r. repeat split; constructor.
  - cbn [main_loop] in H.
    destruct (process_entry settings md st e) as [st1|x] eqn:E; [|discriminate].
    cbn [bind] in H.
    destruct (IH st1 st' H) as (nm & np & ns & Hm & Hp & Hs & Hlig & Hlen & Hall).
    destruct (process_entry_cases settings md st e st1 E)
      as [(text & ->)|(p & stats & Hpl & ->)].
    + exists (Error text :: nm), np, ns. cbn in Hm, Hp, Hs.
      rewrite <- app_assoc in Hm.
      repeat split; try assumption.
      * simpl. lia.
      * constructor; [now exists text | assumption].
    + exists nm, (p :: np), ((ligand_id e, stats) :: ns). cbn in Hm, Hp, Hs.
      rewrite <- app_assoc in Hp, Hs.
      repeat split; try assumption.
      * simpl. now rewrite Hpl, Hlig.
      * simpl. lia.
Qed.

(** ** Unreadable and empty files *)

(** A file that cannot be parsed becomes an entry without table whose label
    is [Ligand_<position>]; such an entry, like one whose table has no row,
    gets the empty-file message, adds nothing else, and lets the loop
    continue; a run on that entry alone stops with both messages. *)
Theorem unreadable_file_is_reported (settings : Settings) (md : R)
    (idx : nat) (f : UploadedFile) :
  (forall e, read_csv f = Raise e ->
     read_entry idx f
     = {| df := None;
          ligand_id := CStr ("Ligand_" ++ string_of_nat (idx + 1));
          csv_file := f |})
  /\ ((df (read_entry idx f) = None \/
       exists d, df (read_entry idx f) = Some d /\ df_empty d = true) ->
      (forall st rest,
          main_loop settings md st (read_entry idx f :: rest)
          = main_loop settings md
              (st_error st (empty_file_error (read_entry idx f))) rest)
      /\ (0 < md ->
          forall shown,
            run settings md shown [read_entry idx f]
            = Ok (Stopped (shown ++ [Error (empty_file_error (read_entry idx f));
                                     no_valid_data])))).
Proof.
  split.
  - intros e H. unfold read_entry. now rewrite H.
  - intros Hbad.
    assert (Hp : forall st,
               process_entry settings md st (read_entry idx f)
               = Ok (st_error st (empty_file_error (read_entry idx f)))).
    { intros st. unfold process_entry.
      destruct Hbad as [Hn|(d & Hd & He)].
      - now rewrite Hn.
      - now rewrite Hd, He. }
    split.
    + intros st rest. cbn [main_loop]. now rewrite Hp.
    + intros Hmd shown. unfold run, per_ligand_widgets, widget_labels.
      cbn [map has_duplicate]. rewrite andb_false_r. cbn [bind].
      destruct (Rlt_dec 0 md); [|contradiction].
      cbn [main_loop]. rewrite Hp. cbn [bind]. simpl.
      now rewrite <- app_assoc.
Qed.

(** ** Shape of the upload *)

(** In comparison mode the entries read are, in upload order, the first
    [max_ligands] files; their number is the smaller of the number of uploads
    and [max_ligands]; and a warning is emitted exactly when files were
    dropped. *)
Theorem upload_comparison_shape (settings : Settings)
    (files : list UploadedFile) :
  map csv_file (snd (upload_comparison settings files))
  = firstn (max_ligands settings) files /\
  List.length (snd (upload_comparison settings files))
  = Nat.min (max_ligands settings) (List.length files) /\
  (fst (upload_comparison settings files) = [] <->
   (List.length files <= max_ligands settings)%nat) /\
  ((List.length files <= max_ligands settings)%nat ->
   map csv_file (snd (upload_comparison settings files)) = files).
Proof.
  unfold upload_comparison.
  destruct (Nat.ltb_spec (max_ligands settings) (List.length files)) as [Hlt|Hge];
    cbn [fst snd].
  - rewrite csv_file_read_entries, length_read_entries, length_firstn.
    split; [reflexivity|]. split; [reflexivity|]. split.
    + split; [discriminate | lia].
    + lia.
  - rewrite csv_file_read_entries, length_read_entries.
    rewrite firstn_all2 by assumption.
    split; [reflexivity|]. split; [lia|]. split.
    + split; [intros _; assumption | reflexivity].
    + reflexivity.
Qed.

(** ** Labels *)

Lemma truthy_parse_ligand_id (c : Cell) : truthy (parse_ligand_id c) = true.
Proof.
  unfold parse_ligand_id. destruct (truthy c) eqn:E; [exact E | reflexivity].
Qed.

(** Every entry carries a label that is not empty.  When the file cannot be
    read, or its title column has no row, the label is
    [Ligand_<position>], counting from 1; when the table has no title
    column it is ["Ligand"]; otherwise it is the first title when that is
    truthy, and ["Ligand"] when it is not.  Parsing a label again changes
    nothing. *)
Theorem entry_label_never_empty :
  (forall idx f, truthy (ligand_id (read_entry idx f)) = true)
  /\ (forall idx f e,
        read_csv f = Raise e ->
        ligand_id (read_entry idx f)
        = CStr ("Ligand_" ++ string_of_nat (idx + 1)))
  /\ (forall idx f d e,
        read_csv f = Ok d -> first_title d = Raise e ->
        ligand_id (read_entry idx f)
        = CStr ("Ligand_" ++ string_of_nat (idx + 1)))
  /\ (forall idx f d,
        read_csv f = Ok d -> get_column "title" d = None ->
        ligand_id (read_entry idx f) = CStr "Ligand")
  /\ (forall idx f d t,
        read_csv f = Ok d -> first_title d = Ok t ->
        ligand_id (read_entry idx f)
        = if truthy t then t else CStr "Ligand")
  /\ (forall c, parse_ligand_id (parse_ligand_id c) = parse_ligand_id c).
Proof.
  split; [|split; [|split; [|split; [|split]]]].
  - intros idx f. unfold read_entry.
    destruct (read_csv f) as [d|x]; cbn [bind]; [|reflexivity].
    destruct (first_title d) as [t|x]; cbn [bind]; [|reflexivity].
    cbn [ligand_id]. apply truthy_parse_ligand_id.
  - intros idx f e H. unfold read_entry. now rewrite H.
  - intros idx f d e H Ht. unfold read_entry. rewrite H. cbn [bind].
    now rewrite Ht.
  - intros idx f d H Ht. unfold read_entry. rewrite H. cbn [bind].
    unfold first_title. now rewrite Ht.
  - intros idx f d t H Ht. unfold read_entry. rewrite H. cbn [bind].
    rewrite Ht. reflexivity.
  - intros c. unfold parse_ligand_id at 1.
    now rewrite truthy_parse_ligand_id.
Qed.

(** ** Dictionaries *)

Lemma dict_get_set_same {V : Type} (k : string) (v : V) (d : dict V) :
  dict_get k (dict_set k v d) = Some v.
Proof.
  induction d as [|[k' v'] d IH]; simpl.
  - now rewrite String.eqb_refl.
  - destruct (String.eqb k' k) eqn:E; simpl.
    + now rewrite String.eqb_refl.
    + now rewrite E.
Qed.

Lemma dict_get_set_other {V : Type} (k k2 : string) (v : V) (d : dict V) :
  k <> k2 -> dict_get k2 (dict_set k v d) = dict_get k2 d.
Proof.
  intros Hne. induction d as [|[k' v'] d IH]; simpl.
  - apply String.eqb_neq in Hne. now rewrite Hne.
  - destruct (String.eqb k' k) eqn:E; simpl.
    + apply String.eqb_eq in E. subst k'.
      apply String.eqb_neq in Hne. now rewrite Hne.
    + destruct (String.eqb k' k2); [reflexivity | exact IH].
Qed.

Lemma dict_mem_false {V : Type} (k : string) (d : dict V) :
  dict_mem k d = false -> dict_get k d = None.
Proof. unfold dict_mem. now destruct (dict_get k d). Qed.

Lemma dict_get_setdefault_present {V : Type} (k k2 : string) (v c : V)
    (d : dict V) :
  dict_get k2 d = Some c ->
  dict_get k2 (if dict_mem k d then d else dict_set k v d) = Some c.
Proof.
  intros H. destruct (dict_mem k d) eqn:E; [exact H|].
  apply dict_mem_false in E.
  rewrite dict_get_set_other; [exact H|]. intros ->. congruence.
Qed.

(** ** Session settings *)

Lemma fill_defaults_keeps {V : Type} (defaults : dict V) :
  forall s k v, dict_get k s = Some v ->
                dict_get k (fill_defaults defaults s) = Some v.
Proof.
  induction defaults as [|[key value] rest IH]; intros s k v H; simpl.
  - exact H.
  - apply IH. now apply dict_get_setdefault_present.
Qed.

Lemma fill_defaults_adds {V : Type} (defaults : dict V) :
  forall s k v, dict_get k s = None -> dict_get k defaults = Some v ->
                dict_get k (fill_defaults defaults s) = Some v.
Proof.
  induction defaults as [|[key value] rest IH]; intros s k v Hs Hd; simpl in *.
  - discriminate.
  - destruct (String.eqb key k) eqn:E.
    + apply String.eqb_eq in E. subst key. injection Hd as ->.
      apply fill_defaults_keeps.
      unfold dict_mem. rewrite Hs. apply dict_get_set_same.
    + apply IH; [|exact Hd].
      destruct (dict_mem key s); [exact Hs|].
      rewrite dict_get_set_other; [exact Hs|].
      intros ->. rewrite String.eqb_refl in E. discriminate.
Qed.

Lemma fill_defaults_no_other {V : Type} (defaults : dict V) :
  forall s k, dict_get k s = None -> dict_get k defaults = None ->
              dict_get k (fill_defaults defaults s) = None.
Proof.
  induction defaults as [|[key value] rest IH]; intros s k Hs Hd; simpl in *.
  - exact Hs.
  - destruct (String.eqb key k) eqn:E; [discriminate|].
    apply IH; [|exact Hd].
    destruct (dict_mem key s); [exact Hs|].
    rewrite dict_get_set_other; [exact Hs|].
    intros ->. rewrite String.eqb_refl in E. discriminate.
Qed.

(** Initialising the session settings never overwrites a value the session
    already holds, gives every missing default key its default value, adds
    no other key, and a fresh session gets the defaults. *)
Theorem init_settings_merges_defaults {V : Type} (defaults : dict V) :
  init_settings defaults None = defaults
  /\ (forall s k v, dict_get k s = Some v ->
                    dict_get k (init_settings defaults (Some s)) = Some v)
  /\ (forall s k v, dict_get k s = None -> dict_get k defaults = Some v ->
                    dict_get k (init_settings defaults (Some s)) = Some v)
  /\ (forall s k, dict_get k s = None -> dict_get k defaults = None ->
                  dict_get k (init_settings defaults (Some s)) = None).
Proof.
  split; [reflexivity|]. split; [|split]; intros; simpl.
  - now apply fill_defaults_keeps.
  - now apply fill_defaults_adds.
  - now apply fill_defaults_no_other.
Qed.

Lemma init_settings_merges_defaults_witness :
  dict_get "window_size"
    (init_settings [("window_size"%string, 10%nat); ("max_ligands"%string, 4%nat)]
                   (Some [("window_size"%string, 25%nat)]))
  = Some 25%nat.
Proof.
  apply (proj1 (proj2 (init_settings_merges_defaults
                         [("window_size"%string, 10%nat); ("max_ligands"%string, 4%nat)]))
           [("window_size"%string, 25%nat)] "window_size"%string 25%nat).
  reflexivity.
Defined.

(** ** Per-ligand settings *)

Lemma palette_color_ok (idx : nat) :
  palette_color idx = Ok (nth (idx mod 10) COLOR_PALETTE ""%string).
Proof.
  unfold palette_color. change (List.length COLOR_PALETTE) with 10%nat.
  assert (H : (idx mod 10 < List.length COLOR_PALETTE)%nat)
    by (apply Nat.mod_upper_bound; discriminate).
  now rewrite (nth_error_nth' COLOR_PALETTE ""%string H).
Qed.

Lemma assign_ligand_settings_spec (ids : list string) :
  forall idx ls,
  exists ls',
    assign_ligand_settings idx ids ls = Ok ls' /\
    (forall id c, dict_get id ls = Some c -> dict_get id ls' = Some c) /\
    (forall id, In id ids -> dict_mem id ls' = true) /\
    (forall k id,
        nth_error ids k = Some id -> dict_get id ls = None ->
        (forall j, (j < k)%nat -> nth_error ids j <> Some id) ->
        dict_get id ls'
        = Some (default_ligand_cfg
                  (nth ((idx + k) mod 10) COLOR_PALETTE ""%string))).
Proof.
  induction ids as [|ligand rest IH]; intros idx ls.
  - exists ls. split; [reflexivity|]. split; [auto|]. split.
    + intros id [].
    + intros [|k] id H; discriminate.
  - cbn [assign_ligand_settings]. rewrite palette_color_ok. cbn [bind].
    set (c0 := default_ligand_cfg (nth (idx mod 10) COLOR_PALETTE ""%string)).
    set (ls1 := if dict_mem ligand ls then ls else dict_set ligand c0 ls).
    destruct (IH (S idx) ls1) as (ls' & Hok & Hkeep & Hmem & Hnew).
    assert (Hkeep1 : forall id c, dict_get id ls = Some c -> dict_get id ls1 = Some c)
      by (intros id c H; now apply dict_get_setdefault_present).
    exists ls'. split; [exact Hok|]. split; [|split].
    + intros id c H. apply Hkeep. now apply Hkeep1.
    + intros id [<-|Hin].
      * assert (H1 : exists c, dict_get ligand ls1 = Some c).
        { unfold ls1. destruct (dict_mem ligand ls) eqn:E.
          - unfold dict_mem in E. destruct (dict_get ligand ls); [eauto | discriminate].
          - exists c0. apply dict_get_set_same. }
        destruct H1 as (c & Hc). unfold dict_mem. now rewrite (Hkeep _ _ Hc).
      * now apply Hmem.
    + intros [|k] id Hnth Hnone Hfirst.
      * simpl in Hnth. injection Hnth as ->.
        replace (idx + 0)%nat with idx by lia.
        apply Hkeep. unfold ls1, dict_mem. rewrite Hnone.
        apply dict_get_set_same.
      * simpl in Hnth.
        assert (Hne : ligand <> id).
        { intros ->. apply (Hfirst 0%nat); [lia | reflexivity]. }
        replace (idx + S k)%nat with (S idx + k)%nat by lia.
        apply Hnew; [exact Hnth | |].
        -- unfold ls1. destruct (dict_mem ligand ls); [exact Hnone|].
           now rewrite dict_get_set_other.
        -- intros j Hj. apply (Hfirst (S j)). lia.
Qed.

(** The loop that assigns default per-ligand settings never fails;
    afterwards every ligand of the list has settings; settings that existed
    before are untouched;
    and a ligand seen for the first time at position [k] gets the palette
    colour number [k mod 10] for both lines, solid styles, and hidden frame
    lines. *)
Theorem ligand_settings_assignment (ids : list string) (ls : dict LigandCfg) :
  exists ls',
    assign_ligand_settings 0 ids ls = Ok ls' /\
    (forall id c, dict_get id ls = Some c -> dict_get id ls' = Some c) /\
    (forall id, In id ids -> dict_mem id ls' = true) /\
    (forall k id,
        nth_error ids k = Some id -> dict_get id ls = None ->
        (forall j, (j < k)%nat -> nth_error ids j <> Some id) ->
        dict_get id ls'
        = Some (default_ligand_cfg (nth (k mod 10) COLOR_PALETTE ""%string))).
Proof. exact (assign_ligand_settings_spec ids 0 ls). Qed.

(** The palette is used cyclically: positions 10 apart get the same default
    colour, and looking a colour up never goes out of range. *)
Theorem palette_cycles (idx : nat) :
  (exists c, palette_color idx = Ok c /\ In c COLOR_PALETTE) /\
  palette_color (idx + 10) = palette_color idx.
Proof.
  split.
  - exists (nth (idx mod 10) COLOR_PALETTE ""%string).
    split; [apply palette_color_ok|].
    apply nth_In. apply Nat.mod_upper_bound. discriminate.
  - rewrite !palette_color_ok.
    replace (idx + 10)%nat with (idx + 1 * 10)%nat by lia.
    now rewrite Nat.Div0.mod_add.
Qed.

(** ** Plot title *)

Lemma prefix_app (p r : string) : String.prefix p (p ++ r) = true.
Proof.
  induction p as [|a p IH]; simpl; [now destruct r|].
  destruct (Ascii.ascii_dec a a); [exact IH | congruence].
Qed.

Lemma prefix_split (p : string) :
  forall t, String.prefix p t = true -> exists r, t = (p ++ r)%string.
Proof.
  induction p as [|a p IH]; intros t H.
  - now exists t.
  - destruct t as [|b t]; [discriminate|]. simpl in H.
    destruct (Ascii.ascii_dec a b) as [->|]; [|discriminate].
    destruct (IH t H) as (r & ->). now exists r.
Qed.

Lemma contains_of_prefix (sub s : string) :
  String.prefix sub s = true -> contains sub s = true.
Proof. intros H. destruct s; simpl in *; now rewrite H. Qed.

Lemma contains_app_l (sub a s : string) :
  contains sub s = true -> contains sub (a ++ s) = true.
Proof.
  intros H. induction a as [|c a IH]; simpl; [exact H|].
  rewrite IH. apply orb_true_r.
Qed.

Lemma title_prefix_has_separator (t : string) :
  String.prefix TITLE_PREFIX t = true -> contains " - " t = true.
Proof.
  intros H. destruct (prefix_split _ _ H) as (r & ->).
  change TITLE_PREFIX with (DEFAULT_TITLE ++ " - ")%string.
  replace ((DEFAULT_TITLE ++ " - ") ++ r)%string
    with (DEFAULT_TITLE ++ (" - " ++ r))%string.
  - apply contains_app_l. apply contains_of_prefix. apply prefix_app.
  - clear H. unfold DEFAULT_TITLE. reflexivity.
Qed.

Lemma update_title_simpl (t l : string) :
  update_title t l
  = if String.eqb t DEFAULT_TITLE || String.eqb t "" || String.prefix TITLE_PREFIX t
    then (TITLE_PREFIX ++ l)%string else t.
Proof.
  unfold update_title.
  destruct (String.prefix TITLE_PREFIX t) eqn:E.
  - now rewrite (title_prefix_has_separator t E).
  - reflexivity.
Qed.

(** The title is replaced by the automatic one exactly when it is empty,
    the default, or begins with the automatic prefix (the test for " - " adds
    nothing); hence a title typed by the user that begins with the prefix is
    replaced too, any other custom title is kept, and after a second upload
    the title is what the second upload alone would have given. *)
Theorem title_update_rule :
  (forall t l,
      update_title t l
      = if String.eqb t DEFAULT_TITLE || String.eqb t ""
           || String.prefix TITLE_PREFIX t
        then (TITLE_PREFIX ++ l)%string else t)
  /\ (forall r l, update_title (TITLE_PREFIX ++ r) l = (TITLE_PREFIX ++ l)%string)
  /\ (forall t l,
      t <> ""%string -> t <> DEFAULT_TITLE ->
      String.prefix TITLE_PREFIX t = false ->
      update_title t l = t)
  /\ (forall t l1 l2,
      update_title (update_title t l1) l2 = update_title t l2).
Proof.
  assert (Hauto : forall r l,
             update_title (TITLE_PREFIX ++ r) l = (TITLE_PREFIX ++ l)%string).
  { intros r l. rewrite update_title_simpl, prefix_app.
    now rewrite orb_true_r. }
  split; [exact update_title_simpl|]. split; [exact Hauto|]. split.
  - intros t l H1 H2 H3. rewrite update_title_simpl, H3.
    apply String.eqb_neq in H1, H2. now rewrite H1, H2.
  - intros t l1 l2. rewrite (update_title_simpl t l1), (update_title_simpl t l2).
    destruct (String.eqb t DEFAULT_TITLE || String.eqb t ""
              || String.prefix TITLE_PREFIX t) eqn:E.
    + apply Hauto.
    + now rewrite update_title_simpl, E.
Qed.

(** ** Error bars drawn by the plot *)

Lemma nth_error_map2_float (f : float -> float -> float) (a : list float) :
  forall b j,
  nth_error (map2_float f a b) j
  = match nth_error a j, nth_error b j with
    | Some x, Some y => Some (f x y)
    | _, _ => None
    end.
Proof.
  induction a as [|x a IH]; intros b j.
  - simpl. now destruct j.
  - destruct b as [|y b]; simpl.
    + destruct j; simpl; [reflexivity|]. now destruct (nth_error a j).
    + destruct j; simpl; [reflexivity | apply IH].
Qed.

Lemma masked_bars_In (y : list float) :
  forall lower upper k bar,
  In bar (masked_bars k y lower upper) <->
  exists j yv l u,
    nth_error y j = Some yv /\
    nth_error lower j = Some (Num l) /\
    nth_error upper j = Some (Num u) /\
    bar = {| eb_index := k + j; eb_y := yv; eb_minus := l; eb_plus := u |}.
Proof.
  induction y as [|yv y IH]; intros lower upper k bar.
  - simpl. split; [intros [] | intros (j & ? & ? & ? & H & _)].
    destruct j; discriminate.
  - assert (Hshift : In bar (masked_bars (S k) y (tl lower) (tl upper)) <->
             exists j yv' l u,
               nth_error (yv :: y) (S j) = Some yv' /\
               nth_error lower (S j) = Some (Num l) /\
               nth_error upper (S j) = Some (Num u) /\
               bar = {| eb_index := k + S j; eb_y := yv'; eb_minus := l; eb_plus := u |}).
    { rewrite IH. split; intros (j & yv' & l & u & H1 & H2 & H3 & H4);
        exists j, yv', l, u.
      - destruct lower; [destruct j; discriminate|].
        destruct upper; [destruct j; discriminate|].
        simpl in *. repeat split; try assumption.
        rewrite H4. f_equal. lia.
      - destruct lower; [discriminate|]. destruct upper; [discriminate|].
        simpl in *. repeat split; try assumption.
        rewrite H4. f_equal. lia. }
    destruct lower as [|lv lower]; [|destruct upper as [|uv upper]].
    + simpl. split; [intros [] | intros (j & ? & ? & ? & _ & H & _)].
      destruct j; discriminate.
    + assert (E : masked_bars k (yv :: y) (lv :: lower) [] = [])
        by (simpl; now destruct lv).
      rewrite E. split; [intros [] | intros (j & ? & ? & ? & _ & _ & H & _)].
      destruct j; discriminate.
    + simpl tl in Hshift.
      assert (Hhead : forall j yv' l u,
                 nth_error (yv :: y) j = Some yv' ->
                 nth_error (lv :: lower) j = Some (Num l) ->
                 nth_error (uv :: upper) j = Some (Num u) ->
                 (j = 0%nat /\ yv' = yv /\ lv = Num l /\ uv = Num u) \/
                 exists j', j = S j').
      { intros [|j'] yv' l u H1 H2 H3; [left | right; eauto].
        simpl in *. injection H1 as <-. injection H2 as ->. injection H3 as ->.
        auto. }
      destruct lv as [|l0]; [|destruct uv as [|u0]].
      * change (masked_bars k (yv :: y) (NaN :: lower) (uv :: upper))
          with (masked_bars (S k) y lower upper).
        rewrite Hshift. split.
        -- intros (j & a & b & c & H). exists (S j), a, b, c. exact H.
        -- intros (j & a & b & c & H1 & H2 & H3 & H4).
           destruct (Hhead j a b c H1 H2 H3) as [(_ & _ & Hl & _)|(j' & ->)];
             [discriminate|].
           exists j', a, b, c. auto.
      * change (masked_bars k (yv :: y) (Num l0 :: lower) (NaN :: upper))
          with (masked_bars (S k) y lower upper).
        rewrite Hshift. split.
        -- intros (j & a & b & c & H). exists (S j), a, b, c. exact H.
        -- intros (j & a & b & c & H1 & H2 & H3 & H4).
           destruct (Hhead j a b c H1 H2 H3) as [(_ & _ & _ & Hu)|(j' & ->)];
             [discriminate|].
           exists j', a, b, c. auto.
      * change (masked_bars k (yv :: y) (Num l0 :: lower) (Num u0 :: upper))
          with ({| eb_index := k; eb_y := yv; eb_minus := l0; eb_plus := u0 |}
                :: masked_bars (S k) y lower upper).
        simpl In. rewrite Hshift. split.
        -- intros [<-|(j & a & b & c & H)].
           ++ exists 0%nat, yv, l0, u0. simpl.
              repeat split. f_equal. lia.
           ++ exists (S j), a, b, c. exact H.
        -- intros (j & a & b & c & H1 & H2 & H3 & H4).
           destruct (Hhead j a b c H1 H2 H3) as [(-> & -> & Hl & Hu)|(j' & ->)].
           ++ left. injection Hl as ->. injection Hu as ->.
              rewrite H4. f_equal. lia.
           ++ right. exists j', a, b, c. auto.
Qed.

Lemma fabs_sub_num (a b : float) (v : R) :
  fabs_sub a b = Num v <-> exists x y, a = Num x /\ b = Num y /\ v = Rabs (x - y).
Proof.
  split.
  - destruct a as [|x], b as [|y]; simpl; try discriminate.
    intros H. injection H as <-. eauto.
  - intros (x & y & -> & -> & ->). reflexivity.
Qed.

Lemma ci_bars_membership (settings : Settings) (r lower upper : list float) :
  error_type settings = ConfidenceInterval95 ->
  (show_running_mean settings = false ->
   forall flag b, error_bars settings flag r b = NoBars)
  /\ (show_running_mean settings = true ->
      exists drawn,
        error_bars settings true r
          {| yerr := None; ci_lower := Some lower; ci_upper := Some upper |}
        = Bars drawn /\
        forall bar,
          In bar drawn <->
          exists i m lo hi,
            nth_error r i = Some (Num m) /\
            nth_error lower i = Some (Num lo) /\
            nth_error upper i = Some (Num hi) /\
            bar = {| eb_index := i; eb_y := Num m;
                     eb_minus := Rabs (m - lo); eb_plus := Rabs (hi - m) |}).
Proof.
  intros Ht. split.
  - intros Hs flag b. unfold error_bars. now rewrite Hs.
  - intros Hs. unfold error_bars. rewrite Hs, Ht. cbn.
    eexists. split; [reflexivity|].
    intros bar. rewrite masked_bars_In. split.
    + intros (j & yv & l & u & Hy & Hl & Hu & ->).
      rewrite nth_error_map2_float in Hl, Hu. rewrite Hy in Hl, Hu.
      destruct (nth_error lower j) as [lv|] eqn:El; [|discriminate].
      destruct (nth_error upper j) as [uv|] eqn:Eu; [|discriminate].
      injection Hl as Hl. injection Hu as Hu.
      apply fabs_sub_num in Hl. destruct Hl as (m & lo & -> & -> & ->).
      apply fabs_sub_num in Hu. destruct Hu as (hi & m' & -> & Hm & ->).
      injection Hm as <-.
      exists j, m, lo, hi. repeat split; assumption.
    + intros (i & m & lo & hi & Hy & Hl & Hu & ->).
      exists i, (Num m), (Rabs (m - lo)), (Rabs (hi - m)).
      rewrite !nth_error_map2_float, Hy, Hl, Hu. repeat split.
Qed.

(** Without "show running mean" no bar is drawn at all, whatever the error
    type, the switch and the bands.  With it, in confidence-interval mode,
    a bar is drawn exactly at the indices where the running mean and both
    bounds are numbers; it is centred on the running mean and reaches down
    by [|mean - lower|] and up by [|upper - mean|]. *)
Theorem ci_bars_drawn (settings : Settings) (r lower upper : list float) :
  (show_running_mean settings = false ->
   forall flag b, error_bars settings flag r b = NoBars)
  /\ (show_running_mean settings = true ->
      error_type settings = ConfidenceInterval95 ->
      List.length lower = List.length r ->
      List.length upper = List.length r ->
      exists drawn,
        error_bars settings true r
          {| yerr := None; ci_lower := Some lower; ci_upper := Some upper |}
        = Bars drawn /\
        forall bar,
          In bar drawn <->
          exists i m lo hi,
            nth_error r i = Some (Num m) /\
            nth_error lower i = Some (Num lo) /\
            nth_error upper i = Some (Num hi) /\
            bar = {| eb_index := i; eb_y := Num m;
                     eb_minus := Rabs (m - lo); eb_plus := Rabs (hi - m) |}).
Proof.
  split.
  - intros Hs flag b. unfold error_bars. now rewrite Hs.
  - intros Hs Ht _ _.
    exact (proj2 (ci_bars_membership settings r lower upper Ht) Hs).
Qed.

Lemma masked_bars_all (y : list float) :
  forall ye k,
  List.length y = List.length ye ->
  (forall i, (i < List.length ye)%nat -> exists v, nth_error ye i = Some (Num v)) ->
  List.length (masked_bars k y ye ye) = List.length y /\
  forall i yv v,
    nth_error y i = Some yv -> nth_error ye i = Some (Num v) ->
    nth_error (masked_bars k y ye ye) i
    = Some {| eb_index := k + i; eb_y := yv; eb_minus := v; eb_plus := v |}.
Proof.
  induction y as [|yv0 y IH]; intros ye k Hlen Hall.
  - simpl. split; [reflexivity|]. intros [|i]; discriminate.
  - destruct ye as [|e ye]; [discriminate|].
    destruct (Hall 0%nat ltac:(simpl; lia)) as (v0 & Hv0).
    simpl in Hv0. injection Hv0 as ->.
    destruct (IH ye (S k)) as [IHl IHn].
    + simpl in Hlen. lia.
    + intros i Hi. apply (Hall (S i)). simpl. lia.
    + cbn [masked_bars]. split; [simpl; now rewrite IHl|].
      intros [|i] yv v Hy Hv; simpl in *.
      * injection Hy as <-. injection Hv as <-. do 2 f_equal. lia.
      * rewrite (IHn i yv v Hy Hv). do 2 f_equal. lia.
Qed.

Lemma fillna_entries (v : R) (s : Series) (i : nat) :
  (i < List.length (fillna v s))%nat ->
  exists x, nth_error (fillna v s) i = Some (Num x).
Proof.
  unfold fillna. rewrite length_map. intros H.
  rewrite nth_error_map, (nth_error_nth' s NaN H). simpl.
  destruct (nth i s NaN); eauto.
Qed.

Lemma std_error_obs_nonneg (obs : list R) :
  (1 <= List.length obs)%nat -> 0 <= std_error_obs obs.
Proof.
  intros H. unfold std_error_obs.
  apply Rmult_le_pos; [apply sqrt_pos|].
  left. apply Rinv_0_lt_compat. now apply sqrt_INR_pos.
Qed.

(** In standard-error and standard-deviation mode with a window size of at
    least 2, the plot draws one bar at every index of the series: none is
    masked, each is as long below as above the running mean, and no length
    is negative.  What [stats] is bound to plays no role. *)
Theorem symmetric_bars_at_every_index (stats_ : StatsBinding)
    (settings : Settings) (dg : Series) :
  show_running_mean settings = true ->
  show_error_bars settings = true ->
  error_type settings <> ConfidenceInterval95 ->
  (2 <= window_size settings)%nat ->
  exists r drawn,
    running (window_size settings) dg = Ok r /\
    plot_call_bars stats_ settings dg = Ok (Bars drawn) /\
    List.length drawn = List.length dg /\
    forall i, (i < List.length dg)%nat ->
      exists yv v,
        nth_error r i = Some yv /\ 0 <= v /\
        nth_error drawn i
        = Some {| eb_index := i; eb_y := yv; eb_minus := v; eb_plus := v |}.
Proof.
  intros Hrm Hs Ht Hw.
  assert (Hbands : exists y,
             error_bands stats_ settings dg
             = Ok {| yerr := Some y; ci_lower := None; ci_upper := None |} /\
             List.length y = List.length dg /\
             (forall i, (i < List.length y)%nat ->
                        exists v, nth_error y i = Some (Num v)) /\
             (forall i v, nth_error y i = Some (Num v) -> 0 <= v)).
  { destruct (error_type settings) eqn:E; [| |congruence].
    - unfold error_bands. rewrite Hs, E. unfold rolling_std, rolling_count.
      rewrite !rolling_ok by assumption. cbn [bind].
      unfold np_sqrt. rewrite map_map, series_div_map.
      eexists. split; [reflexivity|]. split; [|split].
      + unfold fillna. now rewrite !length_map, length_seq.
      + intros i Hi. now apply fillna_entries.
      + intros i v Hv. unfold fillna in Hv. rewrite map_map in Hv.
        apply nth_error_map_seq_inv in Hv. destruct Hv as [Hi Hv].
        cbv zeta in Hv.
        set (obs := dropna (rolling_window (window_size settings) i dg)) in *.
        destruct (Nat.ltb_spec (List.length obs) 2) as [Hlt|Hge].
        * simpl in Hv. injection Hv as <-. lra.
        * rewrite nanstd_two, fsqrt_INR, fdiv_sqrt_INR in Hv by lia.
          injection Hv as <-. apply (std_error_obs_nonneg obs). lia.
    - rewrite (error_bands_sd stats_) by assumption.
      eexists. split; [reflexivity|]. split; [|split].
      + unfold fillna. now rewrite !length_map, length_seq.
      + intros i Hi. now apply fillna_entries.
      + intros i v Hv. unfold fillna in Hv. rewrite map_map in Hv.
        apply nth_error_map_seq_inv in Hv. destruct Hv as [Hi Hv].
        cbv zeta in Hv.
        set (obs := dropna (rolling_window (window_size settings) i dg)) in *.
        destruct (Nat.ltb_spec (List.length obs) 2) as [Hlt|Hge].
        * injection Hv as <-. lra.
        * rewrite nanstd_two in Hv by lia. injection Hv as <-. apply sqrt_pos. }
  destruct Hbands as (y & Hy & Hlen & Hnum & Hpos).
  assert (Hr : running (window_size settings) dg
               = Ok (map (fun i =>
                       let obs := dropna (rolling_window (window_size settings) i dg) in
                       if (List.length obs <? 1)%nat then NaN else nanmean obs)
                     (seq 0 (List.length dg))))
    by (apply running_ok; lia).
  eexists. eexists. split; [exact Hr|].
  unfold plot_call_bars, analyse. rewrite Hr, Hy. cbn [bind a_running a_bands].
  unfold error_bars. rewrite Hrm, Hs. cbn [andb yerr].
  assert (Hl : List.length (map (fun i =>
                       let obs := dropna (rolling_window (window_size settings) i dg) in
                       if (List.length obs <? 1)%nat then NaN else nanmean obs)
                     (seq 0 (List.length dg))) = List.length y)
    by (now rewrite length_map, length_seq, Hlen).
  destruct (masked_bars_all _ y 0%nat Hl Hnum) as [Hml Hmn].
  assert (Hcase : (match error_type settings with
                   | StandardError | StandardDeviation =>
                       Bars (masked_bars 0 (map (fun i =>
                         let obs := dropna (rolling_window (window_size settings) i dg) in
                         if (List.length obs <? 1)%nat then NaN else nanmean obs)
                         (seq 0 (List.length dg))) y y)
                   | ConfidenceInterval95 => BarsWarning
                   end)
                  = Bars (masked_bars 0 (map (fun i =>
                         let obs := dropna (rolling_window (window_size settings) i dg) in
                         if (List.length obs <? 1)%nat then NaN else nanmean obs)
                         (seq 0 (List.length dg))) y y))
    by (destruct (error_type settings); [reflexivity | reflexivity | congruence]).
  split; [now rewrite <- Hcase|].
  split; [now rewrite Hml, length_map, length_seq|].
  intros i Hi.
  destruct (Hnum i ltac:(lia)) as (v & Hv).
  eexists _, v. split; [apply nth_error_map_seq; exact Hi|].
  split; [now apply (Hpos i)|].
  rewrite (Hmn i _ v (nth_error_map_seq _ _ _ Hi) Hv). reflexivity.
Qed.

Lemma Rabs_half (a : R) : Rabs (a / 2) = Rabs a / 2.
Proof.
  unfold Rdiv. rewrite Rabs_mult. f_equal.
  apply Rabs_pos_eq. lra.
Qed.

(** In confidence-interval mode with a window of at least 2, on the first
    series of a run, of at least two samples without missing values: the
    bar at index 0 has length 0; at index 1 the stored interval is the
    single sample [x1], but the bar is drawn around the running mean
    [(x0 + x1) / 2] with length [|x1 - x0| / 2] on both sides; and every bar
    drawn sits at an index of the series, centred on the running mean
    there. *)
Theorem ci_bars_of_the_pipeline (settings : Settings) (xs : list R) :
  show_running_mean settings = true ->
  show_error_bars settings = true ->
  error_type settings = ConfidenceInterval95 ->
  (2 <= window_size settings)%nat ->
  (2 <= List.length xs)%nat ->
  exists drawn,
    plot_call_bars ScipyStats settings (numeric xs) = Ok (Bars drawn) /\
    In {| eb_index := 0; eb_y := Num (nth 0 xs 0);
          eb_minus := 0; eb_plus := 0 |} drawn /\
    In {| eb_index := 1; eb_y := Num ((nth 0 xs 0 + nth 1 xs 0) / 2);
          eb_minus := Rabs (nth 1 xs 0 - nth 0 xs 0) / 2;
          eb_plus := Rabs (nth 1 xs 0 - nth 0 xs 0) / 2 |} drawn /\
    (forall bar,
        In bar drawn ->
        (eb_index bar < List.length xs)%nat /\
        eb_y bar
        = Num (mean_between xs
                 (window_start (window_size settings) (eb_index bar))
                 (eb_index bar))).
Proof.
  intros Hrm Hs Ht Hw HN.
  remember (window_size settings) as w eqn:Ew.
  assert (Hr : running w (numeric xs)
               = Ok (map (fun i =>
                       let obs := dropna (rolling_window w i (numeric xs)) in
                       if (List.length obs <? 1)%nat then NaN else nanmean obs)
                     (seq 0 (List.length (numeric xs)))))
    by (apply running_ok; lia).
  set (r := map (fun i =>
                   let obs := dropna (rolling_window w i (numeric xs)) in
                   if (List.length obs <? 1)%nat then NaN else nanmean obs)
                (seq 0 (List.length (numeric xs)))) in *.
  set (lower := map (fun i => fst (ci_at w (numeric xs) i))
                    (seq 0 (List.length (numeric xs)))).
  set (upper := map (fun i => snd (ci_at w (numeric xs) i))
                    (seq 0 (List.length (numeric xs)))).
  assert (Hrn : forall i, (i < List.length xs)%nat ->
                nth_error r i = Some (Num (mean_between xs (window_start w i) i))).
  { intros i Hi. destruct (running_nth xs w i ltac:(lia) Hi) as (r1 & Hr1 & _ & Hn).
    rewrite Hr in Hr1. now injection Hr1 as <-. }
  assert (Hln : forall i, (i < List.length xs)%nat ->
                nth_error lower i = Some (fst (ci_at w (numeric xs) i)))
    by (intros i Hi; unfold lower;
        now rewrite nth_error_map_seq by (now rewrite length_numeric)).
  assert (Hun : forall i, (i < List.length xs)%nat ->
                nth_error upper i = Some (snd (ci_at w (numeric xs) i)))
    by (intros i Hi; unfold upper;
        now rewrite nth_error_map_seq by (now rewrite length_numeric)).
  destruct (proj2 (ci_bars_membership settings r lower upper Ht) Hrm)
    as (drawn & Hd & Hin).
  exists drawn. split.
  { unfold plot_call_bars, analyse. rewrite <- Ew, Hr.
    rewrite error_bands_ci by assumption. cbn [bind a_running a_bands].
    rewrite Hs, <- Ew. exact (f_equal Ok Hd). }
  split; [|split].
  - apply Hin. exists 0%nat, (nth 0 xs 0), (nth 0 xs 0), (nth 0 xs 0).
    rewrite Hrn, Hln, Hun by lia.
    rewrite ci_at_degenerate by lia. cbn [fst snd].
    rewrite window_start_nat. replace (0 + 1 - w)%nat with 0%nat by lia.
    rewrite mean_between_self.
    repeat split.
    replace (nth 0 xs 0 - nth 0 xs 0) with 0 by ring.
    now rewrite Rabs_R0.
  - apply Hin.
    exists 1%nat, ((nth 0 xs 0 + nth 1 xs 0) / 2), (nth 1 xs 0), (nth 1 xs 0).
    rewrite Hrn, Hln, Hun by lia.
    rewrite ci_at_degenerate by lia. cbn [fst snd].
    rewrite window_start_nat. replace (1 + 1 - w)%nat with 0%nat by lia.
    assert (Hm : mean_between xs 0 1 = (nth 0 xs 0 + nth 1 xs 0) / 2)
      by (unfold mean_between; simpl; field).
    rewrite Hm. repeat split.
    f_equal.
    + replace ((nth 0 xs 0 + nth 1 xs 0) / 2 - nth 1 xs 0)
        with ((nth 0 xs 0 - nth 1 xs 0) / 2) by field.
      now rewrite Rabs_half, Rabs_minus_sym.
    + replace (nth 1 xs 0 - (nth 0 xs 0 + nth 1 xs 0) / 2)
        with ((nth 1 xs 0 - nth 0 xs 0) / 2) by field.
      symmetry. apply Rabs_half.
  - intros bar Hbar.
    apply Hin in Hbar. destruct Hbar as (j & m & lo & hi & Hm & _ & _ & ->).
    cbn [eb_index eb_y].
    assert (Hj : (j < List.length xs)%nat).
    { apply nth_error_map_seq_inv in Hm. destruct Hm as [Hj _].
      now rewrite length_numeric in Hj. }
    split; [exact Hj|].
    rewrite Hrn in Hm by assumption. injection Hm as <-.
    now rewrite Ew.
Qed.

End Viewer.

(** ** Instances *)

Lemma t2_ppf_symmetric (q : R) (n : nat) : t2_ppf (1 - q) n = - t2_ppf q n.
Proof.
  unfold t2_ppf.
  replace (2 * (1 - q) * (1 - (1 - q))) with (2 * q * (1 - q)) by ring.
  unfold Rdiv. ring.
Qed.

Lemma t2_ppf_positive (q : R) (n : nat) :
  1 / 2 < q < 1 -> (1 <= n)%nat -> 0 < t2_ppf q n.
Proof.
  intros [H1 H2] _. unfold t2_ppf.
  apply Rdiv_lt_0_compat; [lra|].
  apply sqrt_lt_R0. nra.
Qed.

Lemma sample_sd_example : 0 < sample_sd_between [1; 2; 4] 0 2.
Proof.
  unfold sample_sd_between. apply sqrt_lt_R0.
  assert (Hm : mean_between [1; 2; 4] 0 2 = 7 / 3)
    by (unfold mean_between; simpl; field).
  rewrite Hm. simpl. lra.
Qed.

Lemma confidence_band_spec_witness :
  exists lower upper,
    ci_band_at t2_ppf (ci_settings 3) (numeric [1; 2; 4]) 2
    = Some (lower,
            Num (mean_between [1; 2; 4] (window_start (window_size (ci_settings 3)) 2) 2),
            upper) /\
    ((2 < 2 \/ 2 + 1 - window_start (window_size (ci_settings 3)) 2 < 2)%nat ->
     lower = Num (nth 2 [1; 2; 4] 0) /\ upper = Num (nth 2 [1; 2; 4] 0)) /\
    ((2 = 0 \/ window_size (ci_settings 3) = 1)%nat ->
     mean_between [1; 2; 4] (window_start (window_size (ci_settings 3)) 2) 2
     = nth 2 [1; 2; 4] 0) /\
    ((2 <= 2)%nat ->
     (2 <= 2 + 1 - window_start (window_size (ci_settings 3)) 2)%nat ->
     0 < sample_sd_between [1; 2; 4] (window_start (window_size (ci_settings 3)) 2) 2 ->
     exists l u, lower = Num l /\ upper = Num u /\
       l < mean_between [1; 2; 4] (window_start (window_size (ci_settings 3)) 2) 2 < u) /\
    ((2 <= 2)%nat ->
     (2 <= 2 + 1 - window_start (window_size (ci_settings 3)) 2)%nat ->
     (lower = NaN /\ upper = NaN) \/
     exists l u, lower = Num l /\ upper = Num u /\ l <= u).
Proof.
  apply (confidence_band_spec t2_ppf t2_ppf_symmetric t2_ppf_positive
           (ci_settings 3) [1; 2; 4] 2%nat).
  - reflexivity.
  - reflexivity.
  - simpl; lia.
  - simpl; lia.
Defined.

Lemma confidence_band_symmetric_witness :
  ci_symmetric_at t2_ppf (ci_settings 3) [1; 2; 4] 2 /\
  exists T l u,
    0 < T /\
    ci_band_at t2_ppf (ci_settings 3) (numeric [1; 2; 4]) 2
    = Some (Num l,
            Num (mean_between [1; 2; 4] (window_start (window_size (ci_settings 3)) 2) 2),
            Num u) /\
    l = mean_between [1; 2; 4] (window_start (window_size (ci_settings 3)) 2) 2
        - T * std_error_between [1; 2; 4] (window_start (window_size (ci_settings 3)) 2) 2 /\
    u = mean_between [1; 2; 4] (window_start (window_size (ci_settings 3)) 2) 2
        + T * std_error_between [1; 2; 4] (window_start (window_size (ci_settings 3)) 2) 2 /\
    (l + u) / 2
    = mean_between [1; 2; 4] (window_start (window_size (ci_settings 3)) 2) 2.
Proof.
  apply (confidence_band_symmetric t2_ppf t2_ppf_symmetric t2_ppf_positive
           (ci_settings 3) [1; 2; 4] 2%nat).
  - reflexivity.
  - reflexivity.
  - simpl; lia.
  - simpl; lia.
  - lia.
  - change (window_size (ci_settings 3)) with 3%nat.
    rewrite window_start_nat. simpl; lia.
  - change (window_size (ci_settings 3)) with 3%nat.
    rewrite window_start_nat. exact sample_sd_example.
Defined.

(** With window 2 the band at index 1 of [1, 3] is the single value 3
    although the window holds both samples, and the running mean 2 lies
    outside it; with window 3 the band at index 2 of [1, 1, 1] is NaN on
    both sides although the window holds three samples. *)
Lemma confidence_band_not_ordered :
  ~ (exists t_ppf, ci_ordered_at t_ppf (ci_settings 2) [1; 3] 1)
  /\ ~ (exists t_ppf, ci_ordered_at t_ppf (ci_settings 3) [1; 1; 1] 2).
Proof.
  split.
  - intros (t & l & p & u & E & Hle).
    rewrite band_at_second_index in E.
    injection E as <- <- <-. lra.
  - intros (t & l & p & u & E & _).
    rewrite band_of_constant_window in E. discriminate E.
Qed.

(** On the constant series [1, 1, 1] with window 3 the band at index 2 has
    no midpoint: both bounds are NaN. *)
Lemma confidence_band_not_symmetric :
  ~ (exists t_ppf, ci_symmetric_at t_ppf (ci_settings 3) [1; 1; 1] 2).
Proof.
  intros (t & l & p & u & E & _).
  rewrite band_of_constant_window in E. discriminate E.
Qed.

Lemma missing_column_file_skipped_witness :
  csv_file (read_entry 0 file_without_energy) = file_without_energy /\
  exists text,
    (text = empty_file_error (read_entry 0 file_without_energy) \/
     text = missing_column_error (read_entry 0 file_without_energy)) /\
    (forall st,
        process_entry t2_ppf DEFAULT_SETTINGS 100 st (read_entry 0 file_without_energy)
        = Ok {| msgs := msgs st ++ [Error text];
                plotted := plotted st;
                all_stats := all_stats st |}) /\
    (forall st pre post,
        main_loop t2_ppf DEFAULT_SETTINGS 100 st
                  (pre ++ read_entry 0 file_without_energy :: post)
        = (st' <- main_loop t2_ppf DEFAULT_SETTINGS 100 st pre ;;
           main_loop t2_ppf DEFAULT_SETTINGS 100 (st_error st' text) post)) /\
    (forall st post,
        numbers (main_loop t2_ppf DEFAULT_SETTINGS 100 (st_error st text) post)
        = numbers (main_loop t2_ppf DEFAULT_SETTINGS 100 st post)) /\
    (forall st post st',
        main_loop t2_ppf DEFAULT_SETTINGS 100 (st_error st text) post = Ok st' ->
        In (Error text) (msgs st')) /\
    (0 < 100 ->
     forall shown,
       run t2_ppf text_only_format DEFAULT_SETTINGS 100 shown
           [read_entry 0 file_without_energy]
       = Ok (Stopped (shown ++ [Error text; no_valid_data]))).
Proof.
  apply (missing_column_file_skipped t2_ppf text_only_format
           DEFAULT_SETTINGS 100 0%nat
           file_without_energy table_without_energy).
  - reflexivity.
  - reflexivity.
Defined.

Lemma sample_file_valid (n : string) : valid_file (sample_file n).
Proof.
  exists sample_table, (numeric [1; 2; 3]), (CStr "ligand A").
  repeat split; reflexivity.
Qed.

Lemma titled_file_valid (n title : string) : valid_file (titled_file n title).
Proof.
  exists (titled_table title), (numeric [1; 2; 3]), (CStr title).
  repeat split; reflexivity.
Qed.

Lemma comparison_truncation_duplicate_labels_witness :
  run t2_ppf text_only_format (with_comparison_mode DEFAULT_SETTINGS 4) 100
      [truncation_warning 4]
      (read_entries 0 [sample_file "a.csv"; sample_file "b.csv";
                       sample_file "c.csv"; sample_file "d.csv"])
  = Raise StreamlitDuplicateElementKey
  /\ exists st,
    run t2_ppf text_only_format (with_comparison_mode DEFAULT_SETTINGS 4) 100
      (fst (upload_comparison (with_comparison_mode DEFAULT_SETTINGS 4)
              [titled_file "a.csv" "ligand A"; titled_file "b.csv" "ligand B";
               titled_file "c.csv" "ligand C"; titled_file "d.csv" "ligand D";
               titled_file "e.csv" "ligand E"]))
      (snd (upload_comparison (with_comparison_mode DEFAULT_SETTINGS 4)
              [titled_file "a.csv" "ligand A"; titled_file "b.csv" "ligand B";
               titled_file "c.csv" "ligand C"; titled_file "d.csv" "ligand D";
               titled_file "e.csv" "ligand E"]))
    = Ok (Rendered st) /\
    msgs st = [truncation_warning
                 (max_ligands (with_comparison_mode DEFAULT_SETTINGS 4))] /\
    map csv_file
      (snd (upload_comparison (with_comparison_mode DEFAULT_SETTINGS 4)
              [titled_file "a.csv" "ligand A"; titled_file "b.csv" "ligand B";
               titled_file "c.csv" "ligand C"; titled_file "d.csv" "ligand D";
               titled_file "e.csv" "ligand E"]))
    = firstn (max_ligands (with_comparison_mode DEFAULT_SETTINGS 4))
        [titled_file "a.csv" "ligand A"; titled_file "b.csv" "ligand B";
         titled_file "c.csv" "ligand C"; titled_file "d.csv" "ligand D";
         titled_file "e.csv" "ligand E"] /\
    map fst (all_stats st)
    = map ligand_id
        (snd (upload_comparison (with_comparison_mode DEFAULT_SETTINGS 4)
                [titled_file "a.csv" "ligand A"; titled_file "b.csv" "ligand B";
                 titled_file "c.csv" "ligand C"; titled_file "d.csv" "ligand D";
                 titled_file "e.csv" "ligand E"])) /\
    map p_ligand (plotted st)
    = map ligand_id
        (snd (upload_comparison (with_comparison_mode DEFAULT_SETTINGS 4)
                [titled_file "a.csv" "ligand A"; titled_file "b.csv" "ligand B";
                 titled_file "c.csv" "ligand C"; titled_file "d.csv" "ligand D";
                 titled_file "e.csv" "ligand E"])) /\
    List.length (all_stats st)
    = max_ligands (with_comparison_mode DEFAULT_SETTINGS 4).
Proof.
  split.
  - apply (proj1 (comparison_truncation_duplicate_labels t2_ppf text_only_format)
             (with_comparison_mode DEFAULT_SETTINGS 4) 100
             [truncation_warning 4]
             (read_entries 0 [sample_file "a.csv"; sample_file "b.csv";
                              sample_file "c.csv"; sample_file "d.csv"])).
    + reflexivity.
    + reflexivity.
  - apply (proj2 (proj2 (comparison_truncation_duplicate_labels
                           t2_ppf text_only_format))
             (with_comparison_mode DEFAULT_SETTINGS 4) 100
             [titled_file "a.csv" "ligand A"; titled_file "b.csv" "ligand B";
              titled_file "c.csv" "ligand C"; titled_file "d.csv" "ligand D";
              titled_file "e.csv" "ligand E"]).
    + simpl; lia.
    + simpl; lia.
    + lra.
    + simpl; lia.
    + left. reflexivity.
    + simpl. repeat constructor; apply titled_file_valid.
    + reflexivity.
Defined.

Lemma second_file_confidence_band_raises_witness :
  (all_stats (initial_state []) = [] ->
   exists st',
     process_entry t2_ppf (with_comparison_mode (ci_settings 2) 4) 100
       (initial_state []) (read_entry 0 (titled_file "a.csv" "ligand A"))
     = Ok st' /\
     all_stats st'
     = [(ligand_id (read_entry 0 (titled_file "a.csv" "ligand A")),
         compute_stats (numeric [1; 2; 3]))]) /\
  (all_stats (initial_state []) <> [] ->
   process_entry t2_ppf (with_comparison_mode (ci_settings 2) 4) 100
     (initial_state []) (read_entry 0 (titled_file "a.csv" "ligand A"))
   = Raise AttributeError) /\
  (all_stats (initial_state []) = [] ->
   main_loop t2_ppf (with_comparison_mode (ci_settings 2) 4) 100
     (initial_state [])
     [read_entry 0 (titled_file "a.csv" "ligand A");
      read_entry 0 (titled_file "a.csv" "ligand A")]
   = Raise AttributeError).
Proof.
  apply (proj1 (second_file_confidence_band_raises t2_ppf text_only_format)
           (with_comparison_mode (ci_settings 2) 4) 100 (initial_state [])
           (read_entry 0 (titled_file "a.csv" "ligand A"))
           (titled_table "ligand A") (numeric [1; 2; 3])).
  - reflexivity.
  - reflexivity.
  - reflexivity.
  - reflexivity.
  - reflexivity.
  - simpl; lia.
  - simpl; lia.
Defined.

Lemma analysis_arrays_aligned_witness :
  List.length (time_ns 100 (numeric [1; 2; 3])) = List.length (numeric [1; 2; 3]) /\
  List.length (a_running
       {| a_running := numeric [1; 3 / 2; 2]; a_bands := no_bands;
          a_stats := compute_stats (numeric [1; 2; 3]) |})
  = List.length (numeric [1; 2; 3]) /\
  (forall y, yerr no_bands = Some y -> List.length y = List.length (numeric [1; 2; 3])) /\
  (forall l, ci_lower no_bands = Some l -> List.length l = List.length (numeric [1; 2; 3])) /\
  (forall u, ci_upper no_bands = Some u -> List.length u = List.length (numeric [1; 2; 3])).
Proof.
  apply (analysis_arrays_aligned t2_ppf StatsDict
           (with_plot_title DEFAULT_SETTINGS "t") 100
           (numeric [1; 2; 3])
           {| a_running := numeric [1; 3 / 2; 2]; a_bands := no_bands;
              a_stats := compute_stats (numeric [1; 2; 3]) |}).
  unfold analyse. cbn.
  apply (f_equal (fun r => Ok {| a_running := r; a_bands := no_bands;
                                 a_stats := compute_stats (numeric [1; 2; 3]) |})).
  repeat (apply f_equal2; [apply f_equal; field|]). reflexivity.
Defined.

Lemma ci_is_mean_plus_quantile_times_standard_error_witness :
  exists yse se m,
    error_bands t2_ppf ScipyStats
                (with_error_bars DEFAULT_SETTINGS 3 StandardError)
                (numeric [1; 2; 4])
    = Ok {| yerr := Some yse; ci_lower := None; ci_upper := None |} /\
    nth_error yse 2 = Some (Num se) /\
    ci_band_at t2_ppf (with_error_bars DEFAULT_SETTINGS 3 ConfidenceInterval95)
               (numeric [1; 2; 4]) 2
    = Some (Num (t2_ppf ((1 - 0.95) / 2) (2 + 1 - window_start 3 2 - 1) * se + m),
            Num m,
            Num (t2_ppf ((1 + 0.95) / 2) (2 + 1 - window_start 3 2 - 1) * se + m)).
Proof.
  apply (ci_is_mean_plus_quantile_times_standard_error t2_ppf ScipyStats
           DEFAULT_SETTINGS 3%nat [1; 2; 4] 2%nat).
  - lia.
  - simpl; lia.
  - rewrite window_start_nat. exact sample_sd_example.
Defined.

Lemma standard_deviation_band_witness :
  exists y,
    error_bands t2_ppf StatsDict
                (with_error_bars DEFAULT_SETTINGS 2 StandardDeviation)
                [Num 1; NaN; Num 5]
    = Ok {| yerr := Some y; ci_lower := None; ci_upper := None |} /\
    nth_error y 2
    = Some (Num (let obs := dropna (rolling_window
                                      (window_size (with_error_bars DEFAULT_SETTINGS 2
                                                      StandardDeviation))
                                      2 [Num 1; NaN; Num 5]) in
                 if (2 <=? List.length obs)%nat
                 then sqrt (sq_dev obs / INR (List.length obs - 1))
                 else 0)).
Proof.
  apply (proj1 (standard_deviation_band t2_ppf StatsDict
                  (with_error_bars DEFAULT_SETTINGS 2 StandardDeviation)
                  eq_refl eq_refl ltac:(simpl; lia))
           [Num 1; NaN; Num 5] 2%nat).
  simpl; lia.
Defined.

Lemma standard_error_below_deviation_witness :
  exists yse ysd se sd,
    error_bands t2_ppf StatsDict
                (with_error_bars DEFAULT_SETTINGS 3 StandardError)
                (numeric [1; 2; 4])
    = Ok {| yerr := Some yse; ci_lower := None; ci_upper := None |} /\
    error_bands t2_ppf StatsDict
                (with_error_bars DEFAULT_SETTINGS 3 StandardDeviation)
                (numeric [1; 2; 4])
    = Ok {| yerr := Some ysd; ci_lower := None; ci_upper := None |} /\
    nth_error yse 2 = Some (Num se) /\
    nth_error ysd 2 = Some (Num sd) /\
    0 <= se <= sd.
Proof.
  apply (standard_error_below_deviation t2_ppf StatsDict DEFAULT_SETTINGS 3
           (numeric [1; 2; 4]) 2).
  - lia.
  - simpl; lia.
Defined.

Lemma ci_window_one_is_series_witness :
  error_bands t2_ppf StatsDict (ci_settings 1) [Num 1; NaN; Num 5; Num 2]
  = Ok {| yerr := None;
          ci_lower := Some [Num 1; NaN; Num 5; Num 2];
          ci_upper := Some [Num 1; NaN; Num 5; Num 2] |}.
Proof.
  apply (ci_window_one_is_series t2_ppf StatsDict (ci_settings 1)
           [Num 1; NaN; Num 5; Num 2]);
    reflexivity.
Defined.

Lemma ci_blank_on_missing_sample_witness :
  exists lower upper,
    error_bands t2_ppf ScipyStats (ci_settings 3) [Num 1; NaN; Num 5; Num 2]
    = Ok {| yerr := None; ci_lower := Some lower; ci_upper := Some upper |} /\
    nth_error lower 3 = Some NaN /\ nth_error upper 3 = Some NaN.
Proof.
  apply (ci_blank_on_missing_sample t2_ppf (ci_settings 3) [Num 1; NaN; Num 5; Num 2]
           3%nat 1%nat).
  - reflexivity.
  - reflexivity.
  - simpl; lia.
  - simpl; lia.
  - change (window_size (ci_settings 3)) with 3%nat.
    rewrite window_start_nat. simpl; lia.
  - reflexivity.
Defined.

Lemma analyse_raises_iff_witness :
  analyse t2_ppf StatsDict (ci_settings 2) (numeric [1; 2; 3])
  = Raise AttributeError.
Proof.
  apply (proj2 (proj1 (proj2 (analyse_raises_iff t2_ppf StatsDict
                                (ci_settings 2) (numeric [1; 2; 3]))))).
  split; [reflexivity|]. split; [reflexivity|]. split; [reflexivity|].
  split; simpl; lia.
Defined.

Lemma loop_accounts_for_every_entry_witness :
  exists new_msgs new_plots new_stats,
    msgs (st_error (initial_state [])
            (missing_column_error (read_entry 0 file_without_energy)))
    = msgs (initial_state []) ++ new_msgs /\
    plotted (st_error (initial_state [])
               (missing_column_error (read_entry 0 file_without_energy)))
    = plotted (initial_state []) ++ new_plots /\
    all_stats (st_error (initial_state [])
                 (missing_column_error (read_entry 0 file_without_energy)))
    = all_stats (initial_state []) ++ new_stats /\
    map p_ligand new_plots = map fst new_stats /\
    (List.length new_msgs + List.length new_stats
     = List.length [read_entry 0 file_without_energy])%nat /\
    Forall (fun m => exists text, m = Error text) new_msgs.
Proof.
  apply (loop_accounts_for_every_entry t2_ppf DEFAULT_SETTINGS 100
           [read_entry 0 file_without_energy] (initial_state [])).
  reflexivity.
Defined.

Lemma unreadable_file_is_reported_witness :
  (forall st rest,
      main_loop t2_ppf DEFAULT_SETTINGS 100 st (read_entry 2 unreadable_file :: rest)
      = main_loop t2_ppf DEFAULT_SETTINGS 100
          (st_error st (empty_file_error (read_entry 2 unreadable_file))) rest)
  /\ (0 < 100 ->
      forall shown,
        run t2_ppf text_only_format DEFAULT_SETTINGS 100 shown
            [read_entry 2 unreadable_file]
        = Ok (Stopped (shown ++ [Error (empty_file_error (read_entry 2 unreadable_file));
                                 no_valid_data]))).
Proof.
  apply (proj2 (unreadable_file_is_reported t2_ppf text_only_format
                  DEFAULT_SETTINGS 100 2%nat unreadable_file)).
  left. reflexivity.
Defined.

Lemma upload_comparison_shape_witness :
  map csv_file (snd (upload_comparison DEFAULT_SETTINGS
                       [sample_file "a.csv"; file_without_energy]))
  = [sample_file "a.csv"; file_without_energy].
Proof.
  apply (proj2 (proj2 (proj2 (upload_comparison_shape DEFAULT_SETTINGS
                                [sample_file "a.csv"; file_without_energy])))).
  simpl; lia.
Defined.

Lemma entry_label_never_empty_witness :
  ligand_id (read_entry 2 unreadable_file) = CStr "Ligand_3"
  /\ ligand_id (read_entry 0 file_without_title) = CStr "Ligand"
  /\ ligand_id (read_entry 0 (sample_file "a.csv")) = CStr "ligand A"
  /\ ligand_id (read_entry 0 (titled_file "a.csv" "")) = CStr "Ligand".
Proof.
  split; [|split; [|split]].
  - apply (proj1 (proj2 entry_label_never_empty) 2%nat unreadable_file
             ParserError).
    reflexivity.
  - apply (proj1 (proj2 (proj2 (proj2 entry_label_never_empty))) 0%nat
             file_without_title table_without_title); reflexivity.
  - apply (proj1 (proj2 (proj2 (proj2 (proj2 entry_label_never_empty))))
             0%nat (sample_file "a.csv") sample_table (CStr "ligand A"));
      reflexivity.
  - apply (proj1 (proj2 (proj2 (proj2 (proj2 entry_label_never_empty))))
             0%nat (titled_file "a.csv" "") (titled_table "") (CStr ""));
      reflexivity.
Defined.

Lemma ligand_settings_assignment_witness :
  exists ls',
    assign_ligand_settings 0 ["lig A"%string; "lig B"%string; "lig A"%string]
      [("lig B"%string, default_ligand_cfg "#000000")] = Ok ls' /\
    (forall id c,
        dict_get id [("lig B"%string, default_ligand_cfg "#000000")] = Some c ->
        dict_get id ls' = Some c) /\
    (forall id, In id ["lig A"%string; "lig B"%string; "lig A"%string] ->
                dict_mem id ls' = true) /\
    (forall k id,
        nth_error ["lig A"%string; "lig B"%string; "lig A"%string] k = Some id ->
        dict_get id [("lig B"%string, default_ligand_cfg "#000000")] = None ->
        (forall j, (j < k)%nat ->
                   nth_error ["lig A"%string; "lig B"%string; "lig A"%string] j
                   <> Some id) ->
        dict_get id ls'
        = Some (default_ligand_cfg (nth (k mod 10) COLOR_PALETTE ""%string))).
Proof.
  exact (ligand_settings_assignment
           ["lig A"%string; "lig B"%string; "lig A"%string]
           [("lig B"%string, default_ligand_cfg "#000000")]).
Defined.

Lemma title_update_rule_witness :
  update_title "Binding energy of my ligand" "ligand A"
  = "Binding energy of my ligand"%string.
Proof.
  apply (proj1 (proj2 (proj2 title_update_rule))
           "Binding energy of my ligand"%string "ligand A"%string).
  - discriminate.
  - discriminate.
  - reflexivity.
Defined.

Lemma ci_bars_drawn_witness :
  (forall flag b,
     error_bars (without_running_mean DEFAULT_SETTINGS) flag [Num 1; Num 2] b
     = NoBars)
  /\ exists drawn,
       error_bars (ci_settings 3) true [Num 1; Num 2]
         {| yerr := None; ci_lower := Some [Num 1; NaN];
            ci_upper := Some [Num 1; NaN] |}
       = Bars drawn /\
       forall bar,
         In bar drawn <->
         exists i m lo hi,
           nth_error [Num 1; Num 2] i = Some (Num m) /\
           nth_error [Num 1; NaN] i = Some (Num lo) /\
           nth_error [Num 1; NaN] i = Some (Num hi) /\
           bar = {| eb_index := i; eb_y := Num m;
                    eb_minus := Rabs (m - lo); eb_plus := Rabs (hi - m) |}.
Proof.
  split.
  - apply (proj1 (ci_bars_drawn (without_running_mean DEFAULT_SETTINGS)
                    [Num 1; Num 2] [] [])).
    reflexivity.
  - apply (proj2 (ci_bars_drawn (ci_settings 3) [Num 1; Num 2]
                    [Num 1; NaN] [Num 1; NaN])); reflexivity.
Defined.

Lemma symmetric_bars_at_every_index_witness :
  exists r drawn,
    running (window_size (with_error_bars DEFAULT_SETTINGS 3 StandardError))
            [Num 1; NaN; Num 5] = Ok r /\
    plot_call_bars t2_ppf StatsDict
                   (with_error_bars DEFAULT_SETTINGS 3 StandardError)
                   [Num 1; NaN; Num 5] = Ok (Bars drawn) /\
    List.length drawn = List.length [Num 1; NaN; Num 5] /\
    forall i, (i < List.length [Num 1; NaN; Num 5])%nat ->
      exists yv v,
        nth_error r i = Some yv /\ 0 <= v /\
        nth_error drawn i
        = Some {| eb_index := i; eb_y := yv; eb_minus := v; eb_plus := v |}.
Proof.
  apply (symmetric_bars_at_every_index t2_ppf StatsDict
           (with_error_bars DEFAULT_SETTINGS 3 StandardError) [Num 1; NaN; Num 5]).
  - reflexivity.
  - reflexivity.
  - discriminate.
  - simpl; lia.
Defined.

Lemma ci_bars_of_the_pipeline_witness :
  exists drawn,
    plot_call_bars t2_ppf ScipyStats (ci_settings 3) (numeric [1; 3; 3; 3])
    = Ok (Bars drawn) /\
    In {| eb_index := 0; eb_y := Num (nth 0 [1; 3; 3; 3] 0);
          eb_minus := 0; eb_plus := 0 |} drawn /\
    In {| eb_index := 1;
          eb_y := Num ((nth 0 [1; 3; 3; 3] 0 + nth 1 [1; 3; 3; 3] 0) / 2);
          eb_minus := Rabs (nth 1 [1; 3; 3; 3] 0 - nth 0 [1; 3; 3; 3] 0) / 2;
          eb_plus := Rabs (nth 1 [1; 3; 3; 3] 0 - nth 0 [1; 3; 3; 3] 0) / 2 |} drawn /\
    (forall bar,
        In bar drawn ->
        (eb_index bar < List.length [1; 3; 3; 3]%R)%nat /\
        eb_y bar
        = Num (mean_between [1; 3; 3; 3]
                 (window_start (window_size (ci_settings 3)) (eb_index bar))
                 (eb_index bar))).
Proof.
  apply (ci_bars_of_the_pipeline t2_ppf (ci_settings 3) [1; 3; 3; 3]).
  - reflexivity.
  - reflexivity.
  - reflexivity.
  - simpl; lia.
  - simpl; lia.
Defined.
